(** * ProposalHQ: request handlers as state-passing programs

    A shallow embedding of the server routes that decide a user's plan
    and quota, and of the page that calls them:

    - [Webhook.POST]   src/app/api/stripe/webhook/route.ts
    - [Generate.POST]  src/app/api/generate/route.ts
    - [Checkout.POST]  the checkout-session-create route
    - [Portal.POST]    the billing-portal-create route
    - [Page]           the page's functions that use the store and the
                       generation route

    Every handler is an [async function POST(req)] whose body is one
    [try { ... } catch (err) { ... }].  It is embedded as a function from
    the world (the two Supabase tables and the sequence of outside calls
    made so far) to a response and a new world.  What the outside answers
    (Stripe SDK, Supabase auth, OpenAI, the clock, [process.env]) is a
    field of the handler's [Env] record, so that every theorem holds for
    every behaviour of the outside. *)

From Stdlib Require Import ZArith Lia Ascii String.
From stdpp Require Import base option list strings pretty gmap fin_maps sorting.

Local Open Scope string_scope.
Local Open Scope Z_scope.

(** ** JavaScript values *)

Module Js.

(** What a [catch (err: any)] clause can read from the thrown value:
    [err?.message] and [err?.response?.data?.error?.message]. *)
Record Error := mkError {
  message : option string;
  response_data_error_message : option string;
}.

(** [new Error(msg)] *)
Definition new_Error (msg : string) : Error :=
  {| message := Some msg; response_data_error_message := None |}.

(** A call that may throw: [inl] is the thrown value. *)
Definition Throws (A : Type) : Type := Error + A.

(** Truthiness of a [string | null | undefined]: only a non-empty
    string is truthy. *)
Definition truthy (v : option string) : bool :=
  match v with
  | Some s => negb (String.eqb s "")
  | None => false
  end.

(** Truthiness of a [number | null | undefined] ([NaN] does not occur
    on integers). *)
Definition truthy_num (v : option Z) : bool :=
  match v with
  | Some n => negb (n =? 0)
  | None => false
  end.

(** [a || b] on [string | undefined] *)
Definition or_else (a b : option string) : option string :=
  if truthy a then a else b.

(** [a ?? b] *)
Definition nullish {A} (a : option A) (b : option A) : option A :=
  match a with
  | Some _ => a
  | None => b
  end.

(** A [string] holds the UTF-8 encoding of the JavaScript string.

    [String.prototype.trim] removes the code points of WhiteSpace and
    LineTerminator from both ends: TAB, LF, VT, FF, CR and SPACE, of one
    byte each; U+00A0, of two bytes; U+1680, U+2000 to U+200A, U+2028,
    U+2029, U+202F, U+205F, U+3000 and U+FEFF, of three bytes each. *)
Definition is_space1 (a : ascii) : bool :=
  let n := nat_of_ascii a in
  ((9 <=? n)%nat && (n <=? 13)%nat) || (n =? 32)%nat.

(** U+00A0 is C2 A0. *)
Definition is_space2 (a b : ascii) : bool :=
  (nat_of_ascii a =? 194)%nat && (nat_of_ascii b =? 160)%nat.

Definition is_space3 (a b c : ascii) : bool :=
  let x := nat_of_ascii a in
  let y := nat_of_ascii b in
  let z := nat_of_ascii c in
  (* U+1680 is E1 9A 80 *)
  ((x =? 225) && (y =? 154) && (z =? 128))%nat
  (* U+2000 to U+200A are E2 80 80 to E2 80 8A; U+2028 and U+2029 are
     E2 80 A8 and E2 80 A9; U+202F is E2 80 AF *)
  || ((x =? 226) && (y =? 128)
      && (((128 <=? z) && (z <=? 138)) || (z =? 168) || (z =? 169) || (z =? 175)))%nat
  (* U+205F is E2 81 9F *)
  || ((x =? 226) && (y =? 129) && (z =? 159))%nat
  (* U+3000 is E3 80 80 *)
  || ((x =? 227) && (y =? 128) && (z =? 128))%nat
  (* U+FEFF is EF BB BF *)
  || ((x =? 239) && (y =? 187) && (z =? 191))%nat.

(** [trimStart]: white space is removed from the front, code point by
    code point. *)
Fixpoint trim_start (s : string) : string :=
  match s with
  | String a s1 =>
      if is_space1 a then trim_start s1 else
      match s1 with
      | String b s2 =>
          if is_space2 a b then trim_start s2 else
          match s2 with
          | String c s3 => if is_space3 a b c then trim_start s3 else s
          | EmptyString => s
          end
      | EmptyString => s
      end
  | EmptyString => EmptyString
  end.

(** The same on the reversed string, where the bytes of a code point
    come last byte first. *)
Fixpoint trim_start_rev (s : string) : string :=
  match s with
  | String a s1 =>
      if is_space1 a then trim_start_rev s1 else
      match s1 with
      | String b s2 =>
          if is_space2 b a then trim_start_rev s2 else
          match s2 with
          | String c s3 => if is_space3 c b a then trim_start_rev s3 else s
          | EmptyString => s
          end
      | EmptyString => s
      end
  | EmptyString => EmptyString
  end.

Fixpoint rev_string (s acc : string) : string :=
  match s with
  | String c s' => rev_string s' (String c acc)
  | EmptyString => acc
  end.

Definition trim (s : string) : string :=
  rev_string (trim_start_rev (rev_string (trim_start s) "")) "".

(** [s.length]: the number of UTF-16 code units of the string.  A code
    point of one, two or three bytes is one unit and one of four bytes
    (lead byte F0 and above) is two; continuation bytes (80 to BF) count
    nothing. *)
Fixpoint length (s : string) : nat :=
  match s with
  | String a s' =>
      let n := nat_of_ascii a in
      ((if (n <? 128) || (192 <=? n) then 1 else 0)
       + (if 240 <=? n then 1 else 0) + length s')%nat
  | EmptyString => 0%nat
  end.

End Js.

(** ** The relational store *)

Inductive Plan := free | pro.

#[global] Instance Plan_eq_dec : EqDecision Plan.
Proof. solve_decision. Defined.

(** Instants written by [toISOString()] into a [timestamptz] column are
    kept as the millisecond count the string denotes. *)
Definition Timestamptz := Z.

(** One row of [profiles]; the table is keyed by [user_id] (the
    [onConflict: "user_id"] target), which is therefore the key of the
    map below and not repeated in the row. *)
Record ProfileRow := mkProfile {
  email : option string;
  plan : Plan;
  stripe_customer_id : option string;
  stripe_subscription_id : option string;
  current_period_end : option Timestamptz;
  updated_at : Timestamptz;
}.

(** A JavaScript [Date] seen through its local-time getters and setters,
    and a [created_at] instant read on the same clock. *)
Record Date := mkDate {
  getFullYear : Z; getMonth : Z; getDate : Z;
  getHours : Z; getMinutes : Z; getSeconds : Z; getMilliseconds : Z;
}.

Record ProposalRow := mkProposal {
  id : string;
  user_id : string;
  client_name : string;
  notes : string;
  proposal : string;
  created_at : Date;
}.

(** Parameters of [stripe.checkout.sessions.create]. *)
Record SessionParams := mkSessionParams {
  sp_mode : string;
  sp_price : string;
  sp_quantity : Z;
  sp_customer_email : string;
  sp_success_url : string;
  sp_cancel_url : string;
  sp_metadata_user_id : string;
}.

(** Calls that leave the handler, in the order they are made. *)
Inductive Effect :=
| ConsoleError (label : string) (e : Js.Error)
| StripeSubscriptionsRetrieve (subscription_id : string)
| StripeCheckoutSessionsCreate (params : SessionParams)
| ProfilesSelectByCustomer (customer_id : string)
| ProfilesSelectPlan (uid : string)
| ProfilesUpsert (uid : string) (row : ProfileRow)
| AuthGetUser (token : string)
| ProposalsCount (uid : string) (since : Date)
| ProposalsInsert (row : ProposalRow)
| OpenAIChatCompletionsCreate (prompt : string).

Record World := mkWorld {
  profiles : gmap string ProfileRow;
  proposals : list ProposalRow;
  trace : list Effect;
}.

(** ** Responses *)

Inductive Body :=
| BError (error : string)
| BOk (note : option string)
| BLimit (error code : string) (limit used : nat)
| BGenerated (proposal : string) (saved : ProposalRow)
| BUrl (url : option string).

Record Response := mkResponse { status : nat; body : Body }.

(** [NextResponse.json(body, { status })]; the status defaults to 200. *)
Definition json (b : Body) (st : nat) : Response := {| status := st; body := b |}.
Definition json_ok (b : Body) : Response := json b 200.

(** ** Handler code

    A statement of a handler either falls through to the next statement,
    executes [return NextResponse.json(...)], or throws. *)

Inductive Outcome (A : Type) : Type :=
| Next (a : A)
| Return (r : Response)
| Throw (e : Js.Error).
Arguments Next {A} a.
Arguments Return {A} r.
Arguments Throw {A} e.

Definition Handler (A : Type) : Type := World → Outcome A * World.

#[global] Instance Handler_ret : MRet Handler := λ A a w, (Next a, w).

#[global] Instance Handler_bind : MBind Handler := λ A B f m w,
  match m w with
  | (Next a, w') => f a w'
  | (Return r, w') => (Return r, w')
  | (Throw e, w') => (Throw e, w')
  end.

Definition respond {A} (r : Response) : Handler A := λ w, (Return r, w).
Definition throw {A} (e : Js.Error) : Handler A := λ w, (Throw e, w).

(** [await f(...)] where the promise may reject. *)
Definition await {A} (r : Js.Throws A) : Handler A :=
  match r with
  | inl e => throw e
  | inr a => mret a
  end.

Definition emit (e : Effect) : Handler () := λ w,
  (Next tt, {| profiles := profiles w; proposals := proposals w;
               trace := trace w ++ [e] |}).

Definition get_world : Handler World := λ w, (Next w, w).

Definition set_profiles (t : gmap string ProfileRow) : Handler () := λ w,
  (Next tt, {| profiles := t; proposals := proposals w; trace := trace w |}).

Definition set_proposals (t : list ProposalRow) : Handler () := λ w,
  (Next tt, {| profiles := profiles w; proposals := t; trace := trace w |}).

(** [try { body } catch (err) { console.error(label, err); return on_error(err) }]
    around a whole function body. *)
Definition try_catch (body : Handler Response) (label : string)
    (on_error : Js.Error → Response) : World → Response * World := λ w,
  match body w with
  | (Next r, w') | (Return r, w') => (r, w')
  | (Throw e, w') =>
      (on_error e, {| profiles := profiles w'; proposals := proposals w';
                      trace := trace w' ++ [ConsoleError label e] |})
  end.

Definition run {A} (h : World → A * World) (w : World) : A := (h w).1.
Definition exec {A} (h : World → A * World) (w : World) : World := (h w).2.

(** Rows of [profiles] whose [stripe_customer_id] equals [cid]:
    [.from("profiles").select("user_id,email").eq("stripe_customer_id", cid)] *)
Definition profiles_eq_customer (cid : string) (t : gmap string ProfileRow)
    : list (string * ProfileRow) :=
  map_to_list (filter (λ kp, stripe_customer_id kp.2 = Some cid) t).

(** [.maybeSingle()]: no row is [null], one row is that row, and more
    than one row is an error of the query. *)
Definition maybeSingle {A} (rows : list A) : string + option A :=
  match rows with
  | [] => inr None
  | [r] => inr (Some r)
  | _ => inl "JSON object requested, multiple (or no) rows returned"
  end.

(** ** src/app/api/stripe/webhook/route.ts *)

Module Webhook.

(** A field the Stripe API gives either as an id or expanded into the
    object that carries the id ([string | Stripe.Customer | null]). *)
Inductive Expandable :=
| ExpId (id : string)
| ExpObject (id : string)
| ExpNull.

Record CustomerDetails := { cd_email : option string }.

Record CheckoutSession := {
  mode : string;
  metadata : option (gmap string string);
  customer : Expandable;
  subscription : Expandable;
  customer_details : option CustomerDetails;
  customer_email : option string;
}.

Record Subscription := {
  sub_id : option string;
  sub_customer : Expandable;
  sub_status : option string;
  sub_current_period_end : option Z;
}.

(** [Stripe.Event] is a union discriminated by [event.type]; the
    handler reads [event.data.object] at the type its [type] fixes. *)
Inductive Event :=
| checkout_session_completed (session : CheckoutSession)
| customer_subscription_updated (sub : Subscription)
| customer_subscription_deleted (sub : Subscription)
| other_event (type : string).

(** What [stripe.subscriptions.retrieve] resolves to, as far as
    [toStripeSubscription] tells the cases apart. *)
Inductive SubscriptionResponse :=
| Wrapped (data : Subscription)
| Plain (sub : Subscription)
| NotAnObject.

Record Request := {
  stripe_signature : option string;   (* req.headers.get("stripe-signature") *)
  text : string;                      (* await req.text() *)
}.

Record Env := {
  STRIPE_WEBHOOK_SECRET : option string;
  constructEvent : string → string → string → Js.Throws Event;
  subscriptions_retrieve : string → Js.Throws SubscriptionResponse;
  now : Timestamptz;                  (* new Date() *)
  select_error : option string;       (* [error.message] of the select, if the store fails *)
  upsert_error : option string;       (* [error.message] of the upsert, if the store fails *)
}.

Definition toStripeSubscription (obj : SubscriptionResponse) : Js.Throws Subscription :=
  match obj with
  | Wrapped data => inr data
  | Plain sub => inr sub
  | NotAnObject => inl (Js.new_Error "Could not parse Stripe subscription object")
  end.

(** Largest time value of a valid [Date]; [toISOString] throws a
    [RangeError] beyond it. *)
Definition max_time_value : Z := 8640000000000000.

Definition unixToIso (unixSeconds : option Z) : Js.Throws (option Timestamptz) :=
  if negb (Js.truthy_num unixSeconds) then inr None
  else
    let ms := default 0 unixSeconds * 1000 in
    if Z.abs ms <=? max_time_value then inr (Some ms)
    else inl (Js.new_Error "Invalid time value").

Record UpsertParams := {
  p_user_id : string;
  p_email : option string;
  p_plan : Plan;
  p_stripe_customer_id : option string;
  p_stripe_subscription_id : option string;
  p_current_period_end : option Timestamptz;
}.

Definition upsertProfile (env : Env) (params : UpsertParams) : Handler () :=
  let row :=
    {| email := Js.nullish (p_email params) None;
       plan := p_plan params;
       stripe_customer_id := Js.nullish (p_stripe_customer_id params) None;
       stripe_subscription_id := Js.nullish (p_stripe_subscription_id params) None;
       current_period_end := Js.nullish (p_current_period_end params) None;
       updated_at := now env |} in
  emit (ProfilesUpsert (p_user_id params) row);;
  match upsert_error env with
  | Some msg => throw (Js.new_Error ("Supabase upsert failed: " ++ msg))
  | None =>
      w ← get_world;
      set_profiles (<[p_user_id params := row]> (profiles w))
  end.

(** [typeof x === "string" ? x : x?.id ?? null] *)
Definition id_or_null (x : Expandable) : option string :=
  match x with
  | ExpId s => Some s
  | ExpObject i => Some i
  | ExpNull => None
  end.

(** [typeof x === "string" ? x : (x as any).id] *)
Definition id_of (x : Expandable) : Js.Throws string :=
  match x with
  | ExpId s => inr s
  | ExpObject i => inr i
  | ExpNull => inl (Js.new_Error "Cannot read properties of null (reading 'id')")
  end.

(** The profile lookup shared by the two subscription branches. *)
Definition select_profile_by_customer (env : Env) (customerId : string)
    : Handler (option (string * ProfileRow)) :=
  emit (ProfilesSelectByCustomer customerId);;
  w ← get_world;
  let result :=
    match select_error env with
    | Some msg => inl msg
    | None => maybeSingle (profiles_eq_customer customerId (profiles w))
    end in
  match result with
  | inl msg => throw (Js.new_Error msg)
  | inr profile => mret profile
  end.

Definition on_checkout_completed (env : Env) (session : CheckoutSession)
    : Handler Response :=
  if negb (String.eqb (mode session) "subscription") then
    respond (json_ok (BOk (Some "Ignored non-subscription checkout")))
  else
  let userId := metadata session ≫= (.!! "user_id") in
  if negb (Js.truthy userId) then
    respond (json_ok (BOk (Some "Missing session.metadata.user_id")))
  else
  let customerId := id_or_null (customer session) in
  let subscriptionId := id_or_null (subscription session) in
  currentPeriodEndIso ←
    (if Js.truthy subscriptionId then
       emit (StripeSubscriptionsRetrieve (default "" subscriptionId));;
       subRaw ← await (subscriptions_retrieve env (default "" subscriptionId));
       sub ← await (toStripeSubscription subRaw);
       let cpe := sub_current_period_end sub in
       await (unixToIso (Js.nullish cpe None))
     else mret None);
  upsertProfile env
    {| p_user_id := default "" userId;
       p_email := Js.nullish (customer_details session ≫= cd_email)
                    (Js.nullish (customer_email session) None);
       p_plan := pro;
       p_stripe_customer_id := customerId;
       p_stripe_subscription_id := subscriptionId;
       p_current_period_end := currentPeriodEndIso |};;
  respond (json_ok (BOk None)).

(** [status === "active" ? "pro" : "free"] *)
Definition plan_of_status (status : option string) : Plan :=
  if decide (status = Some "active") then pro else free.

Definition on_subscription_updated (env : Env) (subEvent : Subscription)
    : Handler Response :=
  customerId ← await (id_of (sub_customer subEvent));
  profile ← select_profile_by_customer env customerId;
  match profile with
  | None => respond (json_ok (BOk (Some "No profile for customer")))
  | Some (profile_user_id, profile_row) =>
      let status := sub_status subEvent in
      let plan := plan_of_status status in
      let cpe := sub_current_period_end subEvent in
      currentPeriodEndIso ← await (unixToIso (Js.nullish cpe None));
      upsertProfile env
        {| p_user_id := profile_user_id;
           p_email := Js.nullish (email profile_row) None;
           p_plan := plan;
           p_stripe_customer_id := Some customerId;
           p_stripe_subscription_id := Js.nullish (sub_id subEvent) None;
           p_current_period_end := currentPeriodEndIso |};;
      respond (json_ok (BOk None))
  end.

Definition on_subscription_deleted (env : Env) (subEvent : Subscription)
    : Handler Response :=
  customerId ← await (id_of (sub_customer subEvent));
  profile ← select_profile_by_customer env customerId;
  match profile with
  | None => respond (json_ok (BOk (Some "No profile for customer")))
  | Some (profile_user_id, profile_row) =>
      upsertProfile env
        {| p_user_id := profile_user_id;
           p_email := Js.nullish (email profile_row) None;
           p_plan := free;
           p_stripe_customer_id := Some customerId;
           p_stripe_subscription_id := None;
           p_current_period_end := None |};;
      respond (json_ok (BOk None))
  end.

(** The [try] block of [POST]. *)
Definition POST_try (env : Env) (req : Request) : Handler Response :=
  let sig := stripe_signature req in
  if negb (Js.truthy sig) then
    respond (json (BError "Missing stripe-signature") 400)
  else
  if negb (Js.truthy (STRIPE_WEBHOOK_SECRET env)) then
    respond (json (BError "Missing STRIPE_WEBHOOK_SECRET") 500)
  else
  let rawBody := text req in
  event ←
    match constructEvent env rawBody (default "" sig)
            (default "" (STRIPE_WEBHOOK_SECRET env)) with
    | inl err =>
        emit (ConsoleError "Stripe signature verification failed:" err);;
        respond (json (BError "Invalid signature") 400)
    | inr event => mret event
    end;
  match event with
  | checkout_session_completed session => on_checkout_completed env session
  | customer_subscription_updated subEvent => on_subscription_updated env subEvent
  | customer_subscription_deleted subEvent => on_subscription_deleted env subEvent
  | other_event _ => respond (json_ok (BOk None))
  end.

Definition POST (env : Env) (req : Request) : World → Response * World :=
  try_catch (POST_try env req) "Stripe webhook error:"
    (λ err, json (BError (default "Webhook error" (Js.message err))) 400).

(** *** Vocabulary of the statements *)

(** The request carries a signature header, the signing secret is
    configured, and [constructEvent] accepts the body and yields
    [event]. *)
Definition verified (env : Env) (req : Request) (event : Event) : Prop :=
  Js.truthy (stripe_signature req) = true ∧
  Js.truthy (STRIPE_WEBHOOK_SECRET env) = true ∧
  constructEvent env (text req) (default "" (stripe_signature req))
    (default "" (STRIPE_WEBHOOK_SECRET env)) = inr event.

(** The request carries a signature header, the signing secret is
    configured, and [constructEvent] throws [err]. *)
Definition signature_fails (env : Env) (req : Request) (err : Js.Error) : Prop :=
  Js.truthy (stripe_signature req) = true ∧
  Js.truthy (STRIPE_WEBHOOK_SECRET env) = true ∧
  constructEvent env (text req) (default "" (stripe_signature req))
    (default "" (STRIPE_WEBHOOK_SECRET env)) = inl err.

(** [session.metadata?.user_id] *)
Definition metadata_user_id (session : CheckoutSession) : option string :=
  metadata session ≫= (.!! "user_id").

(** Row [p] under key [uid] is the one profile whose customer
    reference is [cid]. *)
Definition sole_profile_of_customer (cid uid : string) (p : ProfileRow)
    (t : gmap string ProfileRow) : Prop :=
  t !! uid = Some p ∧ stripe_customer_id p = Some cid ∧
  ∀ uid' p', t !! uid' = Some p' → stripe_customer_id p' = Some cid → uid' = uid.

Definition no_profile_of_customer (cid : string) (t : gmap string ProfileRow) : Prop :=
  ∀ uid p, t !! uid = Some p → stripe_customer_id p ≠ Some cid.

(** Events the state machine does not act on: a checkout that is not
    a subscription or does not name the user, a subscription event
    whose customer has no profile, and every other event type. *)
Definition not_actionable (event : Event) (t : gmap string ProfileRow) : Prop :=
  match event with
  | checkout_session_completed session =>
      mode session ≠ "subscription" ∨ Js.truthy (metadata_user_id session) = false
  | customer_subscription_updated sub | customer_subscription_deleted sub =>
      ∃ cid, id_of (sub_customer sub) = inr cid ∧ no_profile_of_customer cid t
  | other_event _ => True
  end.

(** [session.customer_details?.email ?? session.customer_email ?? null] *)
Definition session_email (session : CheckoutSession) : option string :=
  Js.nullish (customer_details session ≫= cd_email) (customer_email session).

(** Two rows that differ at most in the period end and in
    [updated_at]. *)
Definition same_plan_and_references (p1 p2 : ProfileRow) : Prop :=
  email p2 = email p1 ∧ plan p2 = plan p1 ∧
  stripe_customer_id p2 = stripe_customer_id p1 ∧
  stripe_subscription_id p2 = stripe_subscription_id p1.

(** The store answers both queries. *)
Definition store_answers (env : Env) : Prop :=
  select_error env = None ∧ upsert_error env = None.

(** A checkout the handler acts on: a subscription that names the
    user. *)
Definition acted_on (session : CheckoutSession) : Prop :=
  mode session = "subscription" ∧ Js.truthy (metadata_user_id session) = true.

(** The period end the checkout branch obtains: none for a session
    without subscription, and otherwise the one the provider's answer
    to the lookup carries. *)
Inductive checkout_period_end (env : Env) (session : CheckoutSession)
    : option Timestamptz → Prop :=
| no_subscription :
    Js.truthy (id_or_null (subscription session)) = false →
    checkout_period_end env session None
| looked_up (sid : string) (resp : SubscriptionResponse) (sub : Subscription)
    (cpe : option Timestamptz) :
    id_or_null (subscription session) = Some sid → sid ≠ "" →
    subscriptions_retrieve env sid = inr resp →
    toStripeSubscription resp = inr sub →
    unixToIso (sub_current_period_end sub) = inr cpe →
    checkout_period_end env session cpe.

(** The subscription a subscription event is about. *)
Definition subscription_of (event : Event) : option Subscription :=
  match event with
  | customer_subscription_updated sub | customer_subscription_deleted sub => Some sub
  | _ => None
  end.

(** The steps of the handler that can throw once the signature has
    verified, with what they throw: the provider's subscription lookup,
    reading the event, the profile query and the upsert.  A step is
    listed with the steps before it having succeeded. *)
Inductive step_throws (env : Env) (t : gmap string ProfileRow)
    : Event → Js.Error → Prop :=
(* the provider's subscription lookup, for a checkout *)
| lookup_throws session sid err :
    acted_on session →
    id_or_null (subscription session) = Some sid → sid ≠ "" →
    subscriptions_retrieve env sid = inl err →
    step_throws env t (checkout_session_completed session) err
| lookup_answer_unreadable session sid resp err :
    acted_on session →
    id_or_null (subscription session) = Some sid → sid ≠ "" →
    subscriptions_retrieve env sid = inr resp →
    toStripeSubscription resp = inl err →
    step_throws env t (checkout_session_completed session) err
| lookup_period_end_invalid session sid resp sub err :
    acted_on session →
    id_or_null (subscription session) = Some sid → sid ≠ "" →
    subscriptions_retrieve env sid = inr resp →
    toStripeSubscription resp = inr sub →
    unixToIso (sub_current_period_end sub) = inl err →
    step_throws env t (checkout_session_completed session) err
(* reading the event *)
| customer_unreadable event sub err :
    subscription_of event = Some sub →
    id_of (sub_customer sub) = inl err →
    step_throws env t event err
| period_end_invalid sub cid uid p err :
    id_of (sub_customer sub) = inr cid →
    select_error env = None →
    sole_profile_of_customer cid uid p t →
    unixToIso (sub_current_period_end sub) = inl err →
    step_throws env t (customer_subscription_updated sub) err
(* the profile query *)
| query_fails event sub cid msg :
    subscription_of event = Some sub →
    id_of (sub_customer sub) = inr cid →
    select_error env = Some msg →
    step_throws env t event (Js.new_Error msg)
| query_finds_two event sub cid u1 u2 p1 p2 :
    subscription_of event = Some sub →
    id_of (sub_customer sub) = inr cid →
    select_error env = None →
    u1 ≠ u2 →
    t !! u1 = Some p1 → stripe_customer_id p1 = Some cid →
    t !! u2 = Some p2 → stripe_customer_id p2 = Some cid →
    step_throws env t event
      (Js.new_Error "JSON object requested, multiple (or no) rows returned")
(* the upsert *)
| checkout_upsert_fails session cpe msg :
    acted_on session →
    checkout_period_end env session cpe →
    upsert_error env = Some msg →
    step_throws env t (checkout_session_completed session)
      (Js.new_Error ("Supabase upsert failed: " ++ msg))
| updated_upsert_fails sub cid uid p cpe msg :
    id_of (sub_customer sub) = inr cid →
    select_error env = None →
    sole_profile_of_customer cid uid p t →
    unixToIso (sub_current_period_end sub) = inr cpe →
    upsert_error env = Some msg →
    step_throws env t (customer_subscription_updated sub)
      (Js.new_Error ("Supabase upsert failed: " ++ msg))
| deleted_upsert_fails sub cid uid p msg :
    id_of (sub_customer sub) = inr cid →
    select_error env = None →
    sole_profile_of_customer cid uid p t →
    upsert_error env = Some msg →
    step_throws env t (customer_subscription_deleted sub)
      (Js.new_Error ("Supabase upsert failed: " ++ msg)).

End Webhook.

(** ** src/app/api/generate/route.ts *)

Module Generate.

Record User := { user_id_of : string; user_email : option string }.

(** [{ data: { user }, error }] of [supabase.auth.getUser()] *)
Record GetUserResult := { data_user : option User; auth_error : option string }.

(** The parsed JSON body; a property that is absent, [null] or not
    sent is [None] (the page sends both as strings). *)
Record JsonBody := { clientName : option string; body_notes : option string }.

Record Request := {
  authorization : option string;          (* req.headers.get("authorization") *)
  req_json : Js.Throws (option JsonBody); (* await req.json(); [None] is JSON null *)
}.

Record Env := {
  NEXT_PUBLIC_SUPABASE_URL : option string;
  NEXT_PUBLIC_SUPABASE_ANON_KEY : option string;
  OPENAI_API_KEY : option string;
  auth_getUser : string → GetUserResult;
  new_Date : Date;                        (* the server clock: new Date() of step 3 *)
  profiles_error : bool;                  (* the plan query fails *)
  count_error : bool;                     (* the count query fails *)
  insert_error : option string;           (* [saveErr.message] *)
  chat_completions_create : string → Js.Throws (option string);
  gen_random_uuid : string;               (* the id the store gives the new row *)
  created_at_default : Date;              (* the created_at the store gives it, at the insert *)
}.

Definition FREE_LIMIT : nat := 3.

(** [authHeader.startsWith("Bearer ") ? authHeader.slice(7) : null] *)
Definition bearer_token (authHeader : string) : option string :=
  if String.prefix "Bearer " authHeader
  then Some (String.substring 7 (String.length authHeader - 7) authHeader)
  else None.

Definition setDate (d : Date) (day : Z) : Date :=
  {| getFullYear := getFullYear d; getMonth := getMonth d; getDate := day;
     getHours := getHours d; getMinutes := getMinutes d;
     getSeconds := getSeconds d; getMilliseconds := getMilliseconds d |}.

Definition setHours (d : Date) (h m s ms : Z) : Date :=
  {| getFullYear := getFullYear d; getMonth := getMonth d; getDate := getDate d;
     getHours := h; getMinutes := m; getSeconds := s; getMilliseconds := ms |}.

Definition startOfMonth (now : Date) : Date := setHours (setDate now 1) 0 0 0 0.

Fixpoint lex_leb (a b : list Z) : bool :=
  match a, b with
  | x :: a', y :: b' => (x <? y) || ((x =? y) && lex_leb a' b')
  | _, _ => true
  end.

Definition Date_fields (d : Date) : list Z :=
  [getFullYear d; getMonth d; getDate d; getHours d; getMinutes d;
   getSeconds d; getMilliseconds d].

(** [a <= b] on instants of one clock *)
Definition Date_leb (a b : Date) : bool := lex_leb (Date_fields a) (Date_fields b).

(** [.from("proposals").select("id", { count: "exact", head: true })
     .eq("user_id", uid).gte("created_at", since)] *)
Definition count_since (uid : string) (since : Date) (t : list ProposalRow) : nat :=
  length (filter (λ r, user_id r = uid ∧ Is_true (Date_leb since (created_at r))) t).

Definition prompt_of (clientName notes : string) : string :=
  "Write a client-ready marketing proposal for " ++ clientName ++ ".
Discovery notes:
" ++ notes ++ "

Include sections:
1) Executive Summary
2) Goals & Success Metrics
3) Current Situation
4) Strategy Overview
5) Scope of Work (bullets)
6) 30/60/90 Day Plan
7) Pricing Options (3 tiers; middle is Recommended)
8) Assumptions & What We Need From You
9) Next Steps

Rules: be specific, no fake results.".

Definition limit_message : string :=
  "Free plan limit reached (" ++ pretty FREE_LIMIT
    ++ "/month). Upgrade to Pro for unlimited proposals.".

(** 1) Must be logged in (lines 9-40) *)
Definition must_be_logged_in (env : Env) (req : Request) : Handler User :=
  let authHeader := default "" (Js.or_else (authorization req) (Some "")) in
  let token := bearer_token authHeader in
  if negb (Js.truthy token) then respond (json (BError "Unauthorized") 401) else
  if negb (Js.truthy (NEXT_PUBLIC_SUPABASE_URL env))
     || negb (Js.truthy (NEXT_PUBLIC_SUPABASE_ANON_KEY env)) then
    respond (json (BError "Missing Supabase env vars on server") 500)
  else
  emit (AuthGetUser (default "" token));;
  let res := auth_getUser env (default "" token) in
  match auth_error res, data_user res with
  | None, Some user => mret user
  | _, _ => respond (json (BError "Unauthorized") 401)
  end.

(** 2) Load plan (lines 42-56) *)
Definition load_plan (env : Env) (user : User) : Handler Plan :=
  emit (ProfilesSelectPlan (user_id_of user));;
  w ← get_world;
  if profiles_error env then
    respond (json (BError "Could not load user plan") 500)
  else
  let profile := profiles w !! user_id_of user in
  mret (default free (plan <$> profile)).

(** 3) Enforce FREE limit (lines 58-90) *)
Definition enforce_free_limit (env : Env) (user : User) (plan : Plan) : Handler () :=
  if decide (plan ≠ pro) then
    let startOfMonth := startOfMonth (new_Date env) in
    emit (ProposalsCount (user_id_of user) startOfMonth);;
    w ← get_world;
    if count_error env then
      respond (json (BError "Could not check usage") 500)
    else
    let count := Some (count_since (user_id_of user) startOfMonth (proposals w)) in
    if (FREE_LIMIT <=? default 0%nat count)%nat then
      respond (json (BLimit limit_message "FREE_LIMIT_REACHED" FREE_LIMIT
                       (default 0%nat count)) 402)
    else mret tt
  else mret tt.

(** 4) Parse body (lines 92-100) *)
Definition parse_body (req : Request) : Handler (string * string) :=
  parsed ← await (req_json req);
  match parsed with
  | None =>
      throw (Js.new_Error
        "Cannot destructure property 'clientName' of '(intermediate value)' as it is null.")
  | Some b =>
      if negb (Js.truthy (clientName b)) || negb (Js.truthy (body_notes b)) then
        respond (json (BError "Missing clientName or notes") 400)
      else mret (default "" (clientName b), default "" (body_notes b))
  end.

(** 5) OpenAI (lines 102-139) *)
Definition openai (env : Env) (clientName notes : string) : Handler string :=
  let apiKey := OPENAI_API_KEY env in
  if negb (Js.truthy apiKey) then
    respond (json (BError "OPENAI_API_KEY is missing on the server") 500)
  else
  let prompt := prompt_of clientName notes in
  emit (OpenAIChatCompletionsCreate prompt);;
  content ← await (chat_completions_create env prompt);
  mret (default "" content).

(** 6) Save server-side (lines 141-161).  The insert names neither
    [id] nor [created_at]: the store fills them in. *)
Definition save (env : Env) (user : User) (clientName notes proposal : string)
    : Handler Response :=
  let row :=
    {| id := gen_random_uuid env;
       user_id := user_id_of user;
       client_name := Js.trim clientName;
       notes := notes;
       proposal := proposal;
       created_at := created_at_default env |} in
  emit (ProposalsInsert row);;
  match insert_error env with
  | Some msg =>
      emit (ConsoleError "Save failed:" (Js.new_Error msg));;
      respond (json (BError ("Save failed: " ++ msg)) 500)
  | None =>
      w ← get_world;
      set_proposals (proposals w ++ [row]);;
      respond (json_ok (BGenerated proposal row))
  end.

(** Steps 4 to 6: what a request does once it is let through. *)
Definition generate_and_save (env : Env) (req : Request) (user : User)
    : Handler Response :=
  '(clientName, notes) ← parse_body req;
  proposal ← openai env clientName notes;
  save env user clientName notes proposal.

Definition POST_try (env : Env) (req : Request) : Handler Response :=
  user ← must_be_logged_in env req;
  plan ← load_plan env user;
  enforce_free_limit env user plan;;
  generate_and_save env req user.

(** The [catch] clause of [POST] around [body]. *)
Definition catch_all (body : Handler Response) : World → Response * World :=
  try_catch body "API /generate ERROR:"
    (λ err,
       let message :=
         Js.or_else (Js.response_data_error_message err)
           (Js.or_else (Js.message err) (Some "Unexpected error")) in
       json (BError (default "" message)) 500).

Definition POST (env : Env) (req : Request) : World → Response * World :=
  catch_all (POST_try env req).

(** *** Vocabulary of the statements *)

(** The request carries the bearer token [token], the Supabase
    client can be built, and the identity provider resolves the token
    to [user]. *)
Definition authenticated (env : Env) (req : Request) (token : string) (user : User)
    : Prop :=
  bearer_token (default "" (Js.or_else (authorization req) (Some ""))) = Some token ∧
  token ≠ "" ∧
  Js.truthy (NEXT_PUBLIC_SUPABASE_URL env) = true ∧
  Js.truthy (NEXT_PUBLIC_SUPABASE_ANON_KEY env) = true ∧
  auth_getUser env token = {| data_user := Some user; auth_error := None |}.

(** [profile?.plan ?? "free"] for the profile row of [uid] *)
Definition plan_of (uid : string) (w : World) : Plan :=
  default free (plan <$> profiles w !! uid).

(** The world after the outside calls [es]. *)
Definition after (es : list Effect) (w : World) : World :=
  {| profiles := profiles w; proposals := proposals w; trace := trace w ++ es |}.

(** The month's proposals of [uid], as step 3 counts them. *)
Definition used_this_month (env : Env) (uid : string) (w : World) : nat :=
  count_since uid (startOfMonth (new_Date env)) (proposals w).

(** A [Date] as the getters of a valid date give it: the day of the
    month counts from 1 and the time of day from 0. *)
Definition valid_Date (d : Date) : Prop :=
  1 ≤ getDate d ∧ 0 ≤ getHours d ∧ 0 ≤ getMinutes d ∧ 0 ≤ getSeconds d ∧
  0 ≤ getMilliseconds d.

(** The Quota Window in the words of the specification: "proposals
    owned by this user created since the start of the current calendar
    month".  [d] is of the calendar month of [now] or of a later one. *)
Definition since_start_of_month (now d : Date) : Prop :=
  getFullYear now < getFullYear d ∨
  (getFullYear d = getFullYear now ∧ getMonth now ≤ getMonth d).

#[global] Instance since_start_of_month_dec now d :
  Decision (since_start_of_month now d).
Proof. unfold since_start_of_month. apply _. Defined.

Definition quota_window_count (uid : string) (now : Date) (t : list ProposalRow)
    : nat :=
  length (filter (λ r, user_id r = uid ∧ since_start_of_month now (created_at r)) t).

(** The request of [user] passes steps 1 to 3 and reaches step 4 in
    world [w']: it is authenticated, its plan is loaded, and it is on
    the [pro] plan or has made fewer than 3 proposals this month. *)
Definition let_through (env : Env) (req : Request) (w : World)
    (token : string) (user : User) (w' : World) : Prop :=
  let uid := user_id_of user in
  authenticated env req token user ∧
  profiles_error env = false ∧
  ((plan_of uid w = pro ∧
    w' = after [AuthGetUser token; ProfilesSelectPlan uid] w)
   ∨
   (plan_of uid w = free ∧ count_error env = false ∧
    (used_this_month env uid w < 3)%nat ∧
    w' = after [AuthGetUser token; ProfilesSelectPlan uid;
                ProposalsCount uid (startOfMonth (new_Date env))] w)).

End Generate.

(** ** The checkout-session-create route *)

Module Checkout.

Record JsonBody := { body_email : option string; body_userId : option string }.

Record Request := {
  req_json : Js.Throws (option JsonBody);  (* await req.json(); [None] is JSON null *)
}.

Record Env := {
  STRIPE_SECRET_KEY : option string;
  NEXT_PUBLIC_STRIPE_PRICE_ID : option string;
  NEXT_PUBLIC_SITE_URL : option string;
  sessions_create : SessionParams → Js.Throws (option string);  (* session.url *)
}.

Definition POST_try (env : Env) (req : Request) : Handler Response :=
  parsed ← await (req_json req);
  body ← match parsed with
         | None => throw (Js.new_Error "Cannot read properties of null (reading 'email')")
         | Some b => mret b
         end;
  let email := body_email body in
  let userId := body_userId body in
  if negb (Js.truthy (STRIPE_SECRET_KEY env)) then
    respond (json (BError "Missing STRIPE_SECRET_KEY") 500)
  else
  if negb (Js.truthy (NEXT_PUBLIC_STRIPE_PRICE_ID env)) then
    respond (json (BError "Missing NEXT_PUBLIC_STRIPE_PRICE_ID") 500)
  else
  if negb (Js.truthy email) then
    respond (json (BError "Missing email") 400)
  else
  if negb (Js.truthy userId) then
    respond (json (BError "Missing userId") 400)
  else
  let siteUrl :=
    default "" (Js.or_else (NEXT_PUBLIC_SITE_URL env) (Some "http://localhost:3000")) in
  let params :=
    {| sp_mode := "subscription";
       sp_price := default "" (NEXT_PUBLIC_STRIPE_PRICE_ID env);
       sp_quantity := 1;
       sp_customer_email := default "" email;
       sp_success_url := siteUrl ++ "/billing/success?session_id={CHECKOUT_SESSION_ID}";
       sp_cancel_url := siteUrl ++ "/billing/cancel";
       sp_metadata_user_id := default "" userId |} in
  emit (StripeCheckoutSessionsCreate params);;
  url ← await (sessions_create env params);
  respond (json_ok (BUrl url)).

Definition POST (env : Env) (req : Request) : World → Response * World :=
  try_catch (POST_try env req) "Stripe checkout error:"
    (λ err,
       json (BError (default ""
               (Js.or_else (Js.message err) (Some "Stripe checkout failed")))) 500).

End Checkout.

(** ** Sample servers, requests and worlds *)

Module Samples.

Definition empty_world : World := {| profiles := ∅; proposals := []; trace := [] |}.

(** *** Stripe *)

Definition secret : string := "whsec_test".

(** A stand-in for the signature scheme: the signature names the
    secret and the payload it was computed over. *)
Definition sign (secret payload : string) : string :=
  "t=1,v1=" ++ secret ++ "/" ++ payload.

Definition ada_session (sub : Webhook.Expandable) : Webhook.CheckoutSession :=
  {| Webhook.mode := "subscription";
     Webhook.metadata := Some {[ "user_id" := "user-ada" ]};
     Webhook.customer := Webhook.ExpId "cus_ada";
     Webhook.subscription := sub;
     Webhook.customer_details := Some {| Webhook.cd_email := Some "ada@example.com" |};
     Webhook.customer_email := None |}.

Definition ada_subscription (status : string) : Webhook.Subscription :=
  {| Webhook.sub_id := Some "sub_ada";
     Webhook.sub_customer := Webhook.ExpId "cus_ada";
     Webhook.sub_status := Some status;
     Webhook.sub_current_period_end := Some 1800000000 |}.

(** The events behind the sample payloads. *)
Definition parse (payload : string) : Webhook.Event :=
  if String.eqb payload "checkout" then
    Webhook.checkout_session_completed (ada_session (Webhook.ExpId "sub_ada"))
  else if String.eqb payload "checkout-without-subscription" then
    Webhook.checkout_session_completed (ada_session Webhook.ExpNull)
  else if String.eqb payload "checkout-unknown-subscription" then
    Webhook.checkout_session_completed (ada_session (Webhook.ExpId "sub_gone"))
  else if String.eqb payload "updated-past-due" then
    Webhook.customer_subscription_updated (ada_subscription "past_due")
  else if String.eqb payload "updated-active" then
    Webhook.customer_subscription_updated (ada_subscription "active")
  else if String.eqb payload "deleted" then
    Webhook.customer_subscription_deleted (ada_subscription "canceled")
  else Webhook.other_event payload.

Definition construct (payload sig secret : string) : Js.Throws Webhook.Event :=
  if String.eqb sig (sign secret payload) then inr (parse payload)
  else inl (Js.new_Error "No signatures found matching the expected signature for payload.").

Definition retrieve (subscription_id : string) : Js.Throws Webhook.SubscriptionResponse :=
  if String.eqb subscription_id "sub_ada"
  then inr (Webhook.Plain (ada_subscription "active"))
  else inl (Js.new_Error ("No such subscription: " ++ subscription_id)).

(** The webhook server at clock reading [now]. *)
Definition stripe_server (now : Timestamptz) : Webhook.Env :=
  {| Webhook.STRIPE_WEBHOOK_SECRET := Some secret;
     Webhook.constructEvent := construct;
     Webhook.subscriptions_retrieve := retrieve;
     Webhook.now := now;
     Webhook.select_error := None;
     Webhook.upsert_error := None |}.

(** The payload with the signature Stripe computes over it. *)
Definition signed (payload : string) : Webhook.Request :=
  {| Webhook.stripe_signature := Some (sign secret payload);
     Webhook.text := payload |}.

(** A changed body under the signature of the original one. *)
Definition tampered : Webhook.Request :=
  {| Webhook.stripe_signature := Some (sign secret "updated-past-due");
     Webhook.text := "checkout" |}.

Definition ada_profile : ProfileRow :=
  {| email := Some "ada@example.com"; plan := pro;
     stripe_customer_id := Some "cus_ada";
     stripe_subscription_id := Some "sub_ada";
     current_period_end := Some 1800000000000;
     updated_at := 1000 |}.

Definition ada_is_pro : World :=
  {| profiles := {[ "user-ada" := ada_profile ]}; proposals := []; trace := [] |}.

(** Ada after a payment has failed: on the free plan, the
    subscription still on the profile. *)
Definition ada_past_due_profile : ProfileRow :=
  {| email := Some "ada@example.com"; plan := free;
     stripe_customer_id := Some "cus_ada";
     stripe_subscription_id := Some "sub_ada";
     current_period_end := Some 1800000000000;
     updated_at := 2000 |}.

Definition ada_is_past_due : World :=
  {| profiles := {[ "user-ada" := ada_past_due_profile ]};
     proposals := []; trace := [] |}.

(** The empty store after one delivery of the checkout event at
    clock reading 1000, and after a second delivery at 2000. *)
Definition after_first_delivery : World :=
  exec (Webhook.POST (stripe_server 1000) (signed "checkout")) empty_world.

Definition after_second_delivery : World :=
  exec (Webhook.POST (stripe_server 2000) (signed "checkout")) after_first_delivery.

(** *** Generation *)

Definition ada : Generate.User :=
  {| Generate.user_id_of := "user-ada"; Generate.user_email := Some "ada@example.com" |}.

Definition november_2nd : Date :=
  {| getFullYear := 2026; getMonth := 10; getDate := 2;
     getHours := 13; getMinutes := 10; getSeconds := 0; getMilliseconds := 0 |}.

(** The instant of the insert, after the provider has answered. *)
Definition four_seconds_later : Date :=
  {| getFullYear := 2026; getMonth := 10; getDate := 2;
     getHours := 13; getMinutes := 10; getSeconds := 4; getMilliseconds := 250 |}.

Definition generate_server : Generate.Env :=
  {| Generate.NEXT_PUBLIC_SUPABASE_URL := Some "https://project.supabase.co";
     Generate.NEXT_PUBLIC_SUPABASE_ANON_KEY := Some "anon";
     Generate.OPENAI_API_KEY := Some "sk-test";
     Generate.auth_getUser := λ token,
       if String.eqb token "token-ada"
       then {| Generate.data_user := Some ada; Generate.auth_error := None |}
       else {| Generate.data_user := None; Generate.auth_error := Some "invalid JWT" |};
     Generate.new_Date := november_2nd;
     Generate.profiles_error := false;
     Generate.count_error := false;
     Generate.insert_error := None;
     Generate.chat_completions_create := λ _, inr (Some "PROPOSAL");
     Generate.gen_random_uuid := "proposal-4";
     Generate.created_at_default := four_seconds_later |}.

Definition generate_request (clientName notes : option string) : Generate.Request :=
  {| Generate.authorization := Some "Bearer token-ada";
     Generate.req_json :=
       inr (Some {| Generate.clientName := clientName; Generate.body_notes := notes |}) |}.

Definition proposal_of_ada (id : string) (day : Z) : ProposalRow :=
  {| id := id; user_id := "user-ada"; client_name := "Acme"; notes := "notes";
     proposal := "text";
     created_at := {| getFullYear := 2026; getMonth := 10; getDate := day;
                      getHours := 9; getMinutes := 0; getSeconds := 0;
                      getMilliseconds := 0 |} |}.

Definition proposal_of (uid id : string) (month day : Z) : ProposalRow :=
  {| id := id; user_id := uid; client_name := "Acme"; notes := "notes";
     proposal := "text";
     created_at := {| getFullYear := 2026; getMonth := month; getDate := day;
                      getHours := 9; getMinutes := 0; getSeconds := 0;
                      getMilliseconds := 0 |} |}.

(** Proposals of October by Ada and of November by Bob. *)
Definition of_october_and_of_bob : list ProposalRow :=
  [proposal_of "user-ada" "proposal-a" 9 30; proposal_of "user-bob" "proposal-b" 10 1;
   proposal_of "user-ada" "proposal-c" 9 31; proposal_of "user-bob" "proposal-d" 10 1;
   proposal_of "user-bob" "proposal-e" 10 2; proposal_of "user-bob" "proposal-f" 10 2].

(** Ada, on the free plan, has made two proposals in November, among
    the proposals above; and three. *)
Definition ada_two_among_others : World :=
  {| profiles := ∅;
     proposals := proposal_of_ada "proposal-1" 1 :: of_october_and_of_bob
                  ++ [proposal_of_ada "proposal-2" 1];
     trace := [] |}.

Definition ada_three_among_others : World :=
  {| profiles := ∅;
     proposals := proposal_of_ada "proposal-1" 1 :: of_october_and_of_bob
                  ++ [proposal_of_ada "proposal-2" 1; proposal_of_ada "proposal-3" 2];
     trace := [] |}.

(** Ada, on the free plan, has made three proposals this month. *)
Definition ada_used_three : World :=
  {| profiles := ∅;
     proposals := [proposal_of_ada "proposal-1" 1; proposal_of_ada "proposal-2" 1;
                   proposal_of_ada "proposal-3" 2];
     trace := [] |}.

(** *** Checkout *)

Definition checkout_server : Checkout.Env :=
  {| Checkout.STRIPE_SECRET_KEY := Some "sk_test";
     Checkout.NEXT_PUBLIC_STRIPE_PRICE_ID := Some "price_pro";
     Checkout.NEXT_PUBLIC_SITE_URL := None;
     Checkout.sessions_create := λ _, inr (Some "https://checkout.stripe.com/c/pay") |}.

Definition checkout_request (email userId : option string) : Checkout.Request :=
  {| Checkout.req_json :=
       inr (Some {| Checkout.body_email := email; Checkout.body_userId := userId |}) |}.

End Samples.

(** ** Further vocabulary *)

(** The rows of two tables agree at every key but [uid]. *)
Definition same_but_at (uid : string) (t t' : gmap string ProfileRow) : Prop :=
  ∀ uid', uid' ≠ uid → t' !! uid' = t !! uid'.

(** What a branch of the webhook's dispatch can do to the tables: it
    leaves the proposals alone, and either leaves the profiles alone, or
    writes one row and acknowledges. *)
Definition branch_footprint (h : Handler Response) : Prop :=
  ∀ w o w', h w = (o, w') →
    proposals w' = proposals w ∧
    (profiles w' = profiles w
     ∨ o = Return (json_ok (BOk None)) ∧
       ∃ uid row, profiles w' = <[uid := row]> (profiles w)).

(** No event makes the request [verified]. *)
Definition unverified (env : Webhook.Env) (req : Webhook.Request) : Prop :=
  ∀ event, ¬ Webhook.verified env req event.

(** The part of a row that says whose it is: the email and the
    customer reference. *)
Definition identity_of (p : ProfileRow) : option string * option string :=
  (email p, stripe_customer_id p).

(** The event is one of the two subscription events, about [sub]. *)
Definition subscription_event (event : Webhook.Event) (sub : Webhook.Subscription)
    : Prop :=
  event = Webhook.customer_subscription_updated sub ∨
  event = Webhook.customer_subscription_deleted sub.

(** The row [Generate.save] inserts for [user] and the body [b] when
    the provider answered [text]. *)
Definition saved_row (env : Generate.Env) (user : Generate.User)
    (b : Generate.JsonBody) (text : string) : ProposalRow :=
  {| id := Generate.gen_random_uuid env;
     user_id := Generate.user_id_of user;
     client_name := Js.trim (default "" (Generate.clientName b));
     notes := default "" (Generate.body_notes b);
     proposal := text;
     created_at := Generate.created_at_default env |}.

(** The header the request was sent with: [authorization || ""]. *)
Definition authHeader (req : Generate.Request) : string :=
  default "" (Js.or_else (Generate.authorization req) (Some "")).

(** ** The billing-portal-create route

    The route reads one profile and asks Stripe for a portal session; it
    writes nothing.  Its state is the profiles table it reads and the
    outside calls it has made.  (The [requireEnv] calls at the top of the
    file run when the module is loaded, before any request.) *)

Module Portal.

Record JsonBody := { body_userId : option string }.

Record Request := {
  req_json : Js.Throws (option JsonBody);  (* await req.json(); [None] is JSON null *)
}.

Record Env := {
  NEXT_PUBLIC_SITE_URL : option string;
  select_error : option string;            (* [error.message] of the profile query *)
  (* customer, return_url to portal.url *)
  billingPortal_sessions_create : string → string → Js.Throws (option string);
}.

Inductive Call :=
| ProfilesSelectCustomerId (uid : string)
| BillingPortalSessionsCreate (customer return_url : string)
| ConsoleError (label : string) (e : Js.Error).

Record State := mkState {
  table : gmap string ProfileRow;
  calls : list Call;
}.

Definition Route (A : Type) : Type := State → Outcome A * State.

#[local] Instance Route_ret : MRet Route := λ A a st, (Next a, st).

#[local] Instance Route_bind : MBind Route := λ A B f m st,
  match m st with
  | (Next a, st') => f a st'
  | (Return r, st') => (Return r, st')
  | (Throw e, st') => (Throw e, st')
  end.

Definition respond {A} (r : Response) : Route A := λ st, (Return r, st).
Definition throw {A} (e : Js.Error) : Route A := λ st, (Throw e, st).

Definition await {A} (r : Js.Throws A) : Route A :=
  match r with
  | inl e => throw e
  | inr a => mret a
  end.

Definition call (c : Call) : Route () := λ st,
  (Next tt, {| table := table st; calls := calls st ++ [c] |}).

Definition get_state : Route State := λ st, (Next st, st).

(** The [try] block of [POST]. *)
Definition POST_try (env : Env) (req : Request) : Route Response :=
  (* req.json().catch(() => ({})) *)
  let body :=
    match req_json req with
    | inl _ => Some {| body_userId := None |}
    | inr body => body
    end in
  let userId := body ≫= body_userId in
  if negb (Js.truthy userId) then
    respond (json (BError "Missing userId") 400)
  else
  let siteUrl :=
    default "" (Js.or_else (NEXT_PUBLIC_SITE_URL env) (Some "http://localhost:3000")) in
  call (ProfilesSelectCustomerId (default "" userId));;
  st ← get_state;
  profile ←
    match select_error env with
    | Some msg => throw (Js.new_Error msg)
    | None => mret (table st !! default "" userId)
    end;
  let customerId := profile ≫= stripe_customer_id in
  if negb (Js.truthy customerId) then
    respond (json (BError "No Stripe customer found for this user yet.") 400)
  else
  call (BillingPortalSessionsCreate (default "" customerId) siteUrl);;
  url ← await (billingPortal_sessions_create env (default "" customerId) siteUrl);
  respond (json_ok (BUrl url)).

Definition POST (env : Env) (req : Request) : State → Response * State := λ st,
  match POST_try env req st with
  | (Next r, st') | (Return r, st') => (r, st')
  | (Throw e, st') =>
      (json (BError (default ""
               (Js.or_else (Js.message e) (Some "Portal error")))) 500,
       {| table := table st'; calls := calls st' ++ [ConsoleError "Stripe portal error:" e] |})
  end.

(** The route at the profiles of a world, with no call made yet. *)
Definition at_world (w : World) : State := {| table := profiles w; calls := [] |}.

(** [body?.userId] of the request, after [.catch(() => ({}))] *)
Definition userId_of (req : Request) : option string :=
  match req_json req with
  | inl _ => None
  | inr body => body ≫= body_userId
  end.

(** [process.env.NEXT_PUBLIC_SITE_URL || "http://localhost:3000"] *)
Definition siteUrl (env : Env) : string :=
  default "" (Js.or_else (NEXT_PUBLIC_SITE_URL env) (Some "http://localhost:3000")).

End Portal.

(** ** The page (client side)

    The functions of the page component that talk to the store or to the
    generation route.  [State] holds the React state they read and set;
    a function is a transformer of the page state and the store.  The
    browser's Supabase client works with the session of the signed-in
    user. *)

Module Page.

Record State := mkState {
  s_userId : option string;
  s_clientName : string;
  s_notes : string;
  s_proposal : string;
  s_loading : bool;
  s_error : option string;
  s_plan : Plan;
  s_planLoading : bool;
  s_historyLoading : bool;
  s_rows : list ProposalRow;
  s_activeId : option string;
  s_console : list Js.Error;
}.

Definition setClientName (v : string) (s : State) : State :=
  {| s_userId := s_userId s; s_clientName := v; s_notes := s_notes s; s_proposal := s_proposal s; s_loading := s_loading s; s_error := s_error s; s_plan := s_plan s; s_planLoading := s_planLoading s; s_historyLoading := s_historyLoading s; s_rows := s_rows s; s_activeId := s_activeId s; s_console := s_console s |}.

Definition setNotes (v : string) (s : State) : State :=
  {| s_userId := s_userId s; s_clientName := s_clientName s; s_notes := v; s_proposal := s_proposal s; s_loading := s_loading s; s_error := s_error s; s_plan := s_plan s; s_planLoading := s_planLoading s; s_historyLoading := s_historyLoading s; s_rows := s_rows s; s_activeId := s_activeId s; s_console := s_console s |}.

Definition setProposal (v : string) (s : State) : State :=
  {| s_userId := s_userId s; s_clientName := s_clientName s; s_notes := s_notes s; s_proposal := v; s_loading := s_loading s; s_error := s_error s; s_plan := s_plan s; s_planLoading := s_planLoading s; s_historyLoading := s_historyLoading s; s_rows := s_rows s; s_activeId := s_activeId s; s_console := s_console s |}.

Definition setLoading (v : bool) (s : State) : State :=
  {| s_userId := s_userId s; s_clientName := s_clientName s; s_notes := s_notes s; s_proposal := s_proposal s; s_loading := v; s_error := s_error s; s_plan := s_plan s; s_planLoading := s_planLoading s; s_historyLoading := s_historyLoading s; s_rows := s_rows s; s_activeId := s_activeId s; s_console := s_console s |}.

Definition setError (v : option string) (s : State) : State :=
  {| s_userId := s_userId s; s_clientName := s_clientName s; s_notes := s_notes s; s_proposal := s_proposal s; s_loading := s_loading s; s_error := v; s_plan := s_plan s; s_planLoading := s_planLoading s; s_historyLoading := s_historyLoading s; s_rows := s_rows s; s_activeId := s_activeId s; s_console := s_console s |}.

Definition setPlan (v : Plan) (s : State) : State :=
  {| s_userId := s_userId s; s_clientName := s_clientName s; s_notes := s_notes s; s_proposal := s_proposal s; s_loading := s_loading s; s_error := s_error s; s_plan := v; s_planLoading := s_planLoading s; s_historyLoading := s_historyLoading s; s_rows := s_rows s; s_activeId := s_activeId s; s_console := s_console s |}.

Definition setPlanLoading (v : bool) (s : State) : State :=
  {| s_userId := s_userId s; s_clientName := s_clientName s; s_notes := s_notes s; s_proposal := s_proposal s; s_loading := s_loading s; s_error := s_error s; s_plan := s_plan s; s_planLoading := v; s_historyLoading := s_historyLoading s; s_rows := s_rows s; s_activeId := s_activeId s; s_console := s_console s |}.

Definition setHistoryLoading (v : bool) (s : State) : State :=
  {| s_userId := s_userId s; s_clientName := s_clientName s; s_notes := s_notes s; s_proposal := s_proposal s; s_loading := s_loading s; s_error := s_error s; s_plan := s_plan s; s_planLoading := s_planLoading s; s_historyLoading := v; s_rows := s_rows s; s_activeId := s_activeId s; s_console := s_console s |}.

Definition setRows (v : list ProposalRow) (s : State) : State :=
  {| s_userId := s_userId s; s_clientName := s_clientName s; s_notes := s_notes s; s_proposal := s_proposal s; s_loading := s_loading s; s_error := s_error s; s_plan := s_plan s; s_planLoading := s_planLoading s; s_historyLoading := s_historyLoading s; s_rows := v; s_activeId := s_activeId s; s_console := s_console s |}.

Definition setActiveId (v : option string) (s : State) : State :=
  {| s_userId := s_userId s; s_clientName := s_clientName s; s_notes := s_notes s; s_proposal := s_proposal s; s_loading := s_loading s; s_error := s_error s; s_plan := s_plan s; s_planLoading := s_planLoading s; s_historyLoading := s_historyLoading s; s_rows := s_rows s; s_activeId := v; s_console := s_console s |}.

(** [console.error(e)] *)
Definition console_error (e : Js.Error) (s : State) : State :=
  {| s_userId := s_userId s; s_clientName := s_clientName s; s_notes := s_notes s; s_proposal := s_proposal s; s_loading := s_loading s; s_error := s_error s; s_plan := s_plan s; s_planLoading := s_planLoading s; s_historyLoading := s_historyLoading s; s_rows := s_rows s; s_activeId := s_activeId s; s_console := s_console s ++ [e] |}.

Record Env := {
  profiles_select_error : option Js.Error;   (* [fetchErr] *)
  profiles_insert_error : option Js.Error;   (* [insertErr] *)
  (* the values the table gives to the columns an insert does not name *)
  profile_defaults : ProfileRow;
  proposals_select_error : option Js.Error;
  proposals_delete_error : option Js.Error;
  session_error : option Js.Error;           (* [sessionErr] of getSession() *)
  access_token : option string;              (* [session?.access_token] *)
  fetch_error : option Js.Error;             (* fetch() rejects *)
}.

Definition with_profiles (t : gmap string ProfileRow) (w : World) : World :=
  {| profiles := t; proposals := proposals w; trace := trace w |}.

Definition with_proposals (t : list ProposalRow) (w : World) : World :=
  {| profiles := profiles w; proposals := t; trace := trace w |}.

(** [clientName.trim().length > 0 && notes.trim().length > 20] *)
Definition canGenerate (s : State) : bool :=
  (0 <? Js.length (Js.trim (s_clientName s)))%nat
  && (20 <? Js.length (Js.trim (s_notes s)))%nat.

(** The [catch] clause of [ensureProfileAndLoadPlan]. *)
Definition plan_failed (e : Js.Error) (s : State) : State :=
  setPlan free
    (setError (Some (default "Failed to load plan" (Js.message e)))
       (console_error e s)).

Definition ensureProfileAndLoadPlan (env : Env) (uid : string) (email : option string)
    (sw : State * World) : State * World :=
  let '(s, w) := sw in
  let s := setError None s in
  let s := setPlanLoading true s in
  let '(s, w) :=
    match profiles_select_error env with
    | Some fetchErr => (plan_failed fetchErr s, w)
    | None =>
        match profiles w !! uid with
        | None =>
            match profiles_insert_error env with
            | Some insertErr => (plan_failed insertErr s, w)
            | None =>
                let created :=
                  {| email := Js.nullish email None;
                     plan := free;
                     stripe_customer_id := stripe_customer_id (profile_defaults env);
                     stripe_subscription_id := stripe_subscription_id (profile_defaults env);
                     current_period_end := current_period_end (profile_defaults env);
                     updated_at := updated_at (profile_defaults env) |} in
                (setPlan (plan created) s, with_profiles (<[uid := created]> (profiles w)) w)
            end
        | Some profile => (setPlan (plan profile) s, w)
        end
    end in
  (setPlanLoading false s, w).

(** Newest first: [.order("created_at", { ascending: false })]. *)
Definition newer_or_same (a b : ProposalRow) : Prop :=
  Generate.Date_leb (created_at b) (created_at a).

(** [.from("proposals").select("*").eq("user_id", uid)
     .order("created_at", { ascending: false }).limit(50)] *)
Definition select_history (uid : string) (t : list ProposalRow) : list ProposalRow :=
  take 50 (merge_sort newer_or_same (filter (λ r, user_id r = uid) t)).

Definition loadHistory (env : Env) (sw : State * World) : State * World :=
  let '(s, w) := sw in
  if negb (Js.truthy (s_userId s)) then (s, w) else
  let s := setError None s in
  let s := setHistoryLoading true s in
  let s := setHistoryLoading false s in
  match proposals_select_error env with
  | Some error => (setError (Js.message error) (console_error error s), w)
  | None => (setRows (select_history (default "" (s_userId s)) (proposals w)) s, w)
  end.

(** [.from("proposals").delete().eq("id", id).eq("user_id", uid)] *)
Definition delete_proposal (id_ uid : string) (t : list ProposalRow) : list ProposalRow :=
  filter (λ r, ¬ (id r = id_ ∧ user_id r = uid)) t.

Definition deleteProposal (env : Env) (id_ : string) (sw : State * World)
    : State * World :=
  let '(s, w) := sw in
  let s := setError None s in
  if negb (Js.truthy (s_userId s)) then
    (setError (Some "Missing user. Please refresh.") s, w)
  else
  match proposals_delete_error env with
  | Some error => (setError (Js.message error) (console_error error s), w)
  | None =>
      let w := with_proposals (delete_proposal id_ (default "" (s_userId s)) (proposals w)) w in
      let s := setRows (filter (λ r, id r ≠ id_) (s_rows s)) s in
      if decide (s_activeId s = Some id_) then
        (setProposal "" (setNotes "" (setClientName "" (setActiveId None s))), w)
      else (s, w)
  end.

(** The request [generateProposal] sends:
    [Authorization: `Bearer ${token}`] and
    [JSON.stringify({ clientName, notes })]. *)
Definition generate_request (token : string) (s : State) : Generate.Request :=
  {| Generate.authorization := Some ("Bearer " ++ token);
     Generate.req_json :=
       inr (Some {| Generate.clientName := Some (s_clientName s);
                    Generate.body_notes := Some (s_notes s) |}) |}.

(** The properties of the JSON body of a response that the page reads. *)
Definition data_error (b : Body) : option string :=
  match b with
  | BError e | BLimit e _ _ _ => Some e
  | _ => None
  end.

Definition data_code (b : Body) : option string :=
  match b with
  | BLimit _ code _ _ => Some code
  | _ => None
  end.

Definition data_proposal (b : Body) : option string :=
  match b with
  | BGenerated p _ => Some p
  | _ => None
  end.

Definition data_saved (b : Body) : option ProposalRow :=
  match b with
  | BGenerated _ saved => Some saved
  | _ => None
  end.

(** [res.ok] *)
Definition res_ok (res : Response) : bool :=
  (200 <=? status res)%nat && (status res <=? 299)%nat.

(** The [catch] clause of [generateProposal]. *)
Definition generate_failed (e : Js.Error) (s : State) : State :=
  setError (Some (default "Error generating proposal" (Js.message e))) s.

(** [generateProposal]; [fetch("/api/generate", ...)] runs the route of
    the server [genv] on the store. *)
Definition generateProposal (env : Env) (genv : Generate.Env) (sw : State * World)
    : State * World :=
  let '(s, w) := sw in
  let s := setError None s in
  let s := setLoading true s in
  let s := setProposal "" s in
  let '(s, w) :=
    match session_error env with
    | Some sessionErr => (generate_failed sessionErr s, w)
    | None =>
        let token := access_token env in
        if negb (Js.truthy token) then
          (setError (Some "Session missing. Please sign out and sign back in.") s, w)
        else
        match fetch_error env with
        | Some e => (generate_failed e s, w)
        | None =>
            let '(res, w) :=
              Generate.POST genv (generate_request (default "" token) s) w in
            let data := body res in
            if (status res =? 402)%nat
               && bool_decide (data_code data = Some "FREE_LIMIT_REACHED") then
              (setError (Js.or_else (data_error data)
                           (Some "Free plan limit reached. Upgrade to Pro.")) s, w)
            else if (status res =? 401)%nat then
              (setError (Some "Unauthorized. Please sign out and sign back in.") s, w)
            else if negb (res_ok res) then
              (generate_failed
                 (Js.new_Error
                    (default ""
                       (Js.or_else (data_error data)
                          (Some ("Request failed (" ++ pretty (status res) ++ ")")))))
                 s, w)
            else
              let generated :=
                default "" (Js.or_else (data_proposal data)
                              (Some "No proposal returned.")) in
              let s := setProposal generated s in
              match data_saved data with
              | Some saved =>
                  if Js.truthy (Some (id saved)) then
                    (setActiveId (Some (id saved)) (setRows (saved :: s_rows s) s), w)
                  else loadHistory env (s, w)
              | None => loadHistory env (s, w)
              end
        end
    end in
  (setLoading false s, w).

End Page.

(** ** Further sample servers, requests and stores *)

Module Cases.
Import Samples.

(** *** Stripe *)

Definition bob_profile : ProfileRow :=
  {| email := Some "bob@example.com"; plan := pro;
     stripe_customer_id := Some "cus_ada";
     stripe_subscription_id := Some "sub_bob";
     current_period_end := None;
     updated_at := 500 |}.

(** Two users whose profiles carry the same customer reference. *)
Definition shared_customer : World :=
  {| profiles := <[ "user-bob" := bob_profile ]> {[ "user-ada" := ada_profile ]};
     proposals := []; trace := [] |}.

(** A subscription that names no customer. *)
Definition orphan_subscription : Webhook.Subscription :=
  {| Webhook.sub_id := Some "sub_orphan";
     Webhook.sub_customer := Webhook.ExpNull;
     Webhook.sub_status := Some "active";
     Webhook.sub_current_period_end := None |}.

(** A webhook server whose every signed payload is an update of the
    orphan subscription. *)
Definition orphan_server : Webhook.Env :=
  {| Webhook.STRIPE_WEBHOOK_SECRET := Some secret;
     Webhook.constructEvent := λ payload sig secret,
       if String.eqb sig (sign secret payload)
       then inr (Webhook.customer_subscription_updated orphan_subscription)
       else inl (Js.new_Error "No signatures found matching the expected signature for payload.");
     Webhook.subscriptions_retrieve := retrieve;
     Webhook.now := 2000;
     Webhook.select_error := None;
     Webhook.upsert_error := None |}.

(** *** Generation *)

(** [generate_server] with the given store faults and text provider. *)
Definition generate_server_where (profiles_error count_error : bool)
    (insert_error : option string)
    (create : string → Js.Throws (option string)) : Generate.Env :=
  {| Generate.NEXT_PUBLIC_SUPABASE_URL := Generate.NEXT_PUBLIC_SUPABASE_URL generate_server;
     Generate.NEXT_PUBLIC_SUPABASE_ANON_KEY :=
       Generate.NEXT_PUBLIC_SUPABASE_ANON_KEY generate_server;
     Generate.OPENAI_API_KEY := Generate.OPENAI_API_KEY generate_server;
     Generate.auth_getUser := Generate.auth_getUser generate_server;
     Generate.new_Date := Generate.new_Date generate_server;
     Generate.profiles_error := profiles_error;
     Generate.count_error := count_error;
     Generate.insert_error := insert_error;
     Generate.chat_completions_create := create;
     Generate.gen_random_uuid := Generate.gen_random_uuid generate_server;
     Generate.created_at_default := Generate.created_at_default generate_server |}.

(** A request made in the last seconds of October whose row the
    store dates in November. *)
Definition last_seconds_of_october : Date :=
  {| getFullYear := 2026; getMonth := 9; getDate := 31;
     getHours := 23; getMinutes := 59; getSeconds := 58; getMilliseconds := 0 |}.

Definition first_second_of_november : Date :=
  {| getFullYear := 2026; getMonth := 10; getDate := 1;
     getHours := 0; getMinutes := 0; getSeconds := 1; getMilliseconds := 500 |}.

Definition midnight_server : Generate.Env :=
  {| Generate.NEXT_PUBLIC_SUPABASE_URL := Generate.NEXT_PUBLIC_SUPABASE_URL generate_server;
     Generate.NEXT_PUBLIC_SUPABASE_ANON_KEY :=
       Generate.NEXT_PUBLIC_SUPABASE_ANON_KEY generate_server;
     Generate.OPENAI_API_KEY := Generate.OPENAI_API_KEY generate_server;
     Generate.auth_getUser := Generate.auth_getUser generate_server;
     Generate.new_Date := last_seconds_of_october;
     Generate.profiles_error := false;
     Generate.count_error := false;
     Generate.insert_error := None;
     Generate.chat_completions_create :=
       Generate.chat_completions_create generate_server;
     Generate.gen_random_uuid := Generate.gen_random_uuid generate_server;
     Generate.created_at_default := first_second_of_november |}.

Definition provider_answers : string → Js.Throws (option string) :=
  λ _, inr (Some "PROPOSAL").

Definition provider_throws : string → Js.Throws (option string) :=
  λ _, inl (Js.new_Error "Rate limit reached").

Definition acme_request : Generate.Request :=
  generate_request (Some "Acme") (Some "notes").

(** A request without authorization header, and one with a token the
    identity provider does not know. *)
Definition anonymous_request : Generate.Request :=
  {| Generate.authorization := None;
     Generate.req_json := Generate.req_json acme_request |}.

Definition stale_request : Generate.Request :=
  {| Generate.authorization := Some "Bearer token-stale";
     Generate.req_json := Generate.req_json acme_request |}.

(** Ada, on the free plan, has made two proposals this month. *)
Definition ada_used_two : World :=
  {| profiles := ∅;
     proposals := [proposal_of_ada "proposal-1" 1; proposal_of_ada "proposal-2" 1];
     trace := [] |}.

(** Ada, on the pro plan, has made three proposals this month. *)
Definition ada_pro_used_three : World :=
  {| profiles := profiles ada_is_pro;
     proposals := proposals ada_used_three;
     trace := [] |}.

(** *** Billing portal *)

Definition portal_server : Portal.Env :=
  {| Portal.NEXT_PUBLIC_SITE_URL := Some "https://proposalhq.example";
     Portal.select_error := None;
     Portal.billingPortal_sessions_create := λ customer _,
       inr (Some ("https://billing.stripe.com/p/session/" ++ customer)) |}.

Definition portal_request (userId : option string) : Portal.Request :=
  {| Portal.req_json := inr (Some {| Portal.body_userId := userId |}) |}.

(** *** The page *)

(** The page of Ada, signed in, with both fields filled. *)
Definition page_of_ada : Page.State :=
  {| Page.s_userId := Some "user-ada";
     Page.s_clientName := "Acme";
     Page.s_notes := "A new website for the spring launch";
     Page.s_proposal := "";
     Page.s_loading := false;
     Page.s_error := None;
     Page.s_plan := free;
     Page.s_planLoading := false;
     Page.s_historyLoading := false;
     Page.s_rows := [];
     Page.s_activeId := None;
     Page.s_console := [] |}.

(** A browser with Ada's session, talking to a store that answers. *)
Definition browser : Page.Env :=
  {| Page.profiles_select_error := None;
     Page.profiles_insert_error := None;
     Page.profile_defaults :=
       {| email := None; plan := free; stripe_customer_id := None;
          stripe_subscription_id := None; current_period_end := None;
          updated_at := 3000 |};
     Page.proposals_select_error := None;
     Page.proposals_delete_error := None;
     Page.session_error := None;
     Page.access_token := Some "token-ada";
     Page.fetch_error := None |}.

End Cases.

(** * Properties *)

(** [x ?? null] is [x]. *)
Lemma nullish_null {A} (x : option A) : Js.nullish x None = x.
Proof. by destruct x. Qed.

Lemma profiles_eq_customer_sole cid uid p (t : gmap string ProfileRow) :
  Webhook.sole_profile_of_customer cid uid p t →
  profiles_eq_customer cid t = [(uid, p)].
Proof.
  intros (Hl & Hc & Hu). unfold profiles_eq_customer.
  rewrite <- (map_to_list_singleton uid p). f_equal.
  apply map_eq. intros k.
  destruct (decide (k = uid)) as [->|Hne].
  - rewrite lookup_singleton_eq. apply map_lookup_filter_Some. done.
  - rewrite lookup_singleton_ne by done.
    apply map_lookup_filter_None. right. intros p' Hp' Hc'. simpl in Hc'.
    apply Hne. eauto.
Qed.

Lemma profiles_eq_customer_none cid (t : gmap string ProfileRow) :
  Webhook.no_profile_of_customer cid t →
  profiles_eq_customer cid t = [].
Proof.
  intros Hn. unfold profiles_eq_customer.
  apply map_to_list_empty_iff. apply map_eq. intros k.
  rewrite lookup_empty. apply map_lookup_filter_None. right.
  intros p Hp Hc. simpl in Hc. exact (Hn k p Hp Hc).
Qed.

(** Unfolding of the handler combinators. *)
Ltac unfold_handler :=
  unfold run, exec, try_catch, await, respond, throw, emit, get_world,
    set_profiles, set_proposals in *;
  unfold mbind, Handler_bind, mret, Handler_ret in *.

(** The response of a handler is what its [try] block returns, or what
    the [catch] clause makes of the thrown value. *)
Lemma try_catch_response body label on_error (w : World) :
  run (try_catch body label on_error) w =
    match (body w).1 with
    | Next r | Return r => r
    | Throw e => on_error e
    end.
Proof. unfold run, try_catch. by destruct (body w) as [[r|r|e] w']. Qed.

(** Case analysis on every branch a handler takes. *)
Ltac branches := repeat first [progress simplify_eq/= | case_match].

Section WebhookFacts.
Import Webhook.
Variable env : Env.
Variable req : Request.

(** C3. A request whose signature does not verify against the
    configured secret is answered 400 [Invalid signature]; both tables
    are left as they were and the only outside call is the
    [console.error] of the verification failure. *)
Theorem invalid_signature_rejected_before_any_mutation (w : World) (err : Js.Error) :
  signature_fails env req err →
  run (POST env req) w = json (BError "Invalid signature") 400 ∧
  exec (POST env req) w =
    {| profiles := profiles w; proposals := proposals w;
       trace := trace w ++ [ConsoleError "Stripe signature verification failed:" err] |}.
Proof.
  intros (Hsig & Hsecret & Hev).
  unfold POST, POST_try. unfold_handler.
  rewrite Hsig, Hsecret, Hev. simpl. done.
Qed.

(** A verified request reaches the dispatch on the event. *)
Lemma POST_try_verified (event : Event) (w : World) :
  verified env req event →
  POST_try env req w =
    match event with
    | checkout_session_completed session => on_checkout_completed env session w
    | customer_subscription_updated subEvent => on_subscription_updated env subEvent w
    | customer_subscription_deleted subEvent => on_subscription_deleted env subEvent w
    | other_event _ => (Return (json_ok (BOk None)), w)
    end.
Proof.
  intros (Hsig & Hsecret & Hev). unfold POST_try. unfold_handler.
  rewrite Hsig, Hsecret, Hev. simpl. by destruct event.
Qed.

(** C10. A verified subscription-mode checkout that names the user
    but has no subscription still makes the profile [pro], with no
    subscription reference and no period end; Stripe is not asked for
    a subscription. *)
Theorem checkout_without_subscription_upserts_pro
    (w : World) (session : CheckoutSession) (uid : string) :
  verified env req (checkout_session_completed session) →
  mode session = "subscription" →
  metadata_user_id session = Some uid → uid ≠ "" →
  subscription session = ExpNull →
  upsert_error env = None →
  let row :=
    {| email := Js.nullish (customer_details session ≫= cd_email)
                  (customer_email session);
       plan := pro;
       stripe_customer_id := id_or_null (customer session);
       stripe_subscription_id := None;
       current_period_end := None;
       updated_at := now env |} in
  run (POST env req) w = json_ok (BOk None) ∧
  exec (POST env req) w =
    {| profiles := <[uid := row]> (profiles w); proposals := proposals w;
       trace := trace w ++ [ProfilesUpsert uid row] |}.
Proof.
  intros Hv Hmode Huid Hne Hsub Hup row.
  unfold POST, try_catch, run, exec. rewrite (POST_try_verified _ _ Hv).
  unfold on_checkout_completed, upsertProfile.
  fold (metadata_user_id session).
  rewrite Hmode, Huid, Hsub, Hup. unfold_handler. simpl.
  apply String.eqb_neq in Hne. rewrite Hne. simpl.
  subst row. by rewrite !nullish_null.
Qed.

Lemma select_profile_sole (w : World) cid uid p :
  select_error env = None →
  sole_profile_of_customer cid uid p (profiles w) →
  select_profile_by_customer env cid w =
    (Next (Some (uid, p)),
     {| profiles := profiles w; proposals := proposals w;
        trace := trace w ++ [ProfilesSelectByCustomer cid] |}).
Proof.
  intros Hsel Hsole. unfold select_profile_by_customer. unfold_handler.
  rewrite Hsel. simpl. by rewrite (profiles_eq_customer_sole _ _ _ _ Hsole).
Qed.

Lemma select_profile_none (w : World) cid :
  select_error env = None →
  no_profile_of_customer cid (profiles w) →
  select_profile_by_customer env cid w =
    (Next None,
     {| profiles := profiles w; proposals := proposals w;
        trace := trace w ++ [ProfilesSelectByCustomer cid] |}).
Proof.
  intros Hsel Hnone. unfold select_profile_by_customer. unfold_handler.
  rewrite Hsel. simpl. by rewrite (profiles_eq_customer_none _ _ Hnone).
Qed.

(** A subscription event of a customer without profile is
    acknowledged after the one query. *)
Lemma on_subscription_updated_none (w : World) (sub : Subscription) cid :
  select_error env = None →
  id_of (sub_customer sub) = inr cid →
  no_profile_of_customer cid (profiles w) →
  on_subscription_updated env sub w =
    (Return (json_ok (BOk (Some "No profile for customer"))),
     {| profiles := profiles w; proposals := proposals w;
        trace := trace w ++ [ProfilesSelectByCustomer cid] |}).
Proof.
  intros Hsel Hcid Hnone. unfold on_subscription_updated.
  unfold mbind at 1, Handler_bind at 1. rewrite Hcid. simpl.
  unfold mbind at 1, Handler_bind at 1.
  by rewrite (select_profile_none _ _ Hsel Hnone).
Qed.

Lemma on_subscription_deleted_none (w : World) (sub : Subscription) cid :
  select_error env = None →
  id_of (sub_customer sub) = inr cid →
  no_profile_of_customer cid (profiles w) →
  on_subscription_deleted env sub w =
    (Return (json_ok (BOk (Some "No profile for customer"))),
     {| profiles := profiles w; proposals := proposals w;
        trace := trace w ++ [ProfilesSelectByCustomer cid] |}).
Proof.
  intros Hsel Hcid Hnone. unfold on_subscription_deleted.
  unfold mbind at 1, Handler_bind at 1. rewrite Hcid. simpl.
  unfold mbind at 1, Handler_bind at 1.
  by rewrite (select_profile_none _ _ Hsel Hnone).
Qed.

(** The free-plan row written by the subscription-deleted branch. *)
Lemma on_subscription_deleted_sole (w : World) (sub : Subscription) cid uid p :
  store_answers env →
  id_of (sub_customer sub) = inr cid →
  sole_profile_of_customer cid uid p (profiles w) →
  let row :=
    {| email := email p; plan := free; stripe_customer_id := Some cid;
       stripe_subscription_id := None; current_period_end := None;
       updated_at := now env |} in
  on_subscription_deleted env sub w =
    (Return (json_ok (BOk None)),
     {| profiles := <[uid := row]> (profiles w); proposals := proposals w;
        trace := trace w ++ [ProfilesSelectByCustomer cid; ProfilesUpsert uid row] |}).
Proof.
  intros [Hsel Hup] Hcid Hsole row.
  unfold on_subscription_deleted.
  unfold mbind at 1, Handler_bind at 1. rewrite Hcid. simpl.
  unfold mbind at 1, Handler_bind at 1.
  rewrite (select_profile_sole _ _ _ _ Hsel Hsole).
  unfold upsertProfile. rewrite Hup. unfold_handler. simpl.
  rewrite !nullish_null, <- app_assoc. done.
Qed.

Lemma POST_subscription_deleted_sole (w : World) (sub : Subscription) cid uid p :
  verified env req (customer_subscription_deleted sub) →
  store_answers env →
  id_of (sub_customer sub) = inr cid →
  sole_profile_of_customer cid uid p (profiles w) →
  let row :=
    {| email := email p; plan := free; stripe_customer_id := Some cid;
       stripe_subscription_id := None; current_period_end := None;
       updated_at := now env |} in
  POST env req w =
    (json_ok (BOk None),
     {| profiles := <[uid := row]> (profiles w); proposals := proposals w;
        trace := trace w ++ [ProfilesSelectByCustomer cid; ProfilesUpsert uid row] |}).
Proof.
  intros Hv Hst Hcid Hsole row. unfold POST, try_catch.
  rewrite (POST_try_verified _ _ Hv).
  by rewrite (on_subscription_deleted_sole w sub cid uid p Hst Hcid Hsole).
Qed.

(** C5. A verified subscription-updated event whose customer has a
    profile makes the plan [pro] when the status of the subscription is
    [active] and [free] for every other status, and rewrites the
    subscription reference and the period end from the event; when no
    profile has that customer the event is acknowledged and both tables
    stay as they were. *)
Theorem subscription_updated_follows_status
    (w : World) (sub : Subscription) (cid : string) :
  verified env req (customer_subscription_updated sub) →
  id_of (sub_customer sub) = inr cid →
  store_answers env →
  (∀ uid p cpe,
     sole_profile_of_customer cid uid p (profiles w) →
     unixToIso (sub_current_period_end sub) = inr cpe →
     let row :=
       {| email := email p;
          plan := if decide (sub_status sub = Some "active") then pro else free;
          stripe_customer_id := Some cid;
          stripe_subscription_id := sub_id sub;
          current_period_end := cpe;
          updated_at := now env |} in
     POST env req w =
       (json_ok (BOk None),
        {| profiles := <[uid := row]> (profiles w); proposals := proposals w;
           trace := trace w ++ [ProfilesSelectByCustomer cid; ProfilesUpsert uid row] |}))
  ∧
  (no_profile_of_customer cid (profiles w) →
   POST env req w =
     (json_ok (BOk (Some "No profile for customer")),
      {| profiles := profiles w; proposals := proposals w;
         trace := trace w ++ [ProfilesSelectByCustomer cid] |})).
Proof.
  intros Hv Hcid [Hsel Hup]. split.
  - intros uid p cpe Hsole Hcpe row. unfold POST, try_catch.
    rewrite (POST_try_verified _ _ Hv). unfold on_subscription_updated.
    unfold mbind at 1, Handler_bind at 1. rewrite Hcid. simpl.
    unfold mbind at 1, Handler_bind at 1.
    rewrite (select_profile_sole _ _ _ _ Hsel Hsole).
    cbv zeta. unfold mbind at 1, Handler_bind at 1.
    rewrite nullish_null, Hcpe. unfold upsertProfile. rewrite Hup.
    unfold_handler. simpl. by rewrite !nullish_null, <- app_assoc.
  - intros Hnone. unfold POST, try_catch.
    rewrite (POST_try_verified _ _ Hv).
    by rewrite (on_subscription_updated_none _ _ _ Hsel Hcid Hnone).
Qed.

(** Whatever a verified request makes the [try] block return is a
    200 acknowledgment. *)
Lemma POST_try_returns_ack (w w' : World) (event : Event) (r : Response) :
  verified env req event →
  POST_try env req w = (Next r, w') ∨ POST_try env req w = (Return r, w') →
  ∃ note, r = json_ok (BOk note).
Proof.
  intros Hv. rewrite (POST_try_verified _ _ Hv).
  destruct event as [session|sub|sub|ty].
  - unfold on_checkout_completed, upsertProfile. unfold_handler.
    intros [H|H]; branches; eauto.
  - unfold on_subscription_updated, select_profile_by_customer, upsertProfile.
    unfold_handler.
    intros [H|H]; branches; eauto.
  - unfold on_subscription_deleted, select_profile_by_customer, upsertProfile.
    unfold_handler.
    intros [H|H]; branches; eauto.
  - intros [H|H]; simplify_eq; eauto.
Qed.

(** What the subscription-mode checkout branch does for a session
    that names the user: it either writes the [pro] row and
    acknowledges, or throws with the table untouched. *)
Lemma on_checkout_completed_outcome (w : World) (session : CheckoutSession) uid :
  mode session = "subscription" →
  metadata_user_id session = Some uid → uid ≠ "" →
  let o := on_checkout_completed env session w in
  (∃ cpe,
     o.1 = Return (json_ok (BOk None)) ∧
     profiles o.2 =
       <[uid := {| email := session_email session; plan := pro;
                   stripe_customer_id := id_or_null (customer session);
                   stripe_subscription_id := id_or_null (subscription session);
                   current_period_end := cpe;
                   updated_at := now env |}]> (profiles w) ∧
     if Js.truthy (id_or_null (subscription session)) then
       ∃ raw sub,
         subscriptions_retrieve env (default "" (id_or_null (subscription session)))
           = inr raw ∧
         toStripeSubscription raw = inr sub ∧
         unixToIso (sub_current_period_end sub) = inr cpe
     else cpe = None)
  ∨ (∃ e, o.1 = Throw e ∧ profiles o.2 = profiles w).
Proof.
  intros Hmode Huid Hne. apply String.eqb_neq in Hne.
  unfold on_checkout_completed, upsertProfile. fold (metadata_user_id session).
  rewrite Hmode, Huid. unfold_handler. simpl. rewrite Hne. simpl.
  unfold session_email. rewrite !nullish_null.
  destruct (Js.truthy (id_or_null (subscription session))) eqn:Hsub.
  - destruct (subscriptions_retrieve env _) as [e|raw] eqn:Hret; simpl; [eauto|].
    destruct (toStripeSubscription raw) as [e|sub] eqn:Hraw; simpl; [eauto|].
    rewrite nullish_null.
    destruct (unixToIso (sub_current_period_end sub)) as [e|cpe] eqn:Hcpe;
      simpl; [eauto|].
    destruct (upsert_error env); simpl; [eauto|].
    left. exists cpe. rewrite nullish_null. eauto 10.
  - destruct (upsert_error env); simpl; [eauto|].
    left. exists None. eauto.
Qed.
End WebhookFacts.

Section GenerateFacts.
Import Generate.
Variable env : Env.
Variable req : Request.

Lemma must_be_logged_in_authenticated (w : World) token user :
  authenticated env req token user →
  must_be_logged_in env req w = (Next user, after [AuthGetUser token] w).
Proof.
  intros (Htok & Hne & Hurl & Hanon & Hget). apply String.eqb_neq in Hne.
  unfold must_be_logged_in. rewrite Htok. simpl. rewrite Hne, Hurl, Hanon. simpl.
  unfold_handler. simpl. by rewrite Hget.
Qed.

Lemma POST_pro (w : World) token user :
  authenticated env req token user →
  profiles_error env = false →
  plan_of (user_id_of user) w = pro →
  POST env req w =
    catch_all (generate_and_save env req user)
      (after [AuthGetUser token; ProfilesSelectPlan (user_id_of user)] w).
Proof.
  intros Hauth Hprof Hplan. unfold POST, POST_try, catch_all, try_catch.
  unfold mbind at 1, Handler_bind at 1.
  rewrite (must_be_logged_in_authenticated _ _ _ Hauth).
  unfold load_plan, enforce_free_limit. rewrite Hprof. unfold_handler. simpl.
  unfold plan_of in Hplan. rewrite Hplan. simpl. by rewrite <- app_assoc.
Qed.

Lemma POST_free (w : World) token user :
  authenticated env req token user →
  profiles_error env = false →
  plan_of (user_id_of user) w = free →
  count_error env = false →
  let uid := user_id_of user in
  let counted :=
    after [AuthGetUser token; ProfilesSelectPlan uid;
           ProposalsCount uid (startOfMonth (new_Date env))] w in
  POST env req w =
    if (3 <=? used_this_month env uid w)%nat
    then (json (BLimit limit_message "FREE_LIMIT_REACHED" 3
                  (used_this_month env uid w)) 402, counted)
    else catch_all (generate_and_save env req user) counted.
Proof.
  intros Hauth Hprof Hplan Hcount uid counted.
  unfold POST, POST_try, catch_all, try_catch.
  unfold mbind at 1, Handler_bind at 1.
  rewrite (must_be_logged_in_authenticated _ _ _ Hauth).
  unfold load_plan, enforce_free_limit. rewrite Hprof, Hcount.
  unfold_handler. simpl.
  unfold plan_of in Hplan. rewrite Hplan. simpl.
  fold uid. fold (used_this_month env uid w). unfold FREE_LIMIT.
  subst counted. unfold after. rewrite <- !app_assoc. simpl.
  by destruct (used_this_month env uid w) as [|[|[|n]]].
Qed.

Lemma POST_let_through (w w' : World) token user :
  let_through env req w token user w' →
  POST env req w = catch_all (generate_and_save env req user) w'.
Proof.
  intros (Hauth & Hprof & [(Hplan & ->)|(Hplan & Hcount & Hused & ->)]).
  - by apply POST_pro.
  - rewrite (POST_free _ _ _ Hauth Hprof Hplan Hcount). cbv zeta.
    destruct (Nat.leb_spec 3 (used_this_month env (user_id_of user) w)); [lia|done].
Qed.

(** The instants from the start of the month of [now] on are those of
    that calendar month and of the later ones. *)
Lemma Date_leb_startOfMonth (now d : Date) :
  valid_Date d →
  Is_true (Date_leb (startOfMonth now) d) ↔ since_start_of_month now d.
Proof.
  intros (Hd & Hh & Hm & Hs & Hms).
  unfold Date_leb, Date_fields, startOfMonth, setHours, setDate, since_start_of_month.
  cbn [lex_leb getFullYear getMonth getDate getHours getMinutes getSeconds
       getMilliseconds].
  rewrite Is_true_true.
  repeat first [rewrite orb_true_iff | rewrite andb_true_iff].
  rewrite !Z.ltb_lt, !Z.eqb_eq.
  split.
  - intros [?|(? & [?|(? & _)])]; lia.
  - intros [?|(? & Hmonth)]; [by left|right]. split; [done|].
    destruct (decide (getMonth now = getMonth d)) as [Heq|Hne]; [right|left; lia].
    split; [done|].
    destruct (decide (1 = getDate d)) as [?|?]; [right|left; lia]. split; [done|].
    destruct (decide (0 = getHours d)) as [?|?]; [right|left; lia]. split; [done|].
    destruct (decide (0 = getMinutes d)) as [?|?]; [right|left; lia]. split; [done|].
    destruct (decide (0 = getSeconds d)) as [?|?]; [right|left; lia]. split; [done|].
    destruct (decide (0 = getMilliseconds d)) as [?|?]; [right|left; lia]. done.
Qed.

(** The count query of step 3 counts the Quota Window. *)
Lemma count_since_startOfMonth (uid : string) (now : Date) (t : list ProposalRow) :
  (∀ r, r ∈ t → valid_Date (created_at r)) →
  count_since uid (startOfMonth now) t = quota_window_count uid now t.
Proof.
  unfold count_since, quota_window_count. induction t as [|r t IH]; [done|].
  intros Hvalid.
  assert (Hr : valid_Date (created_at r)) by (apply Hvalid, list_elem_of_here).
  assert (Ht : ∀ r', r' ∈ t → valid_Date (created_at r'))
    by (intros r' Hin; apply Hvalid, list_elem_of_further, Hin).
  rewrite !filter_cons. pose proof (Date_leb_startOfMonth now (created_at r) Hr) as Hiff.
  destruct (decide (user_id r = uid ∧ Is_true (Date_leb (startOfMonth now) (created_at r))))
    as [Hin|Hout];
  destruct (decide (user_id r = uid ∧ since_start_of_month now (created_at r)))
    as [Hin'|Hout']; cbn [length]; rewrite ?(IH Ht); try done.
  - destruct Hout'. destruct Hin. split; [done|]. by apply Hiff.
  - destruct Hout. destruct Hin'. split; [done|]. by apply Hiff.
Qed.

(** C1. For an authenticated request whose plan could be loaded: on
    the [pro] plan the request goes on to generation without a count
    query; on the [free] plan, with [used] the number of proposals owned
    by the user and created since the start of the current calendar
    month, it goes on to generation when [used] is less than 3, and is
    otherwise answered 402 [FREE_LIMIT_REACHED] with limit 3 and
    [used]. *)
Theorem quota_decision (w : World) (token : string) (user : User) :
  authenticated env req token user →
  profiles_error env = false →
  let uid := user_id_of user in
  let used := quota_window_count uid (new_Date env) (proposals w) in
  (plan_of uid w = pro →
   POST env req w =
     catch_all (generate_and_save env req user)
       (after [AuthGetUser token; ProfilesSelectPlan uid] w))
  ∧
  (plan_of uid w = free → count_error env = false →
   (∀ r, r ∈ proposals w → valid_Date (created_at r)) →
   let counted :=
     after [AuthGetUser token; ProfilesSelectPlan uid;
            ProposalsCount uid (startOfMonth (new_Date env))] w in
   ((used < 3)%nat →
    POST env req w = catch_all (generate_and_save env req user) counted)
   ∧
   ((3 ≤ used)%nat →
    POST env req w =
      (json (BLimit limit_message "FREE_LIMIT_REACHED" 3 used) 402, counted))).
Proof.
  intros Hauth Hprof uid used. split.
  - by apply POST_pro.
  - intros Hplan Hcount Hvalid counted.
    pose proof (POST_free w token user Hauth Hprof Hplan Hcount) as H.
    cbv zeta in H. fold uid in H. unfold used_this_month in H.
    rewrite (count_since_startOfMonth _ _ _ Hvalid) in H.
    fold used in H. fold counted in H.
    split; intros Hused; rewrite H;
      destruct (Nat.leb_spec 3 used); first [lia | done].
Qed.

(** What step 4 does with a body that lacks a field. *)
Lemma generate_and_save_missing_field (w : World) user (b : JsonBody) :
  req_json req = inr (Some b) →
  Js.truthy (clientName b) = false ∨ Js.truthy (body_notes b) = false →
  catch_all (generate_and_save env req user) w =
    (json (BError "Missing clientName or notes") 400, w).
Proof.
  intros Hjson Hmiss. unfold catch_all, try_catch, generate_and_save, parse_body.
  unfold_handler. rewrite Hjson. simpl.
  by destruct Hmiss as [-> | ->]; simpl; rewrite ?orb_true_r.
Qed.

(** C6, as the code has it. A request that reaches step 4 and whose
    [clientName] or [notes] is absent or the empty string is answered
    400; OpenAI is not called and no proposal is inserted.  The test is
    made on the value as sent: nothing is trimmed before it. *)
Theorem missing_field_rejected_before_generation
    (w w' : World) (token : string) (user : User) (b : JsonBody) :
  let_through env req w token user w' →
  req_json req = inr (Some b) →
  Js.truthy (clientName b) = false ∨ Js.truthy (body_notes b) = false →
  run (POST env req) w = json (BError "Missing clientName or notes") 400 ∧
  proposals (exec (POST env req) w) = proposals w ∧
  ∃ t, trace (exec (POST env req) w) = (trace w ++ t)%list ∧
       (∀ prompt, OpenAIChatCompletionsCreate prompt ∉ t) ∧
       (∀ row, ProposalsInsert row ∉ t).
Proof.
  intros Hlet Hjson Hmiss. unfold run, exec.
  rewrite (POST_let_through _ _ _ _ Hlet).
  rewrite (generate_and_save_missing_field _ _ _ Hjson Hmiss). simpl.
  destruct Hlet as (_ & _ & [(_ & ->)|(_ & _ & _ & ->)]); simpl;
    (split; [done|]); (split; [done|]); eexists; (split; [done|]);
    split; intros x Hin; repeat (apply elem_of_cons in Hin as [?|Hin]; [done|]);
    by apply elem_of_nil in Hin.
Qed.

(** C7. In every run of the handler: a count query is made only
    after the identity provider resolved the token to the user whose
    proposals are counted, so a request answered 401 makes none; and
    the generation call is made only after every count query, for a
    user who is on the [pro] plan or whose count was below 3, so a
    request answered 402 makes none. *)
Theorem quota_check_after_identity_before_generation (w : World) :
  ∃ t : list Effect,
    trace (exec (POST env req) w) = (trace w ++ t)%list ∧
    (∀ i uid since,
       t !! i = Some (ProposalsCount uid since) →
       ∃ token user,
         t !! 0%nat = Some (AuthGetUser token) ∧ (0 < i)%nat ∧
         data_user (auth_getUser env token) = Some user ∧
         auth_error (auth_getUser env token) = None ∧
         user_id_of user = uid) ∧
    (status (run (POST env req) w) = 401%nat →
     ∀ i uid since, t !! i ≠ Some (ProposalsCount uid since)) ∧
    (∀ i prompt,
       t !! i = Some (OpenAIChatCompletionsCreate prompt) →
       (∀ j uid since, t !! j = Some (ProposalsCount uid since) → (j < i)%nat) ∧
       ∃ token user,
         t !! 0%nat = Some (AuthGetUser token) ∧
         data_user (auth_getUser env token) = Some user ∧
         (plan_of (user_id_of user) w = pro ∨
          ∃ j since,
            (j < i)%nat ∧
            t !! j = Some (ProposalsCount (user_id_of user) since) ∧
            (count_since (user_id_of user) since (proposals w) < 3)%nat)) ∧
    (status (run (POST env req) w) = 402%nat →
     ∀ i prompt, t !! i ≠ Some (OpenAIChatCompletionsCreate prompt)).
Proof.
  unfold POST, catch_all, POST_try, generate_and_save, must_be_logged_in,
    load_plan, enforce_free_limit, parse_body, openai, save, plan_of, FREE_LIMIT.
  unfold_handler.
  repeat (case_match; simplify_eq).
  all: cbn [profiles proposals trace default] in *.
  all: simpl; rewrite <- ?app_assoc; simpl; eexists;
    (split; [first [reflexivity | symmetry; apply app_nil_r]|]).
  all: split_and!.
  all: try (intros [|[|[|[|[|[|i]]]]]] ??; simpl; try done).
  all: try (intros [|[|[|[|[|[|i]]]]]] ???; simpl; try done).
  all: try (intros ? [|[|[|[|[|[|i]]]]]] ??; simpl; try done).
  all: try (intros Heq; simplify_eq; eexists _, _; split_and!; eauto; lia).
  all: try (split;
    [ intros [|[|[|[|[|[|j']]]]]] ???; simplify_eq/=; lia
    | eexists _, _; split; [reflexivity|]; split; [eassumption|];
      first
        [ left; by apply dec_stable
        | right; eexists 2%nat, _; split_and!; [lia | reflexivity |];
          match goal with
          | H : (3 <=? _)%nat = false |- _ => by apply Nat.leb_gt in H
          end ] ]).
Qed.
End GenerateFacts.

Section CheckoutFacts.
Import Checkout.
Variable env : Env.
Variable req : Request.

(** C9. A request whose body has no non-empty [email] or no
    non-empty [userId] creates no checkout session and changes
    nothing; on a server that has its Stripe key and price id it is
    answered 400 with [Missing email] or [Missing userId]. *)
Theorem missing_email_or_userId_creates_no_session (w : World) (b : JsonBody) :
  req_json req = inr (Some b) →
  Js.truthy (body_email b) = false ∨ Js.truthy (body_userId b) = false →
  exec (POST env req) w = w ∧
  (Js.truthy (STRIPE_SECRET_KEY env) = true →
   Js.truthy (NEXT_PUBLIC_STRIPE_PRICE_ID env) = true →
   ∃ msg, run (POST env req) w = json (BError msg) 400 ∧
          (msg = "Missing email" ∨ msg = "Missing userId")).
Proof.
  intros Hjson Hmiss. unfold POST, POST_try. unfold_handler. rewrite Hjson. simpl.
  destruct (Js.truthy (STRIPE_SECRET_KEY env)); simpl; [|done].
  destruct (Js.truthy (NEXT_PUBLIC_STRIPE_PRICE_ID env)); simpl; [|done].
  destruct (Js.truthy (body_email b)) eqn:He; simpl; [|eauto 6].
  destruct Hmiss as [?|Hu]; [done|]. rewrite Hu. simpl. eauto 6.
Qed.
End CheckoutFacts.

(** Writing a row with the same customer reference keeps the profile
    the only one of that customer. *)
Lemma sole_profile_after_upsert cid uid p row (t : gmap string ProfileRow) :
  Webhook.sole_profile_of_customer cid uid p t →
  stripe_customer_id row = Some cid →
  Webhook.sole_profile_of_customer cid uid row (<[uid := row]> t).
Proof.
  intros (Hl & Hc & Hu) Hrow. split; [apply lookup_insert_eq|]. split; [done|].
  intros uid' p' Hl' Hc'. destruct (decide (uid' = uid)) as [|Hne]; [done|].
  rewrite lookup_insert_ne in Hl' by done. eauto.
Qed.

(** C2. Delivering a verified subscription-mode checkout-completed
    event a second time leaves the user's profile as the first delivery
    left it in what the claim names: plan [pro], the same customer
    reference and the same subscription reference (and the same email).
    The period end is looked up again and is the same when Stripe
    answers the lookup as before; [updated_at] is the time of the last
    delivery that was applied. *)
Theorem checkout_completed_redelivery_keeps_plan_and_references
    (env1 env2 : Webhook.Env) (req : Webhook.Request) (w : World)
    (session : Webhook.CheckoutSession) (uid : string) :
  Webhook.verified env1 req (Webhook.checkout_session_completed session) →
  Webhook.verified env2 req (Webhook.checkout_session_completed session) →
  Webhook.mode session = "subscription" →
  Webhook.metadata_user_id session = Some uid → uid ≠ "" →
  status (run (Webhook.POST env1 req) w) = 200%nat →
  let w1 := exec (Webhook.POST env1 req) w in
  let w2 := exec (Webhook.POST env2 req) w1 in
  ∃ p1 p2,
    profiles w1 !! uid = Some p1 ∧ profiles w2 !! uid = Some p2 ∧
    plan p1 = pro ∧
    stripe_customer_id p1 = Webhook.id_or_null (Webhook.customer session) ∧
    stripe_subscription_id p1 = Webhook.id_or_null (Webhook.subscription session) ∧
    updated_at p1 = Webhook.now env1 ∧
    Webhook.same_plan_and_references p1 p2 ∧
    (status (run (Webhook.POST env2 req) w1) = 200%nat →
     updated_at p2 = Webhook.now env2) ∧
    (Webhook.subscriptions_retrieve env2 = Webhook.subscriptions_retrieve env1 →
     current_period_end p2 = current_period_end p1) ∧
    (Webhook.subscriptions_retrieve env2 = Webhook.subscriptions_retrieve env1 →
     Webhook.now env2 = Webhook.now env1 → p2 = p1).
Proof.
  intros Hv1 Hv2 Hmode Huid Hne H200 w1 w2.
  subst w2 w1. revert H200.
  unfold Webhook.POST, try_catch, run, exec.
  rewrite (POST_try_verified _ _ _ _ Hv1).
  pose proof (on_checkout_completed_outcome env1 w session uid Hmode Huid Hne) as H1.
  simpl in H1.
  destruct (Webhook.on_checkout_completed env1 session w) as [o1 w1].
  destruct H1 as [(cpe1 & Ho1 & Hp1 & Hc1)|(e & Ho1 & _)]; simpl in *; subst o1;
    [intros _|simpl; discriminate].
  simpl. rewrite (POST_try_verified _ _ _ _ Hv2).
  pose proof (on_checkout_completed_outcome env2 w1 session uid Hmode Huid Hne) as H2.
  simpl in H2.
  destruct (Webhook.on_checkout_completed env2 session w1) as [o2 w2].
  destruct H2 as [(cpe2 & Ho2 & Hp2 & Hc2)|(e & Ho2 & Hp2)]; simpl in *; subst o2;
    simpl; rewrite Hp2, Hp1.
  - eexists _, _. rewrite insert_insert_eq, !lookup_insert_eq.
    split; [done|]. split; [done|]. simpl.
    split_and!; try done.
    + intros Hret. rewrite Hret in Hc2.
      destruct (Js.truthy _); [|congruence].
      destruct Hc1 as (raw1 & sub1 & Hr1 & Hs1 & Hu1).
      destruct Hc2 as (raw2 & sub2 & Hr2 & Hs2 & Hu2). congruence.
    + intros Hret Hnow. rewrite Hret in Hc2. rewrite Hnow. f_equal.
      destruct (Js.truthy _); [|congruence].
      destruct Hc1 as (raw1 & sub1 & Hr1 & Hs1 & Hu1).
      destruct Hc2 as (raw2 & sub2 & Hr2 & Hs2 & Hu2). congruence.
  - eexists _, _. rewrite !lookup_insert_eq.
    split; [done|]. split; [done|]. simpl.
    split_and!; try done.
Qed.

(** C4. A verified subscription-deleted event whose customer has a
    profile makes that profile [free], clears the subscription reference
    and the period end and keeps the customer reference; a second
    delivery finds the same profile and writes the same plan and
    references again. *)
Theorem subscription_deleted_sets_free_and_is_repeatable
    (env env' : Webhook.Env) (req : Webhook.Request) (w : World)
    (sub : Webhook.Subscription) (cid uid : string) (p : ProfileRow) :
  Webhook.verified env req (Webhook.customer_subscription_deleted sub) →
  Webhook.verified env' req (Webhook.customer_subscription_deleted sub) →
  Webhook.id_of (Webhook.sub_customer sub) = inr cid →
  Webhook.sole_profile_of_customer cid uid p (profiles w) →
  Webhook.store_answers env → Webhook.store_answers env' →
  let freed (at_ : Timestamptz) :=
    {| email := email p; plan := free; stripe_customer_id := Some cid;
       stripe_subscription_id := None; current_period_end := None;
       updated_at := at_ |} in
  let w1 := exec (Webhook.POST env req) w in
  let w2 := exec (Webhook.POST env' req) w1 in
  run (Webhook.POST env req) w = json_ok (BOk None) ∧
  profiles w1 = <[uid := freed (Webhook.now env)]> (profiles w) ∧
  run (Webhook.POST env' req) w1 = json_ok (BOk None) ∧
  profiles w2 = <[uid := freed (Webhook.now env')]> (profiles w).
Proof.
  intros Hv Hv' Hcid Hsole Hst Hst' freed w1 w2.
  assert (Hw1 := POST_subscription_deleted_sole env req w sub cid uid p
                  Hv Hst Hcid Hsole).
  simpl in Hw1.
  assert (Hsole1 : Webhook.sole_profile_of_customer cid uid
                     (freed (Webhook.now env)) (profiles w1)).
  { subst w1. unfold exec. rewrite Hw1. simpl.
    by apply (sole_profile_after_upsert cid uid p). }
  assert (Hw2 := POST_subscription_deleted_sole env' req w1 sub cid uid _
                  Hv' Hst' Hcid Hsole1).
  simpl in Hw2.
  subst w2. unfold run, exec. rewrite Hw2. simpl.
  subst w1. unfold exec. rewrite Hw1. simpl.
  split; [done|]. split; [done|]. split; [done|].
  apply insert_insert_eq.
Qed.

(** * The theorems at sample inputs *)

Section Instances.
Import Samples.

Lemma verified_signed (now : Timestamptz) (payload : string) :
  Webhook.verified (stripe_server now) (signed payload) (parse payload).
Proof.
  unfold Webhook.verified, stripe_server, signed, construct. simpl.
  split; [done|]. split; [done|]. by rewrite String.eqb_refl.
Defined.

Lemma ada_is_the_sole_profile :
  Webhook.sole_profile_of_customer "cus_ada" "user-ada" ada_profile
    (profiles ada_is_pro).
Proof.
  split; [reflexivity|]. split; [reflexivity|].
  intros uid' p' Hl _. simpl in Hl.
  apply lookup_singleton_Some in Hl. by destruct Hl.
Defined.

Lemma sample_dates_are_valid :
  ∀ r, r ∈ proposals ada_three_among_others → Generate.valid_Date (created_at r).
Proof.
  apply Forall_forall. repeat constructor; vm_compute; congruence.
Defined.

(** C1 at a store of two users and two months: Ada's three proposals
    of November are counted, and neither those of October nor Bob's;
    with two of November she is let through. *)
Lemma quota_decision_witness :
  length (proposals ada_three_among_others) = 9%nat ∧
  Generate.POST generate_server (generate_request (Some "Acme") (Some "notes"))
    ada_three_among_others =
    (json (BLimit Generate.limit_message "FREE_LIMIT_REACHED" 3 3) 402,
     Generate.after
       [AuthGetUser "token-ada"; ProfilesSelectPlan "user-ada";
        ProposalsCount "user-ada" (Generate.startOfMonth november_2nd)]
       ada_three_among_others) ∧
  Generate.POST generate_server (generate_request (Some "Acme") (Some "notes"))
    ada_two_among_others =
    Generate.catch_all
      (Generate.generate_and_save generate_server
         (generate_request (Some "Acme") (Some "notes")) ada)
      (Generate.after
         [AuthGetUser "token-ada"; ProfilesSelectPlan "user-ada";
          ProposalsCount "user-ada" (Generate.startOfMonth november_2nd)]
         ada_two_among_others).
Proof.
  assert (Hauth : Generate.authenticated generate_server
            (generate_request (Some "Acme") (Some "notes")) "token-ada" ada).
  { repeat split; done. }
  split; [reflexivity|]. split.
  - destruct (quota_decision generate_server
                (generate_request (Some "Acme") (Some "notes"))
                ada_three_among_others "token-ada" ada Hauth eq_refl) as [_ Hfree].
    destruct (Hfree eq_refl eq_refl sample_dates_are_valid) as [_ Hfull].
    apply Hfull. vm_compute. lia.
  - destruct (quota_decision generate_server
                (generate_request (Some "Acme") (Some "notes"))
                ada_two_among_others "token-ada" ada Hauth eq_refl) as [_ Hfree].
    assert (Hvalid : ∀ r, r ∈ proposals ada_two_among_others →
                          Generate.valid_Date (created_at r)).
    { apply Forall_forall. repeat constructor; vm_compute; congruence. }
    destruct (Hfree eq_refl eq_refl Hvalid) as [Hbelow _].
    apply Hbelow. vm_compute. lia.
Defined.

(** C2 at the checkout of Ada, delivered at 1000 and again at 2000. *)
Lemma checkout_completed_redelivery_witness :
  ∃ p1 p2,
    profiles after_first_delivery !! "user-ada" = Some p1 ∧
    profiles after_second_delivery !! "user-ada" = Some p2 ∧
    plan p1 = pro ∧
    Webhook.same_plan_and_references p1 p2 ∧
    updated_at p1 = 1000 ∧ updated_at p2 = 2000 ∧
    current_period_end p2 = current_period_end p1.
Proof.
  destruct (checkout_completed_redelivery_keeps_plan_and_references
              (stripe_server 1000) (stripe_server 2000) (signed "checkout")
              empty_world (ada_session (Webhook.ExpId "sub_ada")) "user-ada")
    as (p1 & p2 & H1 & H2 & Hplan & _ & _ & Hat1 & Hsame & Hat2 & Hcpe & _).
  - apply (verified_signed 1000 "checkout").
  - apply (verified_signed 2000 "checkout").
  - reflexivity.
  - reflexivity.
  - discriminate.
  - reflexivity.
  - exists p1, p2. split; [exact H1|]. split; [exact H2|]. split; [exact Hplan|].
    split; [exact Hsame|]. split; [exact Hat1|].
    split; [apply Hat2; reflexivity|]. apply Hcpe. reflexivity.
Defined.

(** C3 at a changed body under the signature of another body. *)
Lemma invalid_signature_witness :
  run (Webhook.POST (stripe_server 2000) tampered) ada_is_pro
    = json (BError "Invalid signature") 400 ∧
  profiles (exec (Webhook.POST (stripe_server 2000) tampered) ada_is_pro)
    = profiles ada_is_pro.
Proof.
  destruct (invalid_signature_rejected_before_any_mutation
              (stripe_server 2000) tampered ada_is_pro
              (Js.new_Error
                 "No signatures found matching the expected signature for payload."))
    as [Hr Hw].
  - split; [reflexivity|]. split; reflexivity.
  - split; [exact Hr|]. rewrite Hw. reflexivity.
Defined.

(** C4 at Ada's profile, delivered at 2000 and again at 3000. *)
Lemma subscription_deleted_witness :
  profiles (exec (Webhook.POST (stripe_server 2000) (signed "deleted")) ada_is_pro)
    !! "user-ada"
    = Some {| email := Some "ada@example.com"; plan := free;
              stripe_customer_id := Some "cus_ada";
              stripe_subscription_id := None; current_period_end := None;
              updated_at := 2000 |} ∧
  profiles (exec (Webhook.POST (stripe_server 3000) (signed "deleted"))
              (exec (Webhook.POST (stripe_server 2000) (signed "deleted")) ada_is_pro))
    !! "user-ada"
    = Some {| email := Some "ada@example.com"; plan := free;
              stripe_customer_id := Some "cus_ada";
              stripe_subscription_id := None; current_period_end := None;
              updated_at := 3000 |}.
Proof.
  destruct (subscription_deleted_sets_free_and_is_repeatable
              (stripe_server 2000) (stripe_server 3000) (signed "deleted")
              ada_is_pro (ada_subscription "canceled") "cus_ada" "user-ada"
              ada_profile)
    as (_ & H1 & _ & H2).
  - apply (verified_signed 2000 "deleted").
  - apply (verified_signed 3000 "deleted").
  - reflexivity.
  - exact ada_is_the_sole_profile.
  - split; reflexivity.
  - split; reflexivity.
  - rewrite H1, H2. split; apply lookup_insert_eq.
Defined.

(** C5 at Ada's subscription: past due, she goes from [pro] to
    [free]; active again, from [free] to [pro]; and at a store without
    profiles. *)
Lemma subscription_updated_witness :
  profiles (exec (Webhook.POST (stripe_server 2000) (signed "updated-past-due"))
              ada_is_pro) !! "user-ada"
    = Some {| email := Some "ada@example.com"; plan := free;
              stripe_customer_id := Some "cus_ada";
              stripe_subscription_id := Some "sub_ada";
              current_period_end := Some 1800000000000;
              updated_at := 2000 |} ∧
  profiles (exec (Webhook.POST (stripe_server 3000) (signed "updated-active"))
              ada_is_past_due) !! "user-ada"
    = Some {| email := Some "ada@example.com"; plan := pro;
              stripe_customer_id := Some "cus_ada";
              stripe_subscription_id := Some "sub_ada";
              current_period_end := Some 1800000000000;
              updated_at := 3000 |} ∧
  Webhook.POST (stripe_server 2000) (signed "updated-past-due") empty_world
    = (json_ok (BOk (Some "No profile for customer")),
       {| profiles := ∅; proposals := [];
          trace := [ProfilesSelectByCustomer "cus_ada"] |}).
Proof.
  split; [|split].
  - destruct (subscription_updated_follows_status
                (stripe_server 2000) (signed "updated-past-due") ada_is_pro
                (ada_subscription "past_due") "cus_ada") as [Hsome _].
    + apply (verified_signed 2000 "updated-past-due").
    + reflexivity.
    + split; reflexivity.
    + unfold exec.
      rewrite (Hsome "user-ada" ada_profile (Some 1800000000000)
                 ada_is_the_sole_profile eq_refl).
      apply lookup_insert_eq.
  - destruct (subscription_updated_follows_status
                (stripe_server 3000) (signed "updated-active") ada_is_past_due
                (ada_subscription "active") "cus_ada") as [Hsome _].
    + apply (verified_signed 3000 "updated-active").
    + reflexivity.
    + split; reflexivity.
    + assert (Hsole : Webhook.sole_profile_of_customer "cus_ada" "user-ada"
                        ada_past_due_profile (profiles ada_is_past_due)).
      { split; [reflexivity|]. split; [reflexivity|].
        intros uid' p' Hl _. simpl in Hl.
        apply lookup_singleton_Some in Hl. by destruct Hl. }
      unfold exec.
      rewrite (Hsome "user-ada" ada_past_due_profile (Some 1800000000000)
                 Hsole eq_refl).
      apply lookup_insert_eq.
  - destruct (subscription_updated_follows_status
                (stripe_server 2000) (signed "updated-past-due") empty_world
                (ada_subscription "past_due") "cus_ada") as [_ Hnone].
    + apply (verified_signed 2000 "updated-past-due").
    + reflexivity.
    + split; reflexivity.
    + apply Hnone. intros uid p Hl. simpl in Hl.
      rewrite lookup_empty in Hl. discriminate Hl.
Defined.

(** C6: a client name of three spaces is empty after trimming, and
    the proposal is generated and saved under the empty name. *)
Lemma whitespace_client_name_is_generated_and_saved :
  Js.trim "   " = "" ∧
  run (Generate.POST generate_server
         (generate_request (Some "   ") (Some "valid notes text here")))
      empty_world
    = json_ok (BGenerated "PROPOSAL"
        {| id := "proposal-4"; user_id := "user-ada"; client_name := "";
           notes := "valid notes text here"; proposal := "PROPOSAL";
           created_at := four_seconds_later |}) ∧
  OpenAIChatCompletionsCreate
    (Generate.prompt_of "   " "valid notes text here")
    ∈ trace (exec (Generate.POST generate_server
                     (generate_request (Some "   ") (Some "valid notes text here")))
               empty_world) ∧
  length (proposals (exec (Generate.POST generate_server
                       (generate_request (Some "   ") (Some "valid notes text here")))
                 empty_world)) = 1%nat.
Proof.
  split; [reflexivity|]. split; [reflexivity|]. split; [|reflexivity].
  apply list_elem_of_In. vm_compute. do 3 right. left. reflexivity.
Qed.

(** C6, as the code has it, at the empty client name. *)
Lemma missing_field_witness :
  run (Generate.POST generate_server
         (generate_request (Some "") (Some "valid notes text here")))
      empty_world
    = json (BError "Missing clientName or notes") 400 ∧
  proposals (exec (Generate.POST generate_server
                     (generate_request (Some "") (Some "valid notes text here")))
               empty_world) = [].
Proof.
  destruct (missing_field_rejected_before_generation generate_server
              (generate_request (Some "") (Some "valid notes text here"))
              empty_world
              (Generate.after
                 [AuthGetUser "token-ada"; ProfilesSelectPlan "user-ada";
                  ProposalsCount "user-ada" (Generate.startOfMonth november_2nd)]
                 empty_world)
              "token-ada" ada
              {| Generate.clientName := Some "";
                 Generate.body_notes := Some "valid notes text here" |})
    as (Hr & Hp & _).
  - split; [repeat split; done|]. split; [reflexivity|].
    right. split; [reflexivity|]. split; [reflexivity|].
    split; [vm_compute; lia|reflexivity].
  - reflexivity.
  - left. reflexivity.
  - split; [exact Hr|exact Hp].
Defined.

(** C8: a verified checkout event whose subscription Stripe does not
    know is answered 400. *)
Lemma verified_checkout_answered_400 :
  Webhook.verified (stripe_server 2000) (signed "checkout-unknown-subscription")
    (parse "checkout-unknown-subscription") ∧
  run (Webhook.POST (stripe_server 2000) (signed "checkout-unknown-subscription"))
      empty_world
    = json (BError "No such subscription: sub_gone") 400.
Proof. split; [apply verified_signed|reflexivity]. Qed.

(** C9 at a body without [userId]. *)
Lemma missing_userId_witness :
  Checkout.POST checkout_server (checkout_request (Some "ada@example.com") None)
    empty_world
    = (json (BError "Missing userId") 400, empty_world).
Proof.
  destruct (missing_email_or_userId_creates_no_session checkout_server
              (checkout_request (Some "ada@example.com") None) empty_world
              {| Checkout.body_email := Some "ada@example.com";
                 Checkout.body_userId := None |})
    as [Hw Hr].
  - reflexivity.
  - right. reflexivity.
  - destruct (Hr eq_refl eq_refl) as (msg & Hrun & _).
    reflexivity.
Defined.

(** C10 at Ada's checkout without subscription. *)
Lemma checkout_without_subscription_witness :
  profiles (exec (Webhook.POST (stripe_server 2000)
                    (signed "checkout-without-subscription")) empty_world)
    !! "user-ada"
    = Some {| email := Some "ada@example.com"; plan := pro;
              stripe_customer_id := Some "cus_ada";
              stripe_subscription_id := None; current_period_end := None;
              updated_at := 2000 |}.
Proof.
  destruct (checkout_without_subscription_upserts_pro
              (stripe_server 2000) (signed "checkout-without-subscription")
              empty_world (ada_session Webhook.ExpNull) "user-ada")
    as [_ Hw].
  - apply (verified_signed 2000 "checkout-without-subscription").
  - reflexivity.
  - reflexivity.
  - discriminate.
  - reflexivity.
  - reflexivity.
  - rewrite Hw. apply lookup_insert_eq.
Defined.
End Instances.

(** * Further properties of the webhook *)

Section WebhookFootprint.
Import Webhook.
Variable env : Env.

Lemma on_checkout_completed_footprint session :
  branch_footprint (on_checkout_completed env session).
Proof.
  intros w o w' H. unfold on_checkout_completed, upsertProfile in H.
  unfold_handler. branches; (split; [done|]); first [by left | right; eauto].
Qed.

Lemma on_subscription_updated_footprint sub :
  branch_footprint (on_subscription_updated env sub).
Proof.
  intros w o w' H.
  unfold on_subscription_updated, select_profile_by_customer, upsertProfile in H.
  unfold_handler. branches; (split; [done|]); first [by left | right; eauto].
Qed.

Lemma on_subscription_deleted_footprint sub :
  branch_footprint (on_subscription_deleted env sub).
Proof.
  intros w o w' H.
  unfold on_subscription_deleted, select_profile_by_customer, upsertProfile in H.
  unfold_handler. branches; (split; [done|]); first [by left | right; eauto].
Qed.

(** Every run of the webhook: the proposals are left alone; the
    profiles are left alone too, unless the request is verified, the
    answer is the plain acknowledgment, and one row was written; and an
    answer of 200 is given to verified requests only. *)
Lemma POST_footprint (req : Request) (w : World) :
  proposals (exec (POST env req) w) = proposals w ∧
  (profiles (exec (POST env req) w) = profiles w
   ∨ (∃ event, verified env req event) ∧
     run (POST env req) w = json_ok (BOk None) ∧
     ∃ uid row, profiles (exec (POST env req) w) = <[uid := row]> (profiles w)) ∧
  (status (run (POST env req) w) = 200%nat → ∃ event, verified env req event).
Proof.
  unfold POST, try_catch, run, exec.
  destruct (Js.truthy (stripe_signature req)) eqn:Hsig;
    [|unfold POST_try; rewrite Hsig; simpl; by split_and!; [|left|]].
  destruct (Js.truthy (STRIPE_WEBHOOK_SECRET env)) eqn:Hsec;
    [|unfold POST_try; rewrite Hsig, Hsec; simpl; by split_and!; [|left|]].
  destruct (constructEvent env (text req) (default "" (stripe_signature req))
              (default "" (STRIPE_WEBHOOK_SECRET env))) as [err|event] eqn:Hev;
    [unfold POST_try; unfold_handler; rewrite Hsig, Hsec, Hev; simpl;
     by split_and!; [|left|]|].
  assert (Hv : verified env req event) by done.
  rewrite (POST_try_verified _ _ _ _ Hv).
  assert (Hfoot : ∃ h, branch_footprint h ∧
            match event with
            | checkout_session_completed session => on_checkout_completed env session w
            | customer_subscription_updated subEvent => on_subscription_updated env subEvent w
            | customer_subscription_deleted subEvent => on_subscription_deleted env subEvent w
            | other_event _ => (Return (json_ok (BOk None)), w)
            end = h w).
  { destruct event.
    - eexists; split; [apply on_checkout_completed_footprint|done].
    - eexists; split; [apply on_subscription_updated_footprint|done].
    - eexists; split; [apply on_subscription_deleted_footprint|done].
    - exists (respond (json_ok (BOk None))). split; [|done].
      intros ??? H. unfold respond in H. simplify_eq. eauto. }
  destruct Hfoot as (h & Hh & ->).
  destruct (h w) as [o w'] eqn:Hrun. destruct (Hh _ _ _ Hrun) as (Hprop & Hprof).
  destruct o as [r|r|e]; simpl; (split; [done|]); (split; [|by eauto]);
    destruct Hprof as [?|(? & ?)]; simplify_eq; eauto 10.
Qed.
End WebhookFootprint.

Section WebhookMore.
Import Webhook.
Variable env : Env.
Variable req : Request.

(** X1. A request that is not verified (no signature header, no
    configured secret, or a signature that [constructEvent] rejects) is
    never answered 200 and changes neither table. *)
Theorem unverified_request_is_rejected_without_writes (w : World) :
  unverified env req →
  status (run (POST env req) w) ≠ 200%nat ∧
  profiles (exec (POST env req) w) = profiles w ∧
  proposals (exec (POST env req) w) = proposals w.
Proof.
  intros Hun. destruct (POST_footprint env req w) as (Hprop & Hprof & H200).
  split; [|split; [|done]].
  - intros H. destruct (H200 H) as [event Hv]. exact (Hun event Hv).
  - destruct Hprof as [?|([event Hv] & _)]; [done|]. destruct (Hun event Hv).
Qed.

(** X2. Whenever the webhook answers anything but 200, no profile was
    written: the answers that make Stripe deliver the event again leave
    the store as it was. *)
Theorem webhook_error_answer_means_nothing_written (w : World) :
  status (run (POST env req) w) ≠ 200%nat →
  profiles (exec (POST env req) w) = profiles w.
Proof.
  intros Hst. destruct (POST_footprint env req w) as (_ & [?|(_ & Hr & _)] & _);
    [done|]. rewrite Hr in Hst. done.
Qed.

(** X3. One run of the webhook never touches the proposals and
    writes at most one row of the profiles. *)
Theorem webhook_writes_at_most_one_profile (w : World) :
  proposals (exec (POST env req) w) = proposals w ∧
  ∃ uid, same_but_at uid (profiles w) (profiles (exec (POST env req) w)).
Proof.
  destruct (POST_footprint env req w) as (Hprop & Hprof & _). split; [done|].
  destruct Hprof as [->|(_ & _ & uid & row & ->)].
  - by exists "".
  - exists uid. intros uid' Hne. by rewrite lookup_insert_ne.
Qed.

(** Two rows of one customer make the lookup by customer fail. *)
Lemma maybeSingle_two_profiles cid u1 u2 p1 p2 (t : gmap string ProfileRow) :
  u1 ≠ u2 →
  t !! u1 = Some p1 → stripe_customer_id p1 = Some cid →
  t !! u2 = Some p2 → stripe_customer_id p2 = Some cid →
  maybeSingle (profiles_eq_customer cid t)
    = inl "JSON object requested, multiple (or no) rows returned".
Proof.
  intros Hne H1 Hc1 H2 Hc2. unfold profiles_eq_customer.
  set (m := filter (λ kp, stripe_customer_id kp.2 = Some cid) t).
  assert (Hm1 : m !! u1 = Some p1) by by apply map_lookup_filter_Some.
  assert (Hm2 : m !! u2 = Some p2) by by apply map_lookup_filter_Some.
  assert (Hsize : (2 ≤ length (map_to_list m))%nat).
  { rewrite length_map_to_list.
    assert (Hd : size (delete u1 m) ≠ 0%nat).
    { apply (map_size_ne_0_lookup_2 _ u2). rewrite lookup_delete_ne by done. eauto. }
    rewrite map_size_delete_Some in Hd by eauto. lia. }
  destruct (map_to_list m) as [|x [|y l]]; simpl in *; [lia|lia|done].
Qed.

(** The row the lookup by customer finds is a row of the table, and
    its customer reference is the one asked for. *)
Lemma maybeSingle_profile_found cid uid p (t : gmap string ProfileRow) :
  maybeSingle (profiles_eq_customer cid t) = inr (Some (uid, p)) →
  t !! uid = Some p ∧ stripe_customer_id p = Some cid.
Proof.
  unfold profiles_eq_customer. intros H.
  destruct (map_to_list _) as [|x [|y l]] eqn:Hl; simplify_eq/=.
  assert (Hin : (uid, p) ∈ map_to_list
            (filter (λ kp, stripe_customer_id kp.2 = Some cid) t)).
  { rewrite Hl. apply list_elem_of_here. }
  apply elem_of_map_to_list in Hin. by apply map_lookup_filter_Some in Hin.
Qed.

(** X4. A verified subscription event whose customer reference is on
    the rows of two users is not applied to either: the lookup fails,
    the answer is 400 and the profiles stay as they were. *)
Theorem subscription_event_of_ambiguous_customer_is_rejected
    (w : World) (event : Event) (sub : Subscription) (cid u1 u2 : string)
    (p1 p2 : ProfileRow) :
  verified env req event →
  subscription_event event sub →
  id_of (sub_customer sub) = inr cid →
  select_error env = None →
  u1 ≠ u2 →
  profiles w !! u1 = Some p1 → stripe_customer_id p1 = Some cid →
  profiles w !! u2 = Some p2 → stripe_customer_id p2 = Some cid →
  let err := Js.new_Error "JSON object requested, multiple (or no) rows returned" in
  POST env req w =
    (json (BError "JSON object requested, multiple (or no) rows returned") 400,
     {| profiles := profiles w; proposals := proposals w;
        trace := trace w ++ [ProfilesSelectByCustomer cid;
                             ConsoleError "Stripe webhook error:" err] |}).
Proof.
  intros Hv Hev Hcid Hsel Hne H1 Hc1 H2 Hc2 err.
  pose proof (maybeSingle_two_profiles cid u1 u2 p1 p2 _ Hne H1 Hc1 H2 Hc2) as Hms.
  unfold POST, try_catch. rewrite (POST_try_verified _ _ _ _ Hv).
  destruct Hev as [-> | ->].
  - unfold on_subscription_updated, select_profile_by_customer. unfold_handler.
    rewrite Hcid, Hsel. simpl. rewrite Hms. simpl. by rewrite <- app_assoc.
  - unfold on_subscription_deleted, select_profile_by_customer. unfold_handler.
    rewrite Hcid, Hsel. simpl. rewrite Hms. simpl. by rewrite <- app_assoc.
Qed.

(** X5. A verified subscription event, whatever it carries and
    whatever the store and Stripe answer, creates no profile and leaves
    the email and the customer reference of every profile as they
    were. *)
Theorem subscription_events_keep_every_profile_identity
    (w : World) (event : Event) (sub : Subscription) (uid : string) :
  verified env req event →
  subscription_event event sub →
  identity_of <$> profiles (exec (POST env req) w) !! uid
    = identity_of <$> profiles w !! uid.
Proof.
  intros Hv Hev. unfold POST, try_catch, exec.
  rewrite (POST_try_verified _ _ _ _ Hv).
  assert (Hbranch : ∀ h : Handler Response,
            (h = on_subscription_updated env sub ∨ h = on_subscription_deleted env sub) →
            ∀ o w', h w = (o, w') →
              identity_of <$> profiles w' !! uid = identity_of <$> profiles w !! uid).
  { intros h Hh o w' H.
    destruct Hh as [-> | ->];
      unfold on_subscription_updated, on_subscription_deleted,
        select_profile_by_customer, upsertProfile in H;
      unfold_handler; branches; try done;
      match goal with
      | Hm : maybeSingle _ = inr (Some (?u, ?p)) |- _ =>
          apply maybeSingle_profile_found in Hm as [Hl Hc];
          destruct (decide (uid = u)) as [->|Hne];
          [rewrite lookup_insert_eq, Hl; unfold identity_of; simpl;
           rewrite ?nullish_null; by rewrite Hc
          |by rewrite lookup_insert_ne]
      end. }
  destruct Hev as [-> | ->].
  - destruct (on_subscription_updated env sub w) as [o w'] eqn:Hrun.
    pose proof (Hbranch _ (or_introl eq_refl) _ _ Hrun). by destruct o.
  - destruct (on_subscription_deleted env sub w) as [o w'] eqn:Hrun.
    pose proof (Hbranch _ (or_intror eq_refl) _ _ Hrun). by destruct o.
Qed.
End WebhookMore.

(** X6. The life of a subscription: once a verified checkout has
    been applied for a user whose customer reference no other profile
    carries, a verified subscription-deleted event of that customer
    finds exactly this user and makes the profile [free], keeping the
    email and the customer reference the checkout stored. *)
Theorem checkout_then_cancellation_downgrades_that_user
    (env1 env2 : Webhook.Env) (req1 req2 : Webhook.Request) (w : World)
    (session : Webhook.CheckoutSession) (sub : Webhook.Subscription)
    (uid cid : string) :
  Webhook.verified env1 req1 (Webhook.checkout_session_completed session) →
  Webhook.mode session = "subscription" →
  Webhook.metadata_user_id session = Some uid → uid ≠ "" →
  Webhook.id_or_null (Webhook.customer session) = Some cid →
  (∀ uid' p', profiles w !! uid' = Some p' →
              stripe_customer_id p' = Some cid → uid' = uid) →
  status (run (Webhook.POST env1 req1) w) = 200%nat →
  Webhook.verified env2 req2 (Webhook.customer_subscription_deleted sub) →
  Webhook.id_of (Webhook.sub_customer sub) = inr cid →
  Webhook.store_answers env2 →
  run (Webhook.POST env2 req2) (exec (Webhook.POST env1 req1) w)
    = json_ok (BOk None) ∧
  profiles (exec (Webhook.POST env2 req2) (exec (Webhook.POST env1 req1) w))
    = <[uid := {| email := Webhook.session_email session; plan := free;
                  stripe_customer_id := Some cid;
                  stripe_subscription_id := None; current_period_end := None;
                  updated_at := Webhook.now env2 |}]> (profiles w).
Proof.
  intros Hv1 Hmode Huid Hne Hcid Hothers H200 Hv2 Hsub Hst.
  assert (Hfirst : ∃ cpe,
            profiles (exec (Webhook.POST env1 req1) w) =
              <[uid := {| email := Webhook.session_email session; plan := pro;
                          stripe_customer_id := Some cid;
                          stripe_subscription_id :=
                            Webhook.id_or_null (Webhook.subscription session);
                          current_period_end := cpe;
                          updated_at := Webhook.now env1 |}]> (profiles w)).
  { revert H200. unfold Webhook.POST, try_catch, run, exec.
    rewrite (POST_try_verified _ _ _ _ Hv1).
    pose proof (on_checkout_completed_outcome env1 w session uid Hmode Huid Hne) as H1.
    simpl in H1.
    destruct (Webhook.on_checkout_completed env1 session w) as [o1 w1].
    destruct H1 as [(cpe & Ho1 & Hp1 & _)|(e & Ho1 & _)]; simpl in *; subst o1;
      [intros _|simpl; discriminate].
    exists cpe. simpl. by rewrite Hp1, Hcid. }
  destruct Hfirst as [cpe Hp1].
  remember (exec (Webhook.POST env1 req1) w) as w1 eqn:Hw1. clear Hw1.
  set (row := {| email := Webhook.session_email session; plan := pro;
                 stripe_customer_id := Some cid;
                 stripe_subscription_id :=
                   Webhook.id_or_null (Webhook.subscription session);
                 current_period_end := cpe;
                 updated_at := Webhook.now env1 |}) in *.
  assert (Hsole : Webhook.sole_profile_of_customer cid uid row (profiles w1)).
  { rewrite Hp1. split; [apply lookup_insert_eq|]. split; [done|].
    intros uid' p' Hl Hc. destruct (decide (uid' = uid)) as [|Hn]; [done|].
    rewrite lookup_insert_ne in Hl by done. eauto. }
  unfold run, exec.
  rewrite (POST_subscription_deleted_sole env2 req2 w1 sub cid uid row
             Hv2 Hst Hsub Hsole). simpl.
  split; [done|]. rewrite Hp1. apply insert_insert_eq.
Qed.

(** X7. A verified subscription event that names no customer is
    answered 400 by the catch-all before the store is asked anything. *)
Theorem subscription_event_without_customer_is_rejected
    (env : Webhook.Env) (req : Webhook.Request) (w : World)
    (event : Webhook.Event) (sub : Webhook.Subscription) :
  Webhook.verified env req event →
  subscription_event event sub →
  Webhook.sub_customer sub = Webhook.ExpNull →
  ∃ err,
    Webhook.POST env req w =
      (json (BError (default "Webhook error" (Js.message err))) 400,
       {| profiles := profiles w; proposals := proposals w;
          trace := trace w ++ [ConsoleError "Stripe webhook error:" err] |}).
Proof.
  intros Hv Hev Hnull. unfold Webhook.POST, try_catch.
  rewrite (POST_try_verified _ _ _ _ Hv).
  destruct Hev as [-> | ->];
    unfold Webhook.on_subscription_updated, Webhook.on_subscription_deleted;
    unfold_handler; rewrite Hnull; simpl;
    by exists (Js.new_Error "Cannot read properties of null (reading 'id')").
Qed.
(** * The acknowledgment discipline of the webhook *)

(** The profiles of one customer: none, exactly one, or those of two
    different users at least. *)
Lemma profiles_eq_customer_cases cid (t : gmap string ProfileRow) :
  Webhook.no_profile_of_customer cid t
  ∨ (∃ uid p, Webhook.sole_profile_of_customer cid uid p t)
  ∨ (∃ u1 u2 p1 p2,
       u1 ≠ u2 ∧ t !! u1 = Some p1 ∧ stripe_customer_id p1 = Some cid ∧
       t !! u2 = Some p2 ∧ stripe_customer_id p2 = Some cid).
Proof.
  set (m := filter (λ kp : string * ProfileRow, stripe_customer_id kp.2 = Some cid) t).
  assert (Hm : ∀ uid p, m !! uid = Some p ↔ t !! uid = Some p ∧ stripe_customer_id p = Some cid).
  { intros uid p. unfold m. by rewrite map_lookup_filter_Some. }
  destruct (map_to_list m) as [|[u1 p1] [|[u2 p2] l]] eqn:Hl.
  - left. apply map_to_list_empty_iff in Hl. intros uid p Hlk Hc.
    assert (m !! uid = Some p) as Hin by by apply Hm.
    rewrite Hl, lookup_empty in Hin. discriminate.
  - right. left. exists u1, p1.
    assert (m !! u1 = Some p1) as H1.
    { apply elem_of_map_to_list. rewrite Hl. apply list_elem_of_here. }
    apply Hm in H1 as [H1 Hc1]. split; [done|]. split; [done|].
    intros uid' p' Hlk Hc.
    assert ((uid', p') ∈ map_to_list m) as Hin by by apply elem_of_map_to_list, Hm.
    rewrite Hl in Hin. apply list_elem_of_singleton in Hin. by simplify_eq.
  - right. right. exists u1, u2, p1, p2.
    pose proof (NoDup_fst_map_to_list m) as Hnd. rewrite Hl in Hnd. simpl in Hnd.
    apply NoDup_cons in Hnd as [Hnotin _].
    assert (m !! u1 = Some p1) as H1.
    { apply elem_of_map_to_list. rewrite Hl. apply list_elem_of_here. }
    assert (m !! u2 = Some p2) as H2.
    { apply elem_of_map_to_list. rewrite Hl. apply list_elem_of_further, list_elem_of_here. }
    apply Hm in H1 as [H1 Hc1]. apply Hm in H2 as [H2 Hc2].
    split; [|done]. intros ->. apply Hnotin. apply list_elem_of_here.
Qed.

Section WebhookAck.
Import Webhook.
Variable env : Env.
Variable req : Request.

Lemma select_profile_two (w : World) cid u1 u2 p1 p2 :
  select_error env = None →
  u1 ≠ u2 →
  profiles w !! u1 = Some p1 → stripe_customer_id p1 = Some cid →
  profiles w !! u2 = Some p2 → stripe_customer_id p2 = Some cid →
  select_profile_by_customer env cid w =
    (Throw (Js.new_Error "JSON object requested, multiple (or no) rows returned"),
     {| profiles := profiles w; proposals := proposals w;
        trace := trace w ++ [ProfilesSelectByCustomer cid] |}).
Proof.
  intros Hsel Hne H1 Hc1 H2 Hc2. unfold select_profile_by_customer. unfold_handler.
  rewrite Hsel. simpl.
  by rewrite (maybeSingle_two_profiles cid u1 u2 p1 p2 _ Hne H1 Hc1 H2 Hc2).
Qed.

Lemma select_profile_fails (w : World) cid msg :
  select_error env = Some msg →
  select_profile_by_customer env cid w =
    (Throw (Js.new_Error msg),
     {| profiles := profiles w; proposals := proposals w;
        trace := trace w ++ [ProfilesSelectByCustomer cid] |}).
Proof.
  intros Hsel. unfold select_profile_by_customer. unfold_handler. by rewrite Hsel.
Qed.

(** Each listed step, when it throws, makes the [try] block throw
    what it threw. *)
Lemma step_throws_sound (w : World) (event : Event) (err : Js.Error) :
  verified env req event →
  step_throws env (profiles w) event err →
  (POST_try env req w).1 = Throw err.
Proof.
  intros Hv Hs. rewrite (POST_try_verified _ _ _ _ Hv).
  destruct Hs as
    [session sid err (Hmode & Huid) Hsid Hne Hret
    |session sid resp err (Hmode & Huid) Hsid Hne Hret Hto
    |session sid resp sub err (Hmode & Huid) Hsid Hne Hret Hto Hcpe
    |event sub err Hsub Hcid
    |sub cid uid p err Hcid Hsel Hsole Hcpe
    |event sub cid msg Hsub Hcid Hsel
    |event sub cid u1 u2 p1 p2 Hsub Hcid Hsel Hne H1 Hc1 H2 Hc2
    |session cpe msg (Hmode & Huid) Hcpe Hup
    |sub cid uid p cpe msg Hcid Hsel Hsole Hcpe Hup
    |sub cid uid p msg Hcid Hsel Hsole Hup].
  - unfold on_checkout_completed. fold (metadata_user_id session).
    rewrite Hmode, Huid, Hsid. simpl.
    apply String.eqb_neq in Hne. rewrite Hne. simpl.
    unfold_handler. by rewrite Hret.
  - unfold on_checkout_completed. fold (metadata_user_id session).
    rewrite Hmode, Huid, Hsid. simpl.
    apply String.eqb_neq in Hne. rewrite Hne. simpl.
    unfold_handler. by rewrite Hret, Hto.
  - unfold on_checkout_completed. fold (metadata_user_id session).
    rewrite Hmode, Huid, Hsid. simpl.
    apply String.eqb_neq in Hne. rewrite Hne. simpl.
    unfold_handler. by rewrite Hret, Hto, nullish_null, Hcpe.
  - destruct event; simplify_eq/=.
    + unfold on_subscription_updated. unfold_handler. by rewrite Hcid.
    + unfold on_subscription_deleted. unfold_handler. by rewrite Hcid.
  - unfold on_subscription_updated.
    unfold mbind at 1, Handler_bind at 1. rewrite Hcid. simpl.
    unfold mbind at 1, Handler_bind at 1.
    rewrite (select_profile_sole _ _ _ _ _ Hsel Hsole).
    cbv zeta. unfold mbind at 1, Handler_bind at 1.
    by rewrite nullish_null, Hcpe.
  - destruct event; simplify_eq/=.
    + unfold on_subscription_updated.
      unfold mbind at 1, Handler_bind at 1. rewrite Hcid. simpl.
      unfold mbind at 1, Handler_bind at 1.
      by rewrite (select_profile_fails _ _ _ Hsel).
    + unfold on_subscription_deleted.
      unfold mbind at 1, Handler_bind at 1. rewrite Hcid. simpl.
      unfold mbind at 1, Handler_bind at 1.
      by rewrite (select_profile_fails _ _ _ Hsel).
  - destruct event; simplify_eq/=.
    + unfold on_subscription_updated.
      unfold mbind at 1, Handler_bind at 1. rewrite Hcid. simpl.
      unfold mbind at 1, Handler_bind at 1.
      by rewrite (select_profile_two _ _ _ _ _ _ Hsel Hne H1 Hc1 H2 Hc2).
    + unfold on_subscription_deleted.
      unfold mbind at 1, Handler_bind at 1. rewrite Hcid. simpl.
      unfold mbind at 1, Handler_bind at 1.
      by rewrite (select_profile_two _ _ _ _ _ _ Hsel Hne H1 Hc1 H2 Hc2).
  - unfold on_checkout_completed. fold (metadata_user_id session).
    rewrite Hmode, Huid. simpl.
    destruct Hcpe as [Hnone|sid resp sub cpe Hsid Hne Hret Hto Hcpe].
    + rewrite Hnone. unfold upsertProfile. unfold_handler. by rewrite Hup.
    + rewrite Hsid. simpl. apply String.eqb_neq in Hne. rewrite Hne. simpl.
      unfold upsertProfile. unfold_handler.
      by rewrite Hret, Hto, nullish_null, Hcpe, Hup.
  - unfold on_subscription_updated.
    unfold mbind at 1, Handler_bind at 1. rewrite Hcid. simpl.
    unfold mbind at 1, Handler_bind at 1.
    rewrite (select_profile_sole _ _ _ _ _ Hsel Hsole).
    cbv zeta. unfold mbind at 1, Handler_bind at 1.
    rewrite nullish_null, Hcpe. unfold upsertProfile. unfold_handler.
    by rewrite Hup.
  - unfold on_subscription_deleted.
    unfold mbind at 1, Handler_bind at 1. rewrite Hcid. simpl.
    unfold mbind at 1, Handler_bind at 1.
    rewrite (select_profile_sole _ _ _ _ _ Hsel Hsole).
    unfold upsertProfile. unfold_handler. by rewrite Hup.
Qed.

(** And the [try] block throws only what one of the listed steps
    threw. *)
Lemma step_throws_complete (w : World) (event : Event) (err : Js.Error) :
  verified env req event →
  (POST_try env req w).1 = Throw err →
  step_throws env (profiles w) event err.
Proof.
  intros Hv. rewrite (POST_try_verified _ _ _ _ Hv).
  destruct event as [session|sub|sub|ty]; [| | |discriminate].
  - unfold on_checkout_completed. fold (metadata_user_id session).
    destruct (String.eqb_spec (mode session) "subscription") as [Hmode|Hmode];
      simpl; [|discriminate].
    destruct (Js.truthy (metadata_user_id session)) eqn:Huid; simpl; [|discriminate].
    assert (Hacted : acted_on session) by done.
    destruct (id_or_null (subscription session)) as [sid|] eqn:Hsid; simpl.
    + destruct (String.eqb_spec sid "") as [Hempty|Hne]; simpl.
      * unfold upsertProfile. unfold_handler.
        destruct (upsert_error env) as [msg|] eqn:Hup; simpl; [|discriminate].
        intros [= <-]. eapply checkout_upsert_fails; [done| |done].
        apply no_subscription. rewrite Hsid, Hempty. done.
      * unfold upsertProfile. unfold_handler.
        destruct (subscriptions_retrieve env sid) as [e|resp] eqn:Hret; simpl.
        { intros [= <-]. by eapply lookup_throws. }
        destruct (toStripeSubscription resp) as [e|sub] eqn:Hto; simpl.
        { intros [= <-]. by eapply lookup_answer_unreadable. }
        rewrite nullish_null.
        destruct (unixToIso (sub_current_period_end sub)) as [e|cpe] eqn:Hcpe; simpl.
        { intros [= <-]. by eapply lookup_period_end_invalid. }
        destruct (upsert_error env) as [msg|] eqn:Hup; simpl; [|discriminate].
        intros [= <-]. eapply checkout_upsert_fails; [done| |done].
        by eapply looked_up.
    + unfold upsertProfile. unfold_handler.
      destruct (upsert_error env) as [msg|] eqn:Hup; simpl; [|discriminate].
      intros [= <-]. eapply checkout_upsert_fails; [done| |done].
      apply no_subscription. by rewrite Hsid.
  - unfold on_subscription_updated.
    unfold mbind at 1, Handler_bind at 1.
    destruct (id_of (sub_customer sub)) as [e|cid] eqn:Hcid; simpl.
    { intros [= <-]. by eapply customer_unreadable. }
    unfold mbind at 1, Handler_bind at 1.
    destruct (select_error env) as [msg|] eqn:Hsel.
    { rewrite (select_profile_fails _ _ _ Hsel). simpl.
      intros [= <-]. by eapply query_fails. }
    destruct (profiles_eq_customer_cases cid (profiles w))
      as [Hnone|[(uid & p & Hsole)|(u1 & u2 & p1 & p2 & Hne & H1 & Hc1 & H2 & Hc2)]].
    + rewrite (select_profile_none _ _ _ Hsel Hnone). simpl. discriminate.
    + rewrite (select_profile_sole _ _ _ _ _ Hsel Hsole).
      cbv zeta. unfold mbind at 1, Handler_bind at 1. rewrite nullish_null.
      destruct (unixToIso (sub_current_period_end sub)) as [e|cpe] eqn:Hcpe; simpl.
      { intros [= <-]. by eapply period_end_invalid. }
      unfold upsertProfile. unfold_handler.
      destruct (upsert_error env) as [msg|] eqn:Hup; simpl; [|discriminate].
      intros [= <-]. by eapply updated_upsert_fails.
    + rewrite (select_profile_two _ _ _ _ _ _ Hsel Hne H1 Hc1 H2 Hc2). simpl.
      intros [= <-]. by eapply query_finds_two.
  - unfold on_subscription_deleted.
    unfold mbind at 1, Handler_bind at 1.
    destruct (id_of (sub_customer sub)) as [e|cid] eqn:Hcid; simpl.
    { intros [= <-]. by eapply customer_unreadable. }
    unfold mbind at 1, Handler_bind at 1.
    destruct (select_error env) as [msg|] eqn:Hsel.
    { rewrite (select_profile_fails _ _ _ Hsel). simpl.
      intros [= <-]. by eapply query_fails. }
    destruct (profiles_eq_customer_cases cid (profiles w))
      as [Hnone|[(uid & p & Hsole)|(u1 & u2 & p1 & p2 & Hne & H1 & Hc1 & H2 & Hc2)]].
    + rewrite (select_profile_none _ _ _ Hsel Hnone). simpl. discriminate.
    + rewrite (select_profile_sole _ _ _ _ _ Hsel Hsole).
      unfold upsertProfile. unfold_handler.
      destruct (upsert_error env) as [msg|] eqn:Hup; simpl; [|discriminate].
      intros [= <-]. by eapply deleted_upsert_fails.
    + rewrite (select_profile_two _ _ _ _ _ _ Hsel Hne H1 Hc1 H2 Hc2). simpl.
      intros [= <-]. by eapply query_finds_two.
Qed.

(** C8, as the code has it. A verified request is acknowledged with
    200 unless one of these steps of the handler throws: the provider's
    subscription lookup of a checkout (the call, reading its answer, or
    a period end that is no valid time), reading the event (a
    subscription event without customer, or with a period end that is
    no valid time), the profile query (the store fails, or finds two
    profiles of the customer), or the upsert.  When one does, the
    catch-all answers 400 with the message of what was thrown and both
    tables are as they were; when none does, the answer is a 200
    acknowledgment.  Events that are not actionable are acknowledged
    without a change to either table (for a customer without profile:
    when the profile query itself is answered). *)
Theorem verified_request_acknowledged_unless_a_step_throws
    (w : World) (event : Event) :
  verified env req event →
  (∀ err,
     step_throws env (profiles w) event err →
     run (POST env req) w =
       json (BError (default "Webhook error" (Js.message err))) 400 ∧
     profiles (exec (POST env req) w) = profiles w ∧
     proposals (exec (POST env req) w) = proposals w)
  ∧
  ((∀ err, ¬ step_throws env (profiles w) event err) →
   ∃ note, run (POST env req) w = json_ok (BOk note))
  ∧
  (not_actionable event (profiles w) → select_error env = None →
   (∃ note, run (POST env req) w = json_ok (BOk note)) ∧
   profiles (exec (POST env req) w) = profiles w ∧
   proposals (exec (POST env req) w) = proposals w).
Proof.
  intros Hv. split; [|split].
  - intros err Hs. pose proof (step_throws_sound w event err Hv Hs) as Hthrow.
    assert (Hrun : run (POST env req) w =
                   json (BError (default "Webhook error" (Js.message err))) 400).
    { unfold POST. rewrite try_catch_response. by rewrite Hthrow. }
    split; [done|].
    destruct (POST_footprint env req w) as (Hprop & [Hprof|(_ & Hack & _)] & _);
      [done|]. rewrite Hack in Hrun. discriminate Hrun.
  - intros Hnone. unfold POST. rewrite try_catch_response.
    destruct (POST_try env req w) as [[r|r|e] w'] eqn:Htry; simpl.
    + eapply POST_try_returns_ack; eauto.
    + eapply POST_try_returns_ack; eauto.
    + destruct (Hnone e). apply step_throws_complete; [done|]. by rewrite Htry.
  - intros Hna Hsel. unfold POST, try_catch, run, exec.
    rewrite (POST_try_verified _ _ _ _ Hv).
    destruct event as [session|sub|sub|ty]; simpl in Hna |- *.
    + unfold on_checkout_completed. fold (metadata_user_id session).
      destruct Hna as [Hmode|Huid].
      * apply String.eqb_neq in Hmode. rewrite Hmode. simpl. eauto.
      * rewrite Huid. destruct (mode session =? "subscription")%string; simpl; eauto.
    + destruct Hna as (cid & Hcid & Hnone).
      rewrite (on_subscription_updated_none _ _ _ _ Hsel Hcid Hnone). simpl. eauto.
    + destruct Hna as (cid & Hcid & Hnone).
      rewrite (on_subscription_deleted_none _ _ _ _ Hsel Hcid Hnone). simpl. eauto.
    + eauto.
Qed.
End WebhookAck.


(** * Further properties of the generation route *)

Lemma substring_0_length (s : string) : String.substring 0 (String.length s) s = s.
Proof. induction s as [|c s IH]; simpl; [done|]. by rewrite IH. Qed.

Lemma prefix_splits (p h : string) :
  String.prefix p h = true →
  h = p ++ String.substring (String.length p) (String.length h - String.length p) h.
Proof.
  revert h. induction p as [|a p IH]; intros h H.
  - simpl. by rewrite Nat.sub_0_r, substring_0_length.
  - destruct h as [|b h]; [done|].
    change (String.prefix (String a p) (String b h))
      with (if Ascii.ascii_dec a b then String.prefix p h else false) in H.
    destruct (Ascii.ascii_dec a b) as [<-|]; [|done].
    transitivity (String a (p ++ String.substring (String.length p)
                    (String.length h - String.length p) h)); [|done].
    f_equal. by apply IH.
Qed.

Lemma prefix_app (p t : string) : String.prefix p (p ++ t) = true.
Proof.
  induction p as [|a p IH]; [by destruct t|].
  change (String.prefix (String a p) (String a p ++ t))
    with (if Ascii.ascii_dec a a then String.prefix p (p ++ t) else false).
  by destruct (Ascii.ascii_dec a a).
Qed.

Lemma bearer_token_aux (header token : string) :
  header = "Bearer " ++ token → Generate.bearer_token header = Some token.
Proof.
  intros ->. unfold Generate.bearer_token. rewrite prefix_app. simpl.
  by rewrite ?Nat.sub_0_r, substring_0_length.
Qed.

(** X8. The bearer token the server reads is exactly what follows
    the seven characters [Bearer ] of the header, and it reads none from
    any other header. *)
Theorem bearer_token_reads_what_follows_Bearer (header token : string) :
  Generate.bearer_token header = Some token ↔ header = "Bearer " ++ token.
Proof.
  unfold Generate.bearer_token. split.
  - destruct (String.prefix "Bearer " header) eqn:Hp; [|done].
    intros [= <-]. by apply prefix_splits in Hp.
  - intros ->. rewrite prefix_app. simpl.
    by rewrite ?Nat.sub_0_r, substring_0_length.
Qed.

Section GenerateMore.
Import Generate.
Variable env : Env.
Variable req : Request.

(** X9. A request without a usable bearer token is answered 401
    before anything outside is called; a request whose token the
    identity provider does not resolve to a user is answered 401 after
    that one call.  Neither touches the store. *)
Theorem unauthenticated_request_is_answered_401 (w : World) :
  (Js.truthy (bearer_token (authHeader req)) = false →
   POST env req w = (json (BError "Unauthorized") 401, w))
  ∧
  (∀ token,
     bearer_token (authHeader req) = Some token → token ≠ "" →
     Js.truthy (NEXT_PUBLIC_SUPABASE_URL env) = true →
     Js.truthy (NEXT_PUBLIC_SUPABASE_ANON_KEY env) = true →
     auth_error (auth_getUser env token) ≠ None ∨
       data_user (auth_getUser env token) = None →
     POST env req w = (json (BError "Unauthorized") 401, after [AuthGetUser token] w)).
Proof.
  unfold authHeader. split.
  - intros Htok. unfold POST, catch_all, POST_try, must_be_logged_in.
    unfold_handler. by rewrite Htok.
  - intros token Htok Hne Hurl Hanon Hrej. apply String.eqb_neq in Hne.
    unfold POST, catch_all, POST_try, must_be_logged_in. unfold_handler.
    rewrite Htok. simpl. rewrite Hne, Hurl, Hanon. simpl.
    destruct (auth_error (auth_getUser env token)) eqn:He;
      destruct (data_user (auth_getUser env token)) eqn:Hu; try done.
    by destruct Hrej.
Qed.

(** X10. When the store cannot tell the plan, or cannot count the
    month's proposals of a free user, the request is answered 500 and
    goes no further: the text provider is not called and nothing is
    inserted. *)
Theorem store_failure_before_generation_fails_closed
    (w : World) (token : string) (user : User) :
  authenticated env req token user →
  let uid := user_id_of user in
  (profiles_error env = true →
   POST env req w =
     (json (BError "Could not load user plan") 500,
      after [AuthGetUser token; ProfilesSelectPlan uid] w))
  ∧
  (profiles_error env = false → plan_of uid w = free → count_error env = true →
   POST env req w =
     (json (BError "Could not check usage") 500,
      after [AuthGetUser token; ProfilesSelectPlan uid;
             ProposalsCount uid (startOfMonth (new_Date env))] w)).
Proof.
  intros Hauth uid. split.
  - intros Hprof. unfold POST, POST_try, catch_all, try_catch.
    unfold mbind at 1, Handler_bind at 1.
    rewrite (must_be_logged_in_authenticated _ _ _ _ _ Hauth).
    unfold load_plan. rewrite Hprof. unfold_handler. simpl.
    unfold after. simpl. by rewrite <- app_assoc.
  - intros Hprof Hplan Hcount. unfold POST, POST_try, catch_all, try_catch.
    unfold mbind at 1, Handler_bind at 1.
    rewrite (must_be_logged_in_authenticated _ _ _ _ _ Hauth).
    unfold load_plan, enforce_free_limit. rewrite Hprof, Hcount.
    unfold_handler. simpl. unfold plan_of in Hplan. fold uid. rewrite Hplan. simpl.
    unfold after. simpl. by rewrite <- !app_assoc.
Qed.

(** Step 1 either resolves the caller or answers without touching the
    store. *)
Lemma must_be_logged_in_cases (w : World) :
  (∃ token user,
     authenticated env req token user ∧
     must_be_logged_in env req w = (Next user, after [AuthGetUser token] w))
  ∨ (∃ r w',
       must_be_logged_in env req w = (Return r, w') ∧ status r ≠ 200%nat ∧
       profiles w' = profiles w ∧ proposals w' = proposals w).
Proof.
  unfold must_be_logged_in. fold (authHeader req).
  destruct (bearer_token (authHeader req)) as [token|] eqn:Htok; simpl;
    [|right; by eexists _, _].
  destruct (String.eqb token "") eqn:Hne; simpl; [right; by eexists _, _|].
  apply String.eqb_neq in Hne.
  destruct (Js.truthy (NEXT_PUBLIC_SUPABASE_URL env)) eqn:Hurl; simpl;
    [|right; by eexists _, _].
  destruct (Js.truthy (NEXT_PUBLIC_SUPABASE_ANON_KEY env)) eqn:Hanon; simpl;
    [|right; by eexists _, _].
  unfold_handler. simpl.
  destruct (auth_getUser env token) as [[user|] [e|]] eqn:Hget; simpl;
    try (right; by eexists _, _).
  left. exists token, user. split; [|done]. by repeat split.
Qed.

(** Steps 2 to 6 for a resolved caller: the profiles are never written,
    and a row is appended exactly when the steps return the generated
    proposal. *)
Lemma steps_after_identity_outcome (user : User) (w : World) o w' :
  (plan ← load_plan env user;
   enforce_free_limit env user plan;;
   generate_and_save env req user) w = (o, w') →
  profiles w' = profiles w ∧
  ((∃ b text,
      req_json req = inr (Some b) ∧
      o = Return (json_ok (BGenerated text (saved_row env user b text))) ∧
      proposals w' = (proposals w ++ [saved_row env user b text])%list)
   ∨ (proposals w' = proposals w ∧
      ∀ r, o = Next r ∨ o = Return r → status r ≠ 200%nat)).
Proof.
  unfold generate_and_save, load_plan, enforce_free_limit, parse_body, openai,
    save, FREE_LIMIT.
  unfold_handler. intros H.
  repeat (case_match; simplify_eq); cbn [profiles proposals trace] in *;
    (split; [done|]);
    first [ right; split; [done|]; by intros r [?|?]; simplify_eq
          | left; eexists _, _; by split_and! ].
Qed.

(** Every run of [POST]: the profiles are never written; a row is
    appended exactly when the answer is 200, and it is the row of the
    authenticated caller that the answer carries. *)
Lemma POST_outcome (w : World) :
  profiles (exec (POST env req) w) = profiles w ∧
  ((∃ token user b text,
      authenticated env req token user ∧
      req_json req = inr (Some b) ∧
      run (POST env req) w = json_ok (BGenerated text (saved_row env user b text)) ∧
      proposals (exec (POST env req) w)
        = (proposals w ++ [saved_row env user b text])%list)
   ∨ (status (run (POST env req) w) ≠ 200%nat ∧
      proposals (exec (POST env req) w) = proposals w)).
Proof.
  unfold run, exec. destruct (POST env req w) as [r w'] eqn:HP. simpl.
  unfold POST, catch_all, try_catch, POST_try in HP.
  unfold mbind at 1, Handler_bind at 1 in HP.
  destruct (must_be_logged_in_cases w)
    as [(token & user & Hauth & Hid)|(r0 & w0 & Hid & Hst & Hp & Hq)];
    rewrite Hid in HP; [|simplify_eq; by split; [|right]].
  match type of HP with
  | context [let (_, _) := ?h ?w0 in _] =>
      destruct (h w0) as [o w1] eqn:Hrun
  end.
  apply steps_after_identity_outcome in Hrun as (Hp & Hq). simpl in Hp, Hq.
  destruct Hq as [(b & text & Hjson & -> & Hq)|(Hq & Hst)]; simplify_eq/=.
  - split; [done|]. left. by exists token, user, b, text.
  - destruct o as [r0|r0|e]; simplify_eq/=; (split; [done|]); right; split;
      try done; apply Hst; eauto.
Qed.

(** X11. Whatever the request, the server clock, the providers and
    the store do, the generation route never writes a profile, and it
    inserts a proposal exactly when it answers 200: then the one new row
    is the [saved] row of the answer, it belongs to the authenticated
    caller, and it holds the trimmed client name, the notes as sent and
    the text of the answer. *)
Theorem generation_inserts_exactly_when_it_answers_200 (w : World) :
  profiles (exec (POST env req) w) = profiles w ∧
  ((∃ token user b text,
      authenticated env req token user ∧
      req_json req = inr (Some b) ∧
      run (POST env req) w = json_ok (BGenerated text (saved_row env user b text)) ∧
      proposals (exec (POST env req) w)
        = (proposals w ++ [saved_row env user b text])%list)
   ∨ (status (run (POST env req) w) ≠ 200%nat ∧
      proposals (exec (POST env req) w) = proposals w)).
Proof. apply POST_outcome. Qed.

(** Steps 4 and 5 for a complete body on a server with an API key,
    up to the call of the provider. *)
Lemma generate_and_save_calls_provider (w : World) user (b : JsonBody) cn ns :
  req_json req = inr (Some b) →
  clientName b = Some cn → cn ≠ "" → body_notes b = Some ns → ns ≠ "" →
  Js.truthy (OPENAI_API_KEY env) = true →
  generate_and_save env req user w =
    match chat_completions_create env (prompt_of cn ns) with
    | inl err => (Throw err, after [OpenAIChatCompletionsCreate (prompt_of cn ns)] w)
    | inr content =>
        save env user cn ns (default "" content)
          (after [OpenAIChatCompletionsCreate (prompt_of cn ns)] w)
    end.
Proof.
  intros Hjson Hcn Hcne Hns Hnse Hkey.
  apply String.eqb_neq in Hcne, Hnse.
  unfold generate_and_save, parse_body, openai. unfold_handler.
  rewrite Hjson, Hcn, Hns. simpl. rewrite Hcne, Hnse, Hkey. simpl.
  by destruct (chat_completions_create env (prompt_of cn ns)).
Qed.

(** X12. A request that is let through, with both fields present,
    on a server with an API key, whose provider answers and whose insert
    succeeds, is answered 200 with the text and the saved row; the row
    is appended to the proposals, and the provider call and the insert
    are the only further outside calls. *)
Theorem generation_succeeds_and_saves
    (w w' : World) (token : string) (user : User) (b : JsonBody)
    (cn ns : string) (content : option string) :
  let_through env req w token user w' →
  req_json req = inr (Some b) →
  clientName b = Some cn → cn ≠ "" → body_notes b = Some ns → ns ≠ "" →
  Js.truthy (OPENAI_API_KEY env) = true →
  chat_completions_create env (prompt_of cn ns) = inr content →
  insert_error env = None →
  let text := default "" content in
  let row := saved_row env user b text in
  client_name row = Js.trim cn ∧ notes row = ns ∧
  POST env req w =
    (json_ok (BGenerated text row),
     {| profiles := profiles w; proposals := proposals w ++ [row];
        trace := trace w' ++ [OpenAIChatCompletionsCreate (prompt_of cn ns);
                              ProposalsInsert row] |}).
Proof.
  intros Hlet Hjson Hcn Hcne Hns Hnse Hkey Hai Hins text row.
  unfold row, saved_row. rewrite Hcn, Hns. simpl. split; [done|]. split; [done|].
  rewrite (POST_let_through _ _ _ _ _ _ Hlet). unfold catch_all, try_catch.
  rewrite (generate_and_save_calls_provider _ _ _ _ _ Hjson Hcn Hcne Hns Hnse Hkey).
  rewrite Hai. unfold save. rewrite Hins. unfold_handler. simpl.
  destruct Hlet as (_ & _ & [(_ & ->)|(_ & _ & _ & ->)]); simpl;
    by rewrite <- !app_assoc.
Qed.

(** X13. Failures after the quota check leave no row behind.  When
    the provider call throws, the answer is 500 with the provider's
    message and no insert is attempted.  When the insert fails after a
    successful generation, the answer is 500 [Save failed: ...]; the
    provider has been called and its text is not part of the answer. *)
Theorem failure_after_the_quota_check_leaves_no_row
    (w w' : World) (token : string) (user : User) (b : JsonBody) (cn ns : string) :
  let_through env req w token user w' →
  req_json req = inr (Some b) →
  clientName b = Some cn → cn ≠ "" → body_notes b = Some ns → ns ≠ "" →
  Js.truthy (OPENAI_API_KEY env) = true →
  let prompt := prompt_of cn ns in
  (∀ err,
     chat_completions_create env prompt = inl err →
     POST env req w =
       (json (BError (default ""
                (Js.or_else (Js.response_data_error_message err)
                   (Js.or_else (Js.message err) (Some "Unexpected error"))))) 500,
        {| profiles := profiles w; proposals := proposals w;
           trace := trace w' ++ [OpenAIChatCompletionsCreate prompt;
                                 ConsoleError "API /generate ERROR:" err] |}))
  ∧
  (∀ content msg,
     chat_completions_create env prompt = inr content →
     insert_error env = Some msg →
     POST env req w =
       (json (BError ("Save failed: " ++ msg)) 500,
        {| profiles := profiles w; proposals := proposals w;
           trace := trace w' ++
             [OpenAIChatCompletionsCreate prompt;
              ProposalsInsert (saved_row env user b (default "" content));
              ConsoleError "Save failed:" (Js.new_Error msg)] |})).
Proof.
  intros Hlet Hjson Hcn Hcne Hns Hnse Hkey prompt.
  rewrite (POST_let_through _ _ _ _ _ _ Hlet). unfold catch_all, try_catch.
  rewrite (generate_and_save_calls_provider _ _ _ _ _ Hjson Hcn Hcne Hns Hnse Hkey).
  fold prompt. split.
  - intros err ->. simpl.
    destruct Hlet as (_ & _ & [(_ & ->)|(_ & _ & _ & ->)]); simpl;
      by rewrite <- !app_assoc.
  - intros content msg -> Hins. unfold save, saved_row. rewrite Hins, Hcn, Hns.
    unfold_handler. simpl.
    destruct Hlet as (_ & _ & [(_ & ->)|(_ & _ & _ & ->)]); simpl;
      by rewrite <- !app_assoc.
Qed.

(** A request is authenticated as one user only. *)
Lemma authenticated_unique token token' (user user' : User) :
  authenticated env req token user → authenticated env req token' user' →
  token' = token ∧ user' = user.
Proof.
  intros (Ht & _ & _ & _ & Hg) (Ht' & _ & _ & _ & Hg').
  rewrite Ht in Ht'. simplify_eq. rewrite Hg in Hg'. by simplify_eq.
Qed.
End GenerateMore.

(** Appending a row raises the count of its owner by one if the row is
    not older than [since], and no other count. *)
Lemma count_since_snoc uid since (t : list ProposalRow) row :
  Generate.count_since uid since (t ++ [row])
  = (Generate.count_since uid since t
     + if bool_decide (user_id row = uid ∧ Generate.Date_leb since (created_at row))
       then 1 else 0)%nat.
Proof.
  unfold Generate.count_since. rewrite filter_app, length_app. f_equal.
  rewrite filter_cons, filter_nil.
  case_bool_decide as Hd; destruct (decide _) as [Hd'|Hd']; try done.
Qed.

Lemma successful_generation_counts_once_aux
    (env : Generate.Env) (req : Generate.Request) (w : World)
    (token : string) (user : Generate.User) (uid : string) (since : Date) :
  Generate.authenticated env req token user →
  status (run (Generate.POST env req) w) = 200%nat →
  Generate.count_since uid since (proposals (exec (Generate.POST env req) w))
  = (Generate.count_since uid since (proposals w)
     + if bool_decide (Generate.user_id_of user = uid ∧
                       Generate.Date_leb since (Generate.created_at_default env))
       then 1 else 0)%nat.
Proof.
  intros Hauth H200.
  destruct (POST_outcome env req w)
    as (_ & [(token' & user' & b & text & Hauth' & _ & _ & ->)|(Hst & _)]); [|done].
  destruct (authenticated_unique env req _ _ _ _ Hauth Hauth') as [-> ->].
  by rewrite count_since_snoc.
Qed.

(** X14. A generation that is answered 200 raises by exactly one
    the count of the caller's proposals since any instant up to the
    [created_at] the store gives the new row, and leaves the count of
    every other user and of any window that starts later as it was. *)
Theorem successful_generation_counts_once_for_its_owner
    (env : Generate.Env) (req : Generate.Request) (w : World)
    (token : string) (user : Generate.User) (uid : string) (since : Date) :
  Generate.authenticated env req token user →
  status (run (Generate.POST env req) w) = 200%nat →
  Generate.count_since uid since (proposals (exec (Generate.POST env req) w))
  = (Generate.count_since uid since (proposals w)
     + if bool_decide (Generate.user_id_of user = uid ∧
                       Generate.Date_leb since (Generate.created_at_default env))
       then 1 else 0)%nat.
Proof.
  apply successful_generation_counts_once_aux.
Qed.

(** X15. The fourth attempt: when a free user with two proposals in
    the month has a third generation answered 200, whose row the store
    dates in that month, the next request of that user in the month is
    answered 402 with limit 3 and used 3, and the provider is not
    called for it. *)
Theorem fourth_attempt_of_the_month_is_rejected
    (env1 env2 : Generate.Env) (req1 req2 : Generate.Request) (w : World)
    (token1 token2 : string) (user : Generate.User) :
  let uid := Generate.user_id_of user in
  let since := Generate.startOfMonth (Generate.new_Date env2) in
  Generate.authenticated env1 req1 token1 user →
  status (run (Generate.POST env1 req1) w) = 200%nat →
  Generate.authenticated env2 req2 token2 user →
  Generate.profiles_error env2 = false → Generate.count_error env2 = false →
  Generate.plan_of uid w = free →
  Generate.Date_leb since (Generate.created_at_default env1) = true →
  Generate.used_this_month env2 uid w = 2%nat →
  Generate.POST env2 req2 (exec (Generate.POST env1 req1) w) =
    (json (BLimit Generate.limit_message "FREE_LIMIT_REACHED" 3 3) 402,
     Generate.after [AuthGetUser token2; ProfilesSelectPlan uid;
                     ProposalsCount uid since]
       (exec (Generate.POST env1 req1) w)).
Proof.
  intros uid since Hauth1 H200 Hauth2 Hprof Hcount Hplan Hmonth Hused.
  assert (Hplan1 : Generate.plan_of uid (exec (Generate.POST env1 req1) w) = free).
  { unfold Generate.plan_of in *.
    by destruct (POST_outcome env1 req1 w) as [-> _]. }
  assert (Hused1 : Generate.used_this_month env2 uid
                     (exec (Generate.POST env1 req1) w) = 3%nat).
  { unfold Generate.used_this_month in *. fold since in Hused |- *.
    rewrite (successful_generation_counts_once_aux env1 req1 w token1 user uid since
               Hauth1 H200).
    rewrite Hused, bool_decide_eq_true_2; [done|]. split; [done|].
    by apply Is_true_true. }
  rewrite (POST_free env2 req2 _ token2 user Hauth2 Hprof Hplan1 Hcount).
  cbv zeta. fold uid. rewrite Hused1. done.
Qed.

(** * The plan the webhook writes and the quota the generation route
      enforces *)

(** X16. Upgrade lifts the quota: once a verified subscription-mode
    checkout of a user has been acknowledged, a generation request of
    that user goes from the plan lookup straight to generation; no count
    query is made, however many proposals the month already has. *)
Theorem upgrade_lifts_the_quota
    (wenv : Webhook.Env) (wreq : Webhook.Request)
    (genv : Generate.Env) (greq : Generate.Request) (w : World)
    (session : Webhook.CheckoutSession) (token : string) (user : Generate.User) :
  let uid := Generate.user_id_of user in
  Webhook.verified wenv wreq (Webhook.checkout_session_completed session) →
  Webhook.mode session = "subscription" →
  Webhook.metadata_user_id session = Some uid → uid ≠ "" →
  status (run (Webhook.POST wenv wreq) w) = 200%nat →
  Generate.authenticated genv greq token user →
  Generate.profiles_error genv = false →
  Generate.POST genv greq (exec (Webhook.POST wenv wreq) w) =
    Generate.catch_all (Generate.generate_and_save genv greq user)
      (Generate.after [AuthGetUser token; ProfilesSelectPlan uid]
         (exec (Webhook.POST wenv wreq) w)).
Proof.
  intros uid Hv Hmode Huid Hne H200 Hauth Hprof.
  apply POST_pro; [done|done|].
  revert H200. unfold Webhook.POST, try_catch, run, exec, Generate.plan_of.
  rewrite (POST_try_verified _ _ _ _ Hv).
  pose proof (on_checkout_completed_outcome wenv w session uid Hmode Huid Hne) as H1.
  simpl in H1.
  destruct (Webhook.on_checkout_completed wenv session w) as [o1 w1].
  destruct H1 as [(cpe & Ho1 & Hp1 & _)|(e & Ho1 & _)]; simpl in *; subst o1;
    [intros _|simpl; discriminate].
  simpl. fold uid. by rewrite Hp1, lookup_insert_eq.
Qed.

(** X17. Cancellation restores the quota: after a verified
    subscription-deleted event has been applied to the one profile of
    its customer, a generation request of that user is counted again,
    and with three or more proposals in the month it is answered 402. *)
Theorem cancellation_restores_the_quota
    (wenv : Webhook.Env) (wreq : Webhook.Request)
    (genv : Generate.Env) (greq : Generate.Request) (w : World)
    (sub : Webhook.Subscription) (cid : string) (p : ProfileRow)
    (token : string) (user : Generate.User) :
  let uid := Generate.user_id_of user in
  let since := Generate.startOfMonth (Generate.new_Date genv) in
  let used := Generate.count_since uid since (proposals w) in
  Webhook.verified wenv wreq (Webhook.customer_subscription_deleted sub) →
  Webhook.id_of (Webhook.sub_customer sub) = inr cid →
  Webhook.sole_profile_of_customer cid uid p (profiles w) →
  Webhook.store_answers wenv →
  Generate.authenticated genv greq token user →
  Generate.profiles_error genv = false → Generate.count_error genv = false →
  (3 ≤ used)%nat →
  Generate.POST genv greq (exec (Webhook.POST wenv wreq) w) =
    (json (BLimit Generate.limit_message "FREE_LIMIT_REACHED" 3 used) 402,
     Generate.after [AuthGetUser token; ProfilesSelectPlan uid;
                     ProposalsCount uid since]
       (exec (Webhook.POST wenv wreq) w)).
Proof.
  intros uid since used Hv Hcid Hsole Hst Hauth Hprof Hcount Hused.
  pose proof (POST_subscription_deleted_sole wenv wreq w sub cid uid p
                Hv Hst Hcid Hsole) as HW. simpl in HW.
  assert (Hplan : Generate.plan_of uid (exec (Webhook.POST wenv wreq) w) = free).
  { unfold exec, Generate.plan_of. rewrite HW. simpl. fold uid.
    by rewrite lookup_insert_eq. }
  assert (Hsame : Generate.used_this_month genv uid (exec (Webhook.POST wenv wreq) w)
                  = used).
  { unfold exec, Generate.used_this_month. by rewrite HW. }
  rewrite (POST_free genv greq _ token user Hauth Hprof Hplan Hcount).
  cbv zeta. fold uid. rewrite Hsame. fold since.
  by destruct (Nat.leb_spec 3 used); [|lia].
Qed.

(** * Further properties of the checkout-session-create route *)

(** X18. The route never touches the store, and every checkout
    session it asks Stripe to create is a subscription for the
    configured price that carries the non-empty [email] and [userId] of
    the request body as customer email and as [metadata.user_id]; an
    answer of 200 carries the URL of such a session. *)
Theorem checkout_session_carries_the_caller
    (env : Checkout.Env) (req : Checkout.Request) (w : World) :
  profiles (exec (Checkout.POST env req) w) = profiles w ∧
  proposals (exec (Checkout.POST env req) w) = proposals w ∧
  ∃ t : list Effect,
    trace (exec (Checkout.POST env req) w) = (trace w ++ t)%list ∧
    (∀ params,
       StripeCheckoutSessionsCreate params ∈ t →
       ∃ b,
         Checkout.req_json req = inr (Some b) ∧
         Checkout.body_email b = Some (sp_customer_email params) ∧
         sp_customer_email params ≠ "" ∧
         Checkout.body_userId b = Some (sp_metadata_user_id params) ∧
         sp_metadata_user_id params ≠ "" ∧
         sp_mode params = "subscription" ∧
         Checkout.NEXT_PUBLIC_STRIPE_PRICE_ID env = Some (sp_price params) ∧
         sp_quantity params = 1) ∧
    (status (run (Checkout.POST env req) w) = 200%nat →
     ∃ params url,
       StripeCheckoutSessionsCreate params ∈ t ∧
       Checkout.sessions_create env params = inr url ∧
       run (Checkout.POST env req) w = json_ok (BUrl url)).
Proof.
  unfold Checkout.POST, Checkout.POST_try. unfold_handler.
  repeat (case_match; simplify_eq); cbn [profiles proposals trace]; simpl;
    (split; [done|]); (split; [done|]); rewrite <- ?app_assoc; simpl;
    eexists; (split; [first [reflexivity | symmetry; apply app_nil_r]|]);
    (split; [|intros ?; simplify_eq/=]).
  all: try (intros params Hin;
            repeat (apply elem_of_cons in Hin as [?|Hin]; simplify_eq);
            try by apply elem_of_nil in Hin).
  all: try (eexists _, _; split; [apply list_elem_of_here|]; by split).
  all: repeat match goal with
       | H : negb (Js.truthy ?x) = false |- _ =>
           destruct x as [[|? ?]|] eqn:?; simplify_eq/=
       end.
  all: eexists; split_and!; simpl; try done.
Qed.

(** * The billing-portal-create route *)

Ltac unfold_route :=
  unfold Portal.POST, Portal.POST_try, Portal.await, Portal.respond, Portal.throw,
    Portal.call, Portal.get_state in *;
  unfold mbind, Portal.Route_bind, mret, Portal.Route_ret in *.

Section PortalFacts.
Import Portal.
Variable env : Env.
Variable req : Request.

(** X19. A body that cannot be parsed, is [null], or has no
    non-empty [userId] is answered 400 [Missing userId] with no call
    made; a user without profile, or whose profile has no customer
    reference yet, is answered 400 after the one query, and Stripe is
    not called. *)
Theorem portal_needs_a_user_with_a_customer (st : State) :
  (Js.truthy (userId_of req) = false →
   POST env req st = (json (BError "Missing userId") 400, st))
  ∧
  (∀ uid,
     userId_of req = Some uid → uid ≠ "" → select_error env = None →
     Js.truthy (table st !! uid ≫= stripe_customer_id) = false →
     POST env req st =
       (json (BError "No Stripe customer found for this user yet.") 400,
        {| table := table st; calls := calls st ++ [ProfilesSelectCustomerId uid] |})).
Proof.
  unfold userId_of. split.
  - intros Hu. unfold_route.
    destruct (req_json req) as [e|body]; simpl in *; [done|].
    by rewrite Hu.
  - intros uid Hu Hne Hsel Hc. apply String.eqb_neq in Hne. unfold_route.
    destruct (req_json req) as [e|body]; simpl in *; [done|].
    rewrite Hu. simpl. rewrite Hne, Hsel. simpl. rewrite Hc. by simpl.
Qed.

(** X20. The route never changes the table, and the only customer it
    ever asks Stripe to open the portal for is the non-empty customer
    reference stored on the profile of the [userId] of the request, with
    the site URL as return address; an answer of 200 carries the URL
    Stripe gave for that customer. *)
Theorem portal_opens_only_the_stored_customer (st : State) :
  table (POST env req st).2 = table st ∧
  ∃ t : list Call,
    calls (POST env req st).2 = (calls st ++ t)%list ∧
    (∀ customer return_url,
       BillingPortalSessionsCreate customer return_url ∈ t →
       ∃ uid p,
         userId_of req = Some uid ∧ table st !! uid = Some p ∧
         stripe_customer_id p = Some customer ∧ customer ≠ "" ∧
         return_url = siteUrl env) ∧
    (status (POST env req st).1 = 200%nat →
     ∃ customer url,
       BillingPortalSessionsCreate customer (siteUrl env) ∈ t ∧
       billingPortal_sessions_create env customer (siteUrl env) = inr url ∧
       (POST env req st).1 = json_ok (BUrl url)).
Proof.
  unfold userId_of, siteUrl. unfold_route.
  destruct (req_json req) as [e|body] eqn:Hjson; simpl.
  { split; [reflexivity|]. exists []. rewrite app_nil_r. split; [done|].
    split; [by intros ?? ?%elem_of_nil|done]. }
  destruct body as [[[uid|]]|]; simpl;
    [|split; [reflexivity|]; exists []; rewrite app_nil_r; split; [done|];
      split; [by intros ?? ?%elem_of_nil|done]..].
  destruct (String.eqb uid "") eqn:Hne; simpl;
    [split; [reflexivity|]; exists []; rewrite app_nil_r; split; [done|];
      split; [by intros ?? ?%elem_of_nil|done]|].
  destruct (select_error env) as [msg|]; simpl.
  { split; [reflexivity|]. eexists. rewrite <- app_assoc. split; [done|].
    split; [|done]. intros ?? Hin.
    repeat (apply elem_of_cons in Hin as [?|Hin]; simplify_eq).
    by apply elem_of_nil in Hin. }
  destruct (table st !! uid) as [p|] eqn:Hp; simpl;
    [|split; [reflexivity|]; eexists; split; [done|]; split; [|done]; intros ?? Hin;
      repeat (apply elem_of_cons in Hin as [?|Hin]; simplify_eq);
      by apply elem_of_nil in Hin].
  destruct (stripe_customer_id p) as [cid|] eqn:Hc; simpl;
    [|split; [reflexivity|]; eexists; split; [done|]; split; [|done]; intros ?? Hin;
      repeat (apply elem_of_cons in Hin as [?|Hin]; simplify_eq);
      by apply elem_of_nil in Hin].
  destruct (String.eqb cid "") eqn:Hcne; simpl;
    [split; [reflexivity|]; eexists; split; [done|]; split; [|done]; intros ?? Hin;
      repeat (apply elem_of_cons in Hin as [?|Hin]; simplify_eq);
      by apply elem_of_nil in Hin|].
  apply String.eqb_neq in Hcne.
  destruct (billingPortal_sessions_create env cid _) as [e|url] eqn:Hb; simpl;
    (split; [reflexivity|]); rewrite <- ?app_assoc; simpl; eexists; (split; [done|]);
    (split; [|intros ?; simplify_eq/=]).
  1,2: intros ?? Hin;
       repeat (apply elem_of_cons in Hin as [?|Hin]; simplify_eq);
       [by eexists _, _|by apply elem_of_nil in Hin].
  eexists _, _. split; [|done].
  apply list_elem_of_further, list_elem_of_here.
Qed.
End PortalFacts.

(** The portal is opened for the customer reference stored on the
    profile of the user. *)
Lemma portal_POST_stored_customer (env : Portal.Env) (req : Portal.Request)
    (st : Portal.State) uid p cid url :
  Portal.userId_of req = Some uid → uid ≠ "" →
  Portal.select_error env = None →
  Portal.table st !! uid = Some p → stripe_customer_id p = Some cid → cid ≠ "" →
  Portal.billingPortal_sessions_create env cid (Portal.siteUrl env) = inr url →
  Portal.POST env req st =
    (json_ok (BUrl url),
     {| Portal.table := Portal.table st;
        Portal.calls := Portal.calls st ++
          [Portal.ProfilesSelectCustomerId uid;
           Portal.BillingPortalSessionsCreate cid (Portal.siteUrl env)] |}).
Proof.
  intros Hu Hne Hsel Hp Hc Hcne Hb. apply String.eqb_neq in Hne, Hcne.
  unfold Portal.userId_of, Portal.siteUrl in *. unfold_route.
  destruct (Portal.req_json req) as [e|[[[u|]]|]]; simplify_eq/=.
  rewrite Hne, Hsel. simpl. rewrite Hp. simpl. rewrite Hc. simpl.
  rewrite Hcne. simpl. rewrite Hb. simpl. by rewrite <- app_assoc.
Qed.

(** X21. From checkout to the billing portal: once a verified
    subscription-mode checkout of a user has been acknowledged, the
    portal route, asked for that user, opens the portal of the customer
    the checkout session named and answers with the URL Stripe gives. *)
Theorem portal_opens_the_customer_of_the_checkout
    (wenv : Webhook.Env) (wreq : Webhook.Request) (w : World)
    (session : Webhook.CheckoutSession) (uid cid : string)
    (penv : Portal.Env) (preq : Portal.Request) (url : option string) :
  Webhook.verified wenv wreq (Webhook.checkout_session_completed session) →
  Webhook.mode session = "subscription" →
  Webhook.metadata_user_id session = Some uid → uid ≠ "" →
  Webhook.id_or_null (Webhook.customer session) = Some cid → cid ≠ "" →
  status (run (Webhook.POST wenv wreq) w) = 200%nat →
  Portal.userId_of preq = Some uid →
  Portal.select_error penv = None →
  Portal.billingPortal_sessions_create penv cid (Portal.siteUrl penv) = inr url →
  Portal.POST penv preq (Portal.at_world (exec (Webhook.POST wenv wreq) w)) =
    (json_ok (BUrl url),
     {| Portal.table := profiles (exec (Webhook.POST wenv wreq) w);
        Portal.calls :=
          [Portal.ProfilesSelectCustomerId uid;
           Portal.BillingPortalSessionsCreate cid (Portal.siteUrl penv)] |}).
Proof.
  intros Hv Hmode Huid Hne Hcid Hcne H200 Hu Hsel Hb.
  assert (Hrow : ∃ p, profiles (exec (Webhook.POST wenv wreq) w) !! uid = Some p ∧
                      stripe_customer_id p = Some cid).
  { revert H200. unfold Webhook.POST, try_catch, run, exec.
    rewrite (POST_try_verified _ _ _ _ Hv).
    pose proof (on_checkout_completed_outcome wenv w session uid Hmode Huid Hne) as H1.
    simpl in H1.
    destruct (Webhook.on_checkout_completed wenv session w) as [o1 w1].
    destruct H1 as [(cpe & Ho1 & Hp1 & _)|(e & Ho1 & _)]; simpl in *; subst o1;
      [intros _|simpl; discriminate].
    simpl. rewrite Hp1, lookup_insert_eq. by eexists. }
  destruct Hrow as (p & Hp & Hc).
  by rewrite (portal_POST_stored_customer penv preq _ uid p cid url).
Qed.

(** X22. The customer reference outlives the subscription: after a
    verified subscription-deleted event has made the profile [free],
    the portal route still opens the portal of the same customer for
    that user. *)
Theorem portal_still_opens_after_cancellation
    (wenv : Webhook.Env) (wreq : Webhook.Request) (w : World)
    (sub : Webhook.Subscription) (uid cid : string) (p : ProfileRow)
    (penv : Portal.Env) (preq : Portal.Request) (url : option string) :
  Webhook.verified wenv wreq (Webhook.customer_subscription_deleted sub) →
  Webhook.id_of (Webhook.sub_customer sub) = inr cid → cid ≠ "" →
  Webhook.sole_profile_of_customer cid uid p (profiles w) →
  Webhook.store_answers wenv →
  Portal.userId_of preq = Some uid → uid ≠ "" →
  Portal.select_error penv = None →
  Portal.billingPortal_sessions_create penv cid (Portal.siteUrl penv) = inr url →
  plan <$> profiles (exec (Webhook.POST wenv wreq) w) !! uid = Some free ∧
  Portal.POST penv preq (Portal.at_world (exec (Webhook.POST wenv wreq) w)) =
    (json_ok (BUrl url),
     {| Portal.table := profiles (exec (Webhook.POST wenv wreq) w);
        Portal.calls :=
          [Portal.ProfilesSelectCustomerId uid;
           Portal.BillingPortalSessionsCreate cid (Portal.siteUrl penv)] |}).
Proof.
  intros Hv Hcid Hcne Hsole Hst Hu Hne Hsel Hb.
  pose proof (POST_subscription_deleted_sole wenv wreq w sub cid uid p
                Hv Hst Hcid Hsole) as HW. simpl in HW.
  unfold exec. rewrite HW. simpl. rewrite lookup_insert_eq. split; [done|].
  erewrite (portal_POST_stored_customer penv preq _ uid _ cid url); try done.
  - simpl. apply lookup_insert_eq.
  - done.
Qed.

(** * The page and the routes it calls *)

(** The generation route answers with one of five status codes. *)
Lemma Generate_POST_status (env : Generate.Env) (req : Generate.Request) (w : World) :
  status (run (Generate.POST env req) w) ∈ [200; 400; 401; 402; 500]%nat.
Proof.
  unfold Generate.POST, Generate.catch_all, Generate.POST_try,
    Generate.generate_and_save, Generate.must_be_logged_in, Generate.load_plan,
    Generate.enforce_free_limit, Generate.parse_body, Generate.openai, Generate.save.
  unfold_handler.
  repeat (case_match; simplify_eq); simpl; set_solver.
Qed.

(** It answers 400 only for a parsed body that lacks a field. *)
Lemma Generate_POST_400 (env : Generate.Env) (req : Generate.Request) (w : World) :
  status (run (Generate.POST env req) w) = 400%nat →
  ∃ b, Generate.req_json req = inr (Some b) ∧
       (Js.truthy (Generate.clientName b) = false ∨
        Js.truthy (Generate.body_notes b) = false).
Proof.
  unfold Generate.POST, Generate.catch_all, Generate.POST_try,
    Generate.generate_and_save, Generate.must_be_logged_in, Generate.load_plan,
    Generate.enforce_free_limit, Generate.parse_body, Generate.openai, Generate.save.
  unfold_handler.
  repeat (case_match; simplify_eq); simpl; try done.
  all: intros _; eexists; split; [done|].
  all: match goal with
       | H : negb _ || negb _ = true |- _ =>
           apply orb_true_iff in H as [H|H]; apply negb_true_iff in H; eauto
       end.
Qed.

Lemma canGenerate_fields_not_empty (s : Page.State) :
  Page.canGenerate s = true →
  Js.truthy (Some (Page.s_clientName s)) = true ∧
  Js.truthy (Some (Page.s_notes s)) = true.
Proof.
  unfold Page.canGenerate. intros [Hc Hn]%andb_true_iff.
  split; simpl; apply negb_true_iff, String.eqb_neq; intros Heq;
    rewrite Heq in *; simpl in *; done.
Qed.

(** X23. A request the page sends while its button is enabled (both
    fields non-empty after trimming, notes longer than 20) carries the
    session token where the server reads the bearer token, passes the
    server's check of the two fields, and is therefore never answered
    400. *)
Theorem enabled_page_request_passes_the_server_checks
    (s : Page.State) (token : string) (genv : Generate.Env) (w : World) :
  Page.canGenerate s = true →
  let req := Page.generate_request token s in
  Generate.bearer_token (authHeader req) = Some token ∧
  Generate.parse_body req w = (Next (Page.s_clientName s, Page.s_notes s), w) ∧
  status (run (Generate.POST genv req) w) ≠ 400%nat.
Proof.
  intros Hcan req. destruct (canGenerate_fields_not_empty s Hcan) as [Hc Hn].
  split; [|split].
  - change (authHeader req) with ("Bearer " ++ token). by apply bearer_token_aux.
  - unfold Generate.parse_body, req. unfold_handler. simpl in *.
    by rewrite Hc, Hn.
  - intros H400. apply Generate_POST_400 in H400 as (b & Hb & Hmiss).
    unfold req in Hb. simpl in Hb. simplify_eq. simpl in Hmiss, Hc, Hn.
    destruct Hmiss as [Hm|Hm]; congruence.
Qed.

Section EnsureProfile.
Import Page.
Variable env : Env.

(** X24. Loading the plan never changes a profile that exists and
    never touches another user's row or the proposals.  When it ends
    without an error message, the user has a profile and the page shows
    the plan stored on it; a profile it had to create is [free] and
    holds the email it was given.  When it ends with an error message,
    the page shows [free] and the store is as it was. *)
Theorem loading_the_plan_never_overwrites_a_profile
    (uid : string) (mail : option string) (s : State) (w : World) :
  let s' := (ensureProfileAndLoadPlan env uid mail (s, w)).1 in
  let w' := (ensureProfileAndLoadPlan env uid mail (s, w)).2 in
  proposals w' = proposals w ∧
  (∀ uid' p, profiles w !! uid' = Some p → profiles w' !! uid' = Some p) ∧
  same_but_at uid (profiles w) (profiles w') ∧
  s_planLoading s' = false ∧
  (s_error s' = None →
   ∃ p, profiles w' !! uid = Some p ∧ s_plan s' = plan p ∧
        (profiles w !! uid = None → plan p = free ∧ email p = mail)) ∧
  (s_error s' ≠ None → s_plan s' = free ∧ w' = w).
Proof.
  unfold ensureProfileAndLoadPlan, plan_failed.
  destruct (profiles_select_error env) as [e|]; simpl.
  { by split_and!. }
  destruct (profiles w !! uid) as [p|] eqn:Hp; simpl.
  { split_and!; try done. intros _. exists p. by rewrite Hp. }
  destruct (profiles_insert_error env) as [e|]; simpl.
  { by split_and!. }
  split_and!; try done.
  - intros uid' p Hl. destruct (decide (uid' = uid)) as [->|Hne]; [congruence|].
    by rewrite lookup_insert_ne.
  - intros uid' Hne. by rewrite lookup_insert_ne.
  - intros _. eexists. rewrite lookup_insert_eq. split; [done|]. split; [done|].
    intros _. simpl. by rewrite nullish_null.
Qed.

(** X25. Back from the checkout: once a verified subscription-mode
    checkout of the user has been acknowledged by the webhook, loading
    the plan shows [pro] and writes nothing. *)
Theorem page_shows_pro_after_the_checkout
    (wenv : Webhook.Env) (wreq : Webhook.Request) (w : World)
    (session : Webhook.CheckoutSession) (uid : string) (email : option string)
    (s : State) :
  Webhook.verified wenv wreq (Webhook.checkout_session_completed session) →
  Webhook.mode session = "subscription" →
  Webhook.metadata_user_id session = Some uid → uid ≠ "" →
  status (run (Webhook.POST wenv wreq) w) = 200%nat →
  profiles_select_error env = None →
  let w1 := exec (Webhook.POST wenv wreq) w in
  s_plan (ensureProfileAndLoadPlan env uid email (s, w1)).1 = pro ∧
  s_error (ensureProfileAndLoadPlan env uid email (s, w1)).1 = None ∧
  (ensureProfileAndLoadPlan env uid email (s, w1)).2 = w1.
Proof.
  intros Hv Hmode Huid Hne H200 Hsel w1.
  assert (Hrow : ∃ p, profiles w1 !! uid = Some p ∧ plan p = pro).
  { subst w1. revert H200. unfold Webhook.POST, try_catch, run, exec.
    rewrite (POST_try_verified _ _ _ _ Hv).
    pose proof (on_checkout_completed_outcome wenv w session uid Hmode Huid Hne) as H1.
    simpl in H1.
    destruct (Webhook.on_checkout_completed wenv session w) as [o1 w1].
    destruct H1 as [(cpe & Ho1 & Hp1 & _)|(e & Ho1 & _)]; simpl in *; subst o1;
      [intros _|simpl; discriminate].
    simpl. rewrite Hp1, lookup_insert_eq. by eexists. }
  destruct Hrow as (p & Hp & Hplan). clearbody w1.
  unfold ensureProfileAndLoadPlan. rewrite Hsel, Hp. simpl. by destruct w1.
Qed.
End EnsureProfile.

(** ** The order of instants *)

Lemma lex_leb_total (a b : list Z) :
  Generate.lex_leb a b = true ∨ Generate.lex_leb b a = true.
Proof.
  revert b. induction a as [|x a IH]; intros [|y b]; simpl; auto.
  destruct (IH b) as [H|H]; rewrite H;
    destruct (Z.ltb_spec x y), (Z.ltb_spec y x), (Z.eqb_spec x y), (Z.eqb_spec y x);
    simpl; auto; lia.
Qed.

Lemma lex_leb_trans (a b c : list Z) :
  length a = length b → length b = length c →
  Generate.lex_leb a b = true → Generate.lex_leb b c = true →
  Generate.lex_leb a c = true.
Proof.
  revert b c. induction a as [|x a IH]; intros [|y b] [|z c]; simpl; try done.
  intros [= Hab] [= Hbc] H1 H2.
  apply orb_true_iff in H1 as [H1|[H1 H1']%andb_true_iff];
    apply orb_true_iff in H2 as [H2|[H2 H2']%andb_true_iff];
    apply orb_true_iff.
  - left. apply Z.ltb_lt in H1, H2. apply Z.ltb_lt. lia.
  - left. apply Z.ltb_lt in H1. apply Z.eqb_eq in H2. apply Z.ltb_lt. lia.
  - left. apply Z.eqb_eq in H1. apply Z.ltb_lt in H2. apply Z.ltb_lt. lia.
  - right. apply Z.eqb_eq in H1, H2. apply andb_true_iff. split.
    + apply Z.eqb_eq. lia.
    + by apply (IH b c).
Qed.

#[local] Instance newer_or_same_total : Total Page.newer_or_same.
Proof.
  intros a b. unfold Page.newer_or_same, Generate.Date_leb.
  destruct (lex_leb_total (Generate.Date_fields (created_at b))
              (Generate.Date_fields (created_at a))) as [->| ->]; auto.
Qed.

#[local] Instance newer_or_same_trans : Transitive Page.newer_or_same.
Proof.
  intros a b c. unfold Page.newer_or_same, Generate.Date_leb.
  intros H1%Is_true_true H2%Is_true_true. apply Is_true_true.
  by apply (lex_leb_trans _ (Generate.Date_fields (created_at b))).
Qed.

Section History.
Import Page.
Variable env : Env.

(** The listing is the first 50 of the user's rows in an order that
    puts no row before a newer one. *)
Lemma select_history_spec (uid : string) (t : list ProposalRow) :
  let own := filter (λ r, user_id r = uid) t in
  let rows := select_history uid t in
  (∀ r, r ∈ rows → r ∈ t ∧ user_id r = uid) ∧
  length rows = min 50 (length own) ∧
  StronglySorted newer_or_same rows ∧
  (∀ r r', r ∈ rows → r' ∈ own → r' ∉ rows → newer_or_same r r') ∧
  ((length own ≤ 50)%nat → rows ≡ₚ own).
Proof.
  intros own rows. unfold rows, select_history. fold own.
  set (sorted := merge_sort newer_or_same own).
  assert (Hperm : sorted ≡ₚ own) by apply merge_sort_Permutation.
  assert (Hsorted : StronglySorted newer_or_same sorted).
  { apply StronglySorted_merge_sort; apply _. }
  rewrite <- (take_drop 50 sorted) in Hsorted.
  split_and!.
  - intros r Hr%(subseteq_take 50 sorted).
    rewrite Hperm in Hr. unfold own in Hr.
    apply list_elem_of_filter in Hr as [? ?]. done.
  - by rewrite length_take, Hperm.
  - by apply StronglySorted_app_1_l in Hsorted.
  - intros r r' Hr Hown Hnot.
    apply (StronglySorted_app_1_elem_of _ _ _ _ _ Hsorted Hr).
    rewrite <- Hperm, <- (take_drop 50 sorted) in Hown.
    apply elem_of_app in Hown as [?|?]; done.
  - intros Hle. rewrite take_ge; [done|]. by rewrite Hperm.
Qed.

Lemma loadHistory_listing (s : State) (w : World) (uid : string) :
  s_userId s = Some uid → uid ≠ "" → proposals_select_error env = None →
  loadHistory env (s, w) =
    (setRows (select_history uid (proposals w))
       (setHistoryLoading false (setHistoryLoading true (setError None s))), w).
Proof.
  intros Hu Hne Hsel. apply String.eqb_neq in Hne.
  unfold loadHistory. rewrite Hu, Hsel. cbn [Js.truthy]. rewrite Hne.
  cbn [negb s_userId setHistoryLoading setError]. by rewrite Hu.
Qed.

(** X26. The history the page loads for a signed-in user holds only
    proposals of that user that are in the store, at most 50 of them,
    none before a newer one; every proposal of the user that is left out
    is no newer than any listed one, and nothing is left out when the
    user has 50 or fewer.  Loading writes nothing. *)
Theorem history_lists_the_newest_proposals_of_the_user
    (s : State) (w : World) (uid : string) :
  s_userId s = Some uid → uid ≠ "" → proposals_select_error env = None →
  let rows := s_rows (loadHistory env (s, w)).1 in
  let own := filter (λ r, user_id r = uid) (proposals w) in
  (loadHistory env (s, w)).2 = w ∧
  (∀ r, r ∈ rows → r ∈ proposals w ∧ user_id r = uid) ∧
  length rows = min 50 (length own) ∧
  StronglySorted newer_or_same rows ∧
  (∀ r r', r ∈ rows → r' ∈ own → r' ∉ rows → newer_or_same r r') ∧
  ((length own ≤ 50)%nat → rows ≡ₚ own).
Proof.
  intros Hu Hne Hsel. rewrite (loadHistory_listing _ _ _ Hu Hne Hsel).
  cbn [fst snd s_rows setRows]. split; [done|]. apply select_history_spec.
Qed.

(** X27. From generation to history: when the generation route has
    answered 200 and the caller then has at most 50 proposals, the
    history the page loads for that user contains the saved row of the
    answer, with the text of the answer. *)
Theorem generated_proposal_appears_in_the_history
    (genv : Generate.Env) (greq : Generate.Request) (w : World)
    (token : string) (user : Generate.User) (s : State) :
  let uid := Generate.user_id_of user in
  let w' := exec (Generate.POST genv greq) w in
  Generate.authenticated genv greq token user →
  status (run (Generate.POST genv greq) w) = 200%nat →
  s_userId s = Some uid → uid ≠ "" → proposals_select_error env = None →
  (length (filter (λ r, user_id r = uid) (proposals w')) ≤ 50)%nat →
  ∃ text saved,
    run (Generate.POST genv greq) w = json_ok (BGenerated text saved) ∧
    proposal saved = text ∧
    saved ∈ s_rows (loadHistory env (s, w')).1.
Proof.
  intros uid w' Hauth H200 Hu Hne Hsel Hle.
  destruct (POST_outcome genv greq w)
    as (_ & [(token' & user' & b & text & Hauth' & _ & Hrun & Hp)|(Hst & _)]);
    [|done].
  destruct (authenticated_unique genv greq _ _ _ _ Hauth Hauth') as [-> ->].
  exists text, (saved_row genv user b text). split; [done|]. split; [done|].
  rewrite (loadHistory_listing _ _ _ Hu Hne Hsel). cbn [fst snd s_rows setRows].
  destruct (select_history_spec uid (proposals w')) as (_ & _ & _ & _ & Hall).
  rewrite (Hall Hle). apply list_elem_of_filter. split; [done|].
  subst w'. rewrite Hp. apply elem_of_app. right. apply list_elem_of_here.
Qed.
End History.

Ltac decide_all :=
  repeat match goal with |- context [decide ?P] => destruct (decide P) end.

Section Delete.
Import Page.
Variable env : Env.

(** Deleting the rows of [owner] with one id changes the count of
    another user in no window. *)
Lemma count_since_delete_other id_ owner uid since (t : list ProposalRow) :
  uid ≠ owner →
  Generate.count_since uid since (delete_proposal id_ owner t)
  = Generate.count_since uid since t.
Proof.
  intros Hne. unfold Generate.count_since, delete_proposal.
  induction t as [|r t IH]; [done|].
  rewrite (filter_cons (λ r, ¬ (id r = id_ ∧ user_id r = owner))).
  destruct (decide (¬ (id r = id_ ∧ user_id r = owner))) as [HQ|HQ].
  - rewrite !filter_cons. destruct (decide _); simpl; by rewrite IH.
  - apply dec_stable in HQ as [_ Howner].
    rewrite filter_cons. destruct (decide _) as [[Hu _]|]; [congruence|done].
Qed.

(** Deleting never raises a count, and lowers the owner's count when a
    counted row of the owner has the id. *)
Lemma count_since_delete_own id_ uid since (t : list ProposalRow) :
  (Generate.count_since uid since (delete_proposal id_ uid t)
   ≤ Generate.count_since uid since t)%nat ∧
  (∀ r, r ∈ t → id r = id_ → user_id r = uid →
        Generate.Date_leb since (created_at r) →
        (Generate.count_since uid since (delete_proposal id_ uid t)
         < Generate.count_since uid since t)%nat).
Proof.
  unfold Generate.count_since, delete_proposal.
  induction t as [|r t [IH1 IH2]]; [split; [done|by intros ? ?%elem_of_nil]|].
  rewrite (filter_cons (λ r, ¬ (id r = id_ ∧ user_id r = uid))).
  destruct (decide (¬ (id r = id_ ∧ user_id r = uid))) as [HQ|HQ].
  - rewrite !(filter_cons _ r).
    destruct (decide (user_id r = uid ∧ Generate.Date_leb since (created_at r)));
      simpl.
    + split; [lia|]. intros r' Hin Hid Hu Hd.
      apply elem_of_cons in Hin as [->|Hin]; [by destruct HQ|].
      specialize (IH2 r' Hin Hid Hu Hd). lia.
    + split; [done|]. intros r' Hin Hid Hu Hd.
      apply elem_of_cons in Hin as [->|Hin]; [by destruct HQ|]. eauto.
  - rewrite (filter_cons _ r).
    destruct (decide (user_id r = uid ∧ Generate.Date_leb since (created_at r)))
      as [HP|HP]; simpl.
    + split; [lia|]. intros. lia.
    + split; [done|]. intros r' Hin Hid Hu Hd.
      apply elem_of_cons in Hin as [->|Hin]; [by destruct HP|]. eauto.
Qed.

(** X28. Deleting a proposal from the page removes from the store
    only rows that have the given id and belong to the page's user:
    every other row stays, no row is added, the profiles are untouched
    and no other user's count changes.  When the store carries out the
    delete, no row of the user with that id is left; without a
    signed-in user, or when the store refuses, the store is as it
    was. *)
Theorem deleting_removes_only_own_rows_with_that_id
    (id_ : string) (s : State) (w : World) :
  let s' := (deleteProposal env id_ (s, w)).1 in
  let w' := (deleteProposal env id_ (s, w)).2 in
  profiles w' = profiles w ∧
  (∀ r, r ∈ proposals w' → r ∈ proposals w) ∧
  (∀ r, r ∈ proposals w → id r ≠ id_ ∨ Some (user_id r) ≠ s_userId s →
        r ∈ proposals w') ∧
  (∀ uid since, Some uid ≠ s_userId s →
     Generate.count_since uid since (proposals w')
     = Generate.count_since uid since (proposals w)) ∧
  (Js.truthy (s_userId s) = true → proposals_delete_error env = None →
   ∀ r, r ∈ proposals w' → ¬ (id r = id_ ∧ Some (user_id r) = s_userId s)) ∧
  (Js.truthy (s_userId s) = false ∨ proposals_delete_error env ≠ None → w' = w).
Proof.
  unfold deleteProposal. cbn [s_userId setError].
  destruct (s_userId s) as [[|c u]|] eqn:Hu; cbn [Js.truthy negb String.eqb];
    try by (simpl; split_and!).
  destruct (proposals_delete_error env) as [e|]; [by (simpl; split_and!)|].
  cbn [default].
  assert (Hfacts :
    let t' := delete_proposal id_ (String c u) (proposals w) in
    (∀ r, r ∈ t' → r ∈ proposals w) ∧
    (∀ r, r ∈ proposals w → id r ≠ id_ ∨ Some (user_id r) ≠ Some (String c u) → r ∈ t') ∧
    (∀ uid since, Some uid ≠ Some (String c u) →
       Generate.count_since uid since t' = Generate.count_since uid since (proposals w)) ∧
    (∀ r, r ∈ t' → ¬ (id r = id_ ∧ Some (user_id r) = Some (String c u)))).
  { intros t'. subst t'. unfold delete_proposal. split_and!.
    - by intros r [_ ?]%list_elem_of_filter.
    - intros r Hin Hor. apply list_elem_of_filter. split; [|done].
      intros [Hid Hown]. destruct Hor as [Hor|Hor]; [done|]. by rewrite Hown in Hor.
    - intros uid since Hne. apply count_since_delete_other. congruence.
    - intros r [Hn _]%list_elem_of_filter [Hid [= Hown]]. by apply Hn. }
  destruct Hfacts as (H1 & H2 & H3 & H4).
  destruct (decide _); cbn [fst snd profiles proposals with_proposals];
    split_and!; try done; by intros [?|?].
Qed.

(** X29. Deleting frees quota: when a free user has used the three
    proposals of the month and deletes, without error, one of them that
    was counted, the next generation request of that user is counted
    below the limit and let through to generation. *)
Theorem deleting_a_counted_proposal_frees_quota
    (genv : Generate.Env) (greq : Generate.Request) (token : string)
    (user : Generate.User) (id_ : string) (r : ProposalRow) (s : State) (w : World) :
  let uid := Generate.user_id_of user in
  let since := Generate.startOfMonth (Generate.new_Date genv) in
  let w' := (deleteProposal env id_ (s, w)).2 in
  s_userId s = Some uid → uid ≠ "" → proposals_delete_error env = None →
  r ∈ proposals w → id r = id_ → user_id r = uid →
  Generate.Date_leb since (created_at r) →
  Generate.used_this_month genv uid w = 3%nat →
  Generate.authenticated genv greq token user →
  Generate.profiles_error genv = false → Generate.count_error genv = false →
  Generate.plan_of uid w = free →
  (Generate.used_this_month genv uid w' < 3)%nat ∧
  Generate.POST genv greq w' =
    Generate.catch_all (Generate.generate_and_save genv greq user)
      (Generate.after [AuthGetUser token; ProfilesSelectPlan uid;
                       ProposalsCount uid since] w').
Proof.
  intros uid since w' Hu Hne Hdel Hin Hid Howner Hd Hused Hauth Hprof Hcount Hplan.
  assert (Hw' : w' = with_proposals (delete_proposal id_ uid (proposals w)) w).
  { subst w'. apply String.eqb_neq in Hne. unfold deleteProposal.
    cbn [s_userId setError]. rewrite Hu. cbn [Js.truthy]. rewrite Hne.
    cbn [negb]. rewrite Hdel. cbn [default]. by destruct (decide _). }
  assert (Hlt : (Generate.used_this_month genv uid w' < 3)%nat).
  { rewrite Hw'. unfold Generate.used_this_month in *. cbn [proposals with_proposals].
    rewrite <- Hused. fold since.
    by apply (proj2 (count_since_delete_own id_ uid since (proposals w)) r). }
  split; [done|].
  apply (POST_let_through genv greq w' _ token user).
  split; [done|]. split; [done|]. right.
  split; [by rewrite Hw'|]. done.
Qed.
End Delete.

Section GenerateClick.
Import Page.
Variable env : Env.
Variable genv : Generate.Env.

(** X30. A click on the generate button never ends silently.  When
    [generateProposal] is done the page is no longer loading and no
    profile was written; and either nothing was stored, the output is
    empty and an error message is shown, or exactly one row was stored
    and the page shows its text (a placeholder if the text is empty)
    and, for a row with an id, puts the row at the head of the history,
    makes it the active one and shows no error. *)
Theorem generate_click_ends_with_a_message_or_a_saved_row (s : State) (w : World) :
  let s' := (generateProposal env genv (s, w)).1 in
  let w' := (generateProposal env genv (s, w)).2 in
  s_loading s' = false ∧ profiles w' = profiles w ∧
  ((proposals w' = proposals w ∧ s_error s' ≠ None ∧ s_proposal s' = "")
   ∨ (∃ row,
        proposals w' = (proposals w ++ [row])%list ∧
        s_proposal s' = (if decide (proposal row = "")
                         then "No proposal returned." else proposal row) ∧
        (id row ≠ "" →
         s_rows s' = row :: s_rows s ∧ s_activeId s' = Some (id row) ∧
         s_error s' = None))).
Proof.
  unfold generateProposal, generate_failed.
  destruct (session_error env) as [e|]; [by (simpl; split_and!; [..|left])|].
  destruct (Js.truthy (access_token env)) eqn:Htok; cbn [negb];
    [|by (simpl; split_and!; [..|left])].
  destruct (fetch_error env) as [e|]; [by (simpl; split_and!; [..|left])|].
  set (s0 := setProposal "" (setLoading true (setError None s))).
  set (req := generate_request (default "" (access_token env)) s0).
  pose proof (POST_outcome genv req w) as (Hprof & Hcases).
  pose proof (Generate_POST_status genv req w) as Hstatus.
  unfold run, exec in *.
  destruct (Generate.POST genv req w) as [res w1]. cbn [fst snd] in *.
  destruct Hcases as [(token & user & b & text & _ & _ & -> & Hp)|(Hne & Hp)].
  - cbn [status json_ok json body Nat.eqb andb res_ok Nat.leb negb data_saved
         data_proposal].
    replace (Js.truthy (Some (id (saved_row genv user b text))))
      with (negb (String.eqb (id (saved_row genv user b text)) "")) by done.
    assert (Hshown :
      default "" (Js.or_else (Some text) (Some "No proposal returned."))
      = if decide (proposal (saved_row genv user b text) = "")
        then "No proposal returned." else proposal (saved_row genv user b text)).
    { cbn [saved_row proposal]. unfold Js.or_else, Js.truthy.
      destruct (String.eqb_spec text ""); by destruct (decide _). }
    destruct (String.eqb_spec (id (saved_row genv user b text)) "") as [Hid|Hid];
      cbn [negb].
    + split; [by destruct (loadHistory env _) eqn:Hl; unfold loadHistory in Hl;
               repeat case_match; simplify_eq|].
      assert (Hw : (loadHistory env (setProposal
                      (default "" (Js.or_else (Some text) (Some "No proposal returned.")))
                      s0, w1)).2 = w1).
      { unfold loadHistory. by repeat case_match. }
      assert (Hs : s_proposal (loadHistory env (setProposal
                      (default "" (Js.or_else (Some text) (Some "No proposal returned.")))
                      s0, w1)).1
                   = default "" (Js.or_else (Some text) (Some "No proposal returned."))).
      { unfold loadHistory. by repeat case_match. }
      destruct (loadHistory env _) as [s2 w2]. cbn [fst snd] in *. subst w2.
      split; [done|]. right. eexists. split; [done|]. split; [|done].
      transitivity (s_proposal s2); [done|]. by rewrite Hs, Hshown.
    + rewrite Hshown. cbn [fst snd]. split; [done|]. split; [done|]. right.
      eexists. split; [done|]. split; [|done]. done.
  - assert (Hst : status res = 400%nat ∨ status res = 401%nat ∨
                  status res = 402%nat ∨ status res = 500%nat).
    { repeat (apply elem_of_cons in Hstatus as [?|Hstatus]; [by auto|]).
      by apply elem_of_nil in Hstatus. }
    destruct Hst as [Hst|[Hst|[Hst|Hst]]]; unfold res_ok; rewrite Hst;
      cbn [Nat.eqb andb Nat.leb negb];
      try destruct (bool_decide _); cbn [fst snd andb];
      (split; [done|]); (split; [done|]); left; (split; [done|]);
      (split; [|done]); cbn; unfold Js.or_else; try done.
    destruct (data_error (body res)) as [e|]; [|done].
    by destruct (Js.truthy (Some e)).
Qed.
End GenerateClick.

(** ** The further properties at sample inputs *)

Section FurtherInstances.
Import Samples Cases.

Lemma tampered_is_unverified : unverified (stripe_server 2000) tampered.
Proof.
  intros event (_ & _ & H). vm_compute in H. discriminate H.
Defined.

Lemma ada_is_authenticated :
  Generate.authenticated generate_server acme_request "token-ada" ada.
Proof. repeat split; done. Defined.

Lemma ada_is_authenticated_where profiles_error count_error insert_error create :
  Generate.authenticated
    (generate_server_where profiles_error count_error insert_error create)
    acme_request "token-ada" ada.
Proof. repeat split; done. Defined.

Lemma ada_is_let_through_as_pro :
  Generate.let_through generate_server acme_request ada_is_pro "token-ada" ada
    (Generate.after [AuthGetUser "token-ada"; ProfilesSelectPlan "user-ada"]
       ada_is_pro).
Proof.
  split; [exact ada_is_authenticated|]. split; [reflexivity|].
  left. split; reflexivity.
Defined.

(** C8, as the code has it: a checkout whose subscription Stripe does
    not know is answered 400 with Stripe's message; the checkout of Ada,
    where no step throws, is acknowledged; and so is an event type the
    handler does not know, without a change. *)
Lemma verified_request_witness :
  (run (Webhook.POST (stripe_server 2000) (signed "checkout-unknown-subscription"))
       ada_is_pro
     = json (BError "No such subscription: sub_gone") 400 ∧
   profiles (exec (Webhook.POST (stripe_server 2000)
                     (signed "checkout-unknown-subscription")) ada_is_pro)
     = profiles ada_is_pro) ∧
  (∃ note, run (Webhook.POST (stripe_server 2000) (signed "checkout")) empty_world
           = json_ok (BOk note)) ∧
  (∃ note, run (Webhook.POST (stripe_server 2000) (signed "invoice.paid")) ada_is_pro
           = json_ok (BOk note)) ∧
  profiles (exec (Webhook.POST (stripe_server 2000) (signed "invoice.paid")) ada_is_pro)
    = profiles ada_is_pro.
Proof.
  split; [|split].
  - destruct (verified_request_acknowledged_unless_a_step_throws
                (stripe_server 2000) (signed "checkout-unknown-subscription")
                ada_is_pro
                (Webhook.checkout_session_completed
                   (ada_session (Webhook.ExpId "sub_gone")))) as [Hthrows _].
    + apply (verified_signed 2000 "checkout-unknown-subscription").
    + destruct (Hthrows (Js.new_Error "No such subscription: sub_gone"))
        as (Hrun & Hprof & _).
      * apply (Webhook.lookup_throws _ _ _ "sub_gone").
        -- split; reflexivity.
        -- reflexivity.
        -- discriminate.
        -- reflexivity.
      * split; [exact Hrun|exact Hprof].
  - destruct (verified_request_acknowledged_unless_a_step_throws
                (stripe_server 2000) (signed "checkout") empty_world
                (Webhook.checkout_session_completed
                   (ada_session (Webhook.ExpId "sub_ada")))) as (_ & Hnone & _).
    + apply (verified_signed 2000 "checkout").
    + apply Hnone. intros err Hs.
      inversion Hs; simplify_eq/=;
        match goal with
        | H : retrieve _ = inr _ |- _ => vm_compute in H; injection H as <-
        end;
        simplify_eq/=;
        match goal with
        | H : Webhook.unixToIso _ = inl _ |- _ => vm_compute in H; discriminate H
        end.
  - destruct (verified_request_acknowledged_unless_a_step_throws
                (stripe_server 2000) (signed "invoice.paid") ada_is_pro
                (Webhook.other_event "invoice.paid")) as (_ & _ & Hna).
    + apply (verified_signed 2000 "invoice.paid").
    + destruct (Hna I eq_refl) as (Hack & Hp & _). split; [exact Hack|exact Hp].
Defined.

(** X1 at a changed body under the signature of another body. *)
Lemma unverified_request_witness :
  unverified (stripe_server 2000) tampered ∧
  status (run (Webhook.POST (stripe_server 2000) tampered) ada_is_pro) ≠ 200%nat ∧
  profiles (exec (Webhook.POST (stripe_server 2000) tampered) ada_is_pro)
    = profiles ada_is_pro ∧
  proposals (exec (Webhook.POST (stripe_server 2000) tampered) ada_is_pro)
    = proposals ada_is_pro.
Proof.
  split; [exact tampered_is_unverified|].
  exact (unverified_request_is_rejected_without_writes
           (stripe_server 2000) tampered ada_is_pro tampered_is_unverified).
Defined.

(** X2 at a checkout whose subscription Stripe does not know. *)
Lemma webhook_error_answer_witness :
  status (run (Webhook.POST (stripe_server 1000)
                 (signed "checkout-unknown-subscription")) empty_world) = 400%nat ∧
  profiles (exec (Webhook.POST (stripe_server 1000)
                    (signed "checkout-unknown-subscription")) empty_world) = ∅.
Proof.
  split; [reflexivity|].
  apply (webhook_error_answer_means_nothing_written
           (stripe_server 1000) (signed "checkout-unknown-subscription") empty_world).
  vm_compute. lia.
Defined.

(** X4 at two profiles with the customer reference of Ada. *)
Lemma ambiguous_customer_witness :
  Webhook.POST (stripe_server 2000) (signed "deleted") shared_customer =
    (json (BError "JSON object requested, multiple (or no) rows returned") 400,
     {| profiles := profiles shared_customer; proposals := [];
        trace := [ProfilesSelectByCustomer "cus_ada";
                  ConsoleError "Stripe webhook error:"
                    (Js.new_Error
                       "JSON object requested, multiple (or no) rows returned")] |}).
Proof.
  apply (subscription_event_of_ambiguous_customer_is_rejected
           (stripe_server 2000) (signed "deleted") shared_customer
           (parse "deleted") (ada_subscription "canceled")
           "cus_ada" "user-ada" "user-bob" ada_profile bob_profile).
  - apply (verified_signed 2000 "deleted").
  - right. reflexivity.
  - reflexivity.
  - reflexivity.
  - discriminate.
  - vm_compute. reflexivity.
  - reflexivity.
  - vm_compute. reflexivity.
  - reflexivity.
Defined.

(** X5 at a past-due subscription of Ada. *)
Lemma subscription_events_keep_identity_witness :
  identity_of <$>
    profiles (exec (Webhook.POST (stripe_server 2000) (signed "updated-past-due"))
                ada_is_pro) !! "user-ada"
    = Some (Some "ada@example.com", Some "cus_ada").
Proof.
  rewrite (subscription_events_keep_every_profile_identity
             (stripe_server 2000) (signed "updated-past-due") ada_is_pro
             (parse "updated-past-due") (ada_subscription "past_due") "user-ada").
  - reflexivity.
  - apply (verified_signed 2000 "updated-past-due").
  - left. reflexivity.
Defined.

(** X6 at the checkout of Ada at 1000 and the cancellation at 2000. *)
Lemma checkout_then_cancellation_witness :
  run (Webhook.POST (stripe_server 2000) (signed "deleted")) after_first_delivery
    = json_ok (BOk None) ∧
  profiles (exec (Webhook.POST (stripe_server 2000) (signed "deleted"))
              after_first_delivery)
    = <[ "user-ada" := {| email := Some "ada@example.com"; plan := free;
                          stripe_customer_id := Some "cus_ada";
                          stripe_subscription_id := None;
                          current_period_end := None;
                          updated_at := 2000 |} ]> ∅.
Proof.
  apply (checkout_then_cancellation_downgrades_that_user
           (stripe_server 1000) (stripe_server 2000)
           (signed "checkout") (signed "deleted") empty_world
           (ada_session (Webhook.ExpId "sub_ada")) (ada_subscription "canceled")
           "user-ada" "cus_ada").
  - apply (verified_signed 1000 "checkout").
  - reflexivity.
  - reflexivity.
  - discriminate.
  - reflexivity.
  - intros uid' p' Hl. simpl in Hl. rewrite lookup_empty in Hl. discriminate Hl.
  - reflexivity.
  - apply (verified_signed 2000 "deleted").
  - reflexivity.
  - split; reflexivity.
Defined.

(** X7 at a subscription update that names no customer. *)
Lemma subscription_without_customer_witness :
  ∃ err,
    Webhook.POST orphan_server (signed "orphan") ada_is_pro =
      (json (BError (default "Webhook error" (Js.message err))) 400,
       {| profiles := profiles ada_is_pro; proposals := [];
          trace := [ConsoleError "Stripe webhook error:" err] |}).
Proof.
  apply (subscription_event_without_customer_is_rejected
           orphan_server (signed "orphan") ada_is_pro
           (Webhook.customer_subscription_updated orphan_subscription)
           orphan_subscription).
  - split; [reflexivity|]. split; reflexivity.
  - left. reflexivity.
  - reflexivity.
Defined.

(** X9 at a request without header and at one with a stale token. *)
Lemma unauthenticated_request_witness :
  Generate.POST generate_server anonymous_request ada_used_two
    = (json (BError "Unauthorized") 401, ada_used_two) ∧
  Generate.POST generate_server stale_request ada_used_two
    = (json (BError "Unauthorized") 401,
       Generate.after [AuthGetUser "token-stale"] ada_used_two).
Proof.
  split.
  - apply (proj1 (unauthenticated_request_is_answered_401
                    generate_server anonymous_request ada_used_two)).
    reflexivity.
  - apply (proj2 (unauthenticated_request_is_answered_401
                    generate_server stale_request ada_used_two) "token-stale").
    + reflexivity.
    + discriminate.
    + reflexivity.
    + reflexivity.
    + left. discriminate.
Defined.

(** X10 at a store that cannot tell the plan, and at one that cannot
    count. *)
Lemma store_failure_witness :
  Generate.POST (generate_server_where true false None provider_answers)
      acme_request ada_used_two
    = (json (BError "Could not load user plan") 500,
       Generate.after [AuthGetUser "token-ada"; ProfilesSelectPlan "user-ada"]
         ada_used_two) ∧
  Generate.POST (generate_server_where false true None provider_answers)
      acme_request ada_used_two
    = (json (BError "Could not check usage") 500,
       Generate.after
         [AuthGetUser "token-ada"; ProfilesSelectPlan "user-ada";
          ProposalsCount "user-ada" (Generate.startOfMonth november_2nd)]
         ada_used_two).
Proof.
  split.
  - apply (proj1 (store_failure_before_generation_fails_closed
                    (generate_server_where true false None provider_answers)
                    acme_request ada_used_two "token-ada" ada
                    (ada_is_authenticated_where _ _ _ _))).
    reflexivity.
  - apply (proj2 (store_failure_before_generation_fails_closed
                    (generate_server_where false true None provider_answers)
                    acme_request ada_used_two "token-ada" ada
                    (ada_is_authenticated_where _ _ _ _))).
    + reflexivity.
    + reflexivity.
    + reflexivity.
Defined.

(** X12 at a request of Ada on the pro plan. *)
Lemma generation_succeeds_witness :
  Generate.POST generate_server acme_request ada_is_pro =
    (json_ok (BGenerated "PROPOSAL"
       {| id := "proposal-4"; user_id := "user-ada"; client_name := "Acme";
          notes := "notes"; proposal := "PROPOSAL"; created_at := four_seconds_later |}),
     {| profiles := profiles ada_is_pro;
        proposals :=
          [{| id := "proposal-4"; user_id := "user-ada"; client_name := "Acme";
              notes := "notes"; proposal := "PROPOSAL";
              created_at := four_seconds_later |}];
        trace := [AuthGetUser "token-ada"; ProfilesSelectPlan "user-ada";
                  OpenAIChatCompletionsCreate (Generate.prompt_of "Acme" "notes");
                  ProposalsInsert
                    {| id := "proposal-4"; user_id := "user-ada";
                       client_name := "Acme"; notes := "notes";
                       proposal := "PROPOSAL"; created_at := four_seconds_later |}] |}).
Proof.
  apply (generation_succeeds_and_saves generate_server acme_request ada_is_pro
           _ "token-ada" ada
           {| Generate.clientName := Some "Acme"; Generate.body_notes := Some "notes" |}
           "Acme" "notes" (Some "PROPOSAL") ada_is_let_through_as_pro).
  - reflexivity.
  - reflexivity.
  - discriminate.
  - reflexivity.
  - discriminate.
  - reflexivity.
  - reflexivity.
  - reflexivity.
Defined.

(** X13 at a provider that throws, and at an insert that fails. *)
Lemma failure_after_the_quota_check_witness :
  run (Generate.POST (generate_server_where false false None provider_throws)
         acme_request) ada_is_pro
    = json (BError "Rate limit reached") 500 ∧
  proposals (exec (Generate.POST
                     (generate_server_where false false None provider_throws)
                     acme_request) ada_is_pro) = [] ∧
  run (Generate.POST
         (generate_server_where false false (Some "duplicate key") provider_answers)
         acme_request) ada_is_pro
    = json (BError "Save failed: duplicate key") 500 ∧
  proposals (exec (Generate.POST
                     (generate_server_where false false (Some "duplicate key")
                        provider_answers)
                     acme_request) ada_is_pro) = [].
Proof.
  assert (Hthrough : ∀ insert_error create,
    Generate.let_through (generate_server_where false false insert_error create)
      acme_request ada_is_pro "token-ada" ada
      (Generate.after [AuthGetUser "token-ada"; ProfilesSelectPlan "user-ada"]
         ada_is_pro)).
  { intros insert_error create. split; [apply ada_is_authenticated_where|].
    split; [reflexivity|]. left. split; reflexivity. }
  pose proof (proj1 (failure_after_the_quota_check_leaves_no_row
                (generate_server_where false false None provider_throws)
                acme_request ada_is_pro _ "token-ada" ada
                {| Generate.clientName := Some "Acme";
                   Generate.body_notes := Some "notes" |}
                "Acme" "notes" (Hthrough _ _) eq_refl eq_refl
                ltac:(discriminate) eq_refl ltac:(discriminate) eq_refl)
              (Js.new_Error "Rate limit reached") eq_refl) as Hthrows.
  pose proof (proj2 (failure_after_the_quota_check_leaves_no_row
                (generate_server_where false false (Some "duplicate key")
                   provider_answers)
                acme_request ada_is_pro _ "token-ada" ada
                {| Generate.clientName := Some "Acme";
                   Generate.body_notes := Some "notes" |}
                "Acme" "notes" (Hthrough _ _) eq_refl eq_refl
                ltac:(discriminate) eq_refl ltac:(discriminate) eq_refl)
              (Some "PROPOSAL") "duplicate key" eq_refl eq_refl) as Hinsert.
  unfold run, exec. rewrite Hthrows, Hinsert. repeat split.
Defined.

(** X14 at the third proposal of Ada in November, and at a request
    made in the last seconds of October whose row the store dates in
    November: it counts for the window of November. *)
Lemma successful_generation_counts_once_witness :
  Generate.count_since "user-ada" (Generate.startOfMonth november_2nd)
    (proposals (exec (Generate.POST generate_server acme_request) ada_used_two))
    = 3%nat ∧
  Generate.count_since "user-bob" (Generate.startOfMonth november_2nd)
    (proposals (exec (Generate.POST generate_server acme_request) ada_used_two))
    = 0%nat ∧
  Generate.count_since "user-ada" (Generate.startOfMonth november_2nd)
    (proposals (exec (Generate.POST midnight_server acme_request) ada_used_two))
    = 3%nat.
Proof.
  split; [|split].
  - rewrite (successful_generation_counts_once_for_its_owner
               generate_server acme_request ada_used_two "token-ada" ada
               "user-ada" (Generate.startOfMonth november_2nd)
               ada_is_authenticated eq_refl).
    reflexivity.
  - rewrite (successful_generation_counts_once_for_its_owner
               generate_server acme_request ada_used_two "token-ada" ada
               "user-bob" (Generate.startOfMonth november_2nd)
               ada_is_authenticated eq_refl).
    reflexivity.
  - assert (Hauth : Generate.authenticated midnight_server acme_request
                      "token-ada" ada) by (repeat split; done).
    rewrite (successful_generation_counts_once_for_its_owner
               midnight_server acme_request ada_used_two "token-ada" ada
               "user-ada" (Generate.startOfMonth november_2nd)
               Hauth eq_refl).
    reflexivity.
Defined.

(** X15 at the third and the fourth request of Ada in November. *)
Lemma fourth_attempt_witness :
  Generate.POST generate_server acme_request
      (exec (Generate.POST generate_server acme_request) ada_used_two) =
    (json (BLimit Generate.limit_message "FREE_LIMIT_REACHED" 3 3) 402,
     Generate.after
       [AuthGetUser "token-ada"; ProfilesSelectPlan "user-ada";
        ProposalsCount "user-ada" (Generate.startOfMonth november_2nd)]
       (exec (Generate.POST generate_server acme_request) ada_used_two)).
Proof.
  apply (fourth_attempt_of_the_month_is_rejected
           generate_server generate_server acme_request acme_request ada_used_two
           "token-ada" "token-ada" ada).
  - exact ada_is_authenticated.
  - reflexivity.
  - exact ada_is_authenticated.
  - reflexivity.
  - reflexivity.
  - reflexivity.
  - reflexivity.
  - reflexivity.
Defined.

(** X16 at the checkout of Ada, who has used the three free
    proposals of the month. *)
Lemma upgrade_lifts_the_quota_witness :
  Generate.POST generate_server acme_request
      (exec (Webhook.POST (stripe_server 1000) (signed "checkout")) ada_used_three) =
    Generate.catch_all (Generate.generate_and_save generate_server acme_request ada)
      (Generate.after [AuthGetUser "token-ada"; ProfilesSelectPlan "user-ada"]
         (exec (Webhook.POST (stripe_server 1000) (signed "checkout"))
            ada_used_three)).
Proof.
  apply (upgrade_lifts_the_quota
           (stripe_server 1000) (signed "checkout") generate_server acme_request
           ada_used_three (ada_session (Webhook.ExpId "sub_ada")) "token-ada" ada).
  - apply (verified_signed 1000 "checkout").
  - reflexivity.
  - reflexivity.
  - discriminate.
  - reflexivity.
  - exact ada_is_authenticated.
  - reflexivity.
Defined.

(** X17 at the cancellation of Ada, who has made three proposals
    this month. *)
Lemma cancellation_restores_the_quota_witness :
  Generate.POST generate_server acme_request
      (exec (Webhook.POST (stripe_server 2000) (signed "deleted"))
         ada_pro_used_three) =
    (json (BLimit Generate.limit_message "FREE_LIMIT_REACHED" 3 3) 402,
     Generate.after
       [AuthGetUser "token-ada"; ProfilesSelectPlan "user-ada";
        ProposalsCount "user-ada" (Generate.startOfMonth november_2nd)]
       (exec (Webhook.POST (stripe_server 2000) (signed "deleted"))
          ada_pro_used_three)).
Proof.
  apply (cancellation_restores_the_quota
           (stripe_server 2000) (signed "deleted") generate_server acme_request
           ada_pro_used_three (ada_subscription "canceled") "cus_ada" ada_profile
           "token-ada" ada).
  - apply (verified_signed 2000 "deleted").
  - reflexivity.
  - exact ada_is_the_sole_profile.
  - split; reflexivity.
  - exact ada_is_authenticated.
  - reflexivity.
  - reflexivity.
  - vm_compute. lia.
Defined.

(** X18 at the checkout request of Ada. *)
Lemma checkout_session_witness :
  status (run (Checkout.POST checkout_server
                 (checkout_request (Some "ada@example.com") (Some "user-ada")))
            empty_world) = 200%nat ∧
  ∃ params url,
    sp_customer_email params = "ada@example.com" ∧
    sp_metadata_user_id params = "user-ada" ∧
    sp_mode params = "subscription" ∧
    Checkout.sessions_create checkout_server params = inr url ∧
    run (Checkout.POST checkout_server
           (checkout_request (Some "ada@example.com") (Some "user-ada")))
      empty_world = json_ok (BUrl url).
Proof.
  split; [reflexivity|].
  destruct (checkout_session_carries_the_caller checkout_server
              (checkout_request (Some "ada@example.com") (Some "user-ada"))
              empty_world) as (_ & _ & t & _ & Hall & H200).
  destruct (H200 eq_refl) as (params & url & Hin & Hcreate & Hrun).
  destruct (Hall params Hin) as (b & Hb & Hemail & _ & Huid & _ & Hmode & _).
  simpl in Hb. injection Hb as <-. simpl in Hemail, Huid.
  injection Hemail as Hemail. injection Huid as Huid.
  exists params, url. repeat split; done.
Defined.

(** X19 at a body without [userId], and at a user without profile. *)
Lemma portal_needs_a_customer_witness :
  Portal.POST portal_server (portal_request None) (Portal.at_world ada_is_pro)
    = (json (BError "Missing userId") 400, Portal.at_world ada_is_pro) ∧
  Portal.POST portal_server (portal_request (Some "user-bob"))
      (Portal.at_world ada_is_pro)
    = (json (BError "No Stripe customer found for this user yet.") 400,
       {| Portal.table := profiles ada_is_pro;
          Portal.calls := [Portal.ProfilesSelectCustomerId "user-bob"] |}).
Proof.
  split.
  - apply (proj1 (portal_needs_a_user_with_a_customer portal_server
                    (portal_request None) (Portal.at_world ada_is_pro))).
    reflexivity.
  - apply (proj2 (portal_needs_a_user_with_a_customer portal_server
                    (portal_request (Some "user-bob")) (Portal.at_world ada_is_pro))
             "user-bob").
    + reflexivity.
    + discriminate.
    + reflexivity.
    + vm_compute. reflexivity.
Defined.

(** X20 at the portal request of Ada. *)
Lemma portal_opens_the_stored_customer_witness :
  status (Portal.POST portal_server (portal_request (Some "user-ada"))
            (Portal.at_world ada_is_pro)).1 = 200%nat ∧
  ∃ customer url,
    profiles ada_is_pro !! "user-ada" ≫= stripe_customer_id = Some customer ∧
    Portal.billingPortal_sessions_create portal_server customer
      (Portal.siteUrl portal_server) = inr url ∧
    (Portal.POST portal_server (portal_request (Some "user-ada"))
       (Portal.at_world ada_is_pro)).1 = json_ok (BUrl url).
Proof.
  split; [vm_compute; reflexivity|].
  destruct (portal_opens_only_the_stored_customer portal_server
              (portal_request (Some "user-ada")) (Portal.at_world ada_is_pro))
    as (_ & t & _ & Hall & H200).
  assert (Hstatus : status (Portal.POST portal_server (portal_request (Some "user-ada"))
                              (Portal.at_world ada_is_pro)).1 = 200%nat)
    by (vm_compute; reflexivity).
  destruct (H200 Hstatus) as (customer & url & Hin & Hcreate & Hrun).
  destruct (Hall customer _ Hin) as (uid & p & Huid & Hp & Hcust & _).
  simpl in Huid. injection Huid as <-.
  change (profiles ada_is_pro !! "user-ada" = Some p) in Hp.
  exists customer, url. split; [|by split].
  rewrite Hp. exact Hcust.
Defined.

(** X21 at the checkout of Ada. *)
Lemma portal_after_checkout_witness :
  Portal.POST portal_server (portal_request (Some "user-ada"))
      (Portal.at_world after_first_delivery) =
    (json_ok (BUrl (Some "https://billing.stripe.com/p/session/cus_ada")),
     {| Portal.table := profiles after_first_delivery;
        Portal.calls :=
          [Portal.ProfilesSelectCustomerId "user-ada";
           Portal.BillingPortalSessionsCreate "cus_ada"
             "https://proposalhq.example"] |}).
Proof.
  apply (portal_opens_the_customer_of_the_checkout
           (stripe_server 1000) (signed "checkout") empty_world
           (ada_session (Webhook.ExpId "sub_ada")) "user-ada" "cus_ada"
           portal_server (portal_request (Some "user-ada"))).
  - apply (verified_signed 1000 "checkout").
  - reflexivity.
  - reflexivity.
  - discriminate.
  - reflexivity.
  - discriminate.
  - reflexivity.
  - reflexivity.
  - reflexivity.
  - reflexivity.
Defined.

(** X22 at the cancellation of Ada. *)
Lemma portal_after_cancellation_witness :
  plan <$> profiles (exec (Webhook.POST (stripe_server 2000) (signed "deleted"))
                       ada_is_pro) !! "user-ada" = Some free ∧
  Portal.POST portal_server (portal_request (Some "user-ada"))
      (Portal.at_world
         (exec (Webhook.POST (stripe_server 2000) (signed "deleted")) ada_is_pro)) =
    (json_ok (BUrl (Some "https://billing.stripe.com/p/session/cus_ada")),
     {| Portal.table :=
          profiles (exec (Webhook.POST (stripe_server 2000) (signed "deleted"))
                      ada_is_pro);
        Portal.calls :=
          [Portal.ProfilesSelectCustomerId "user-ada";
           Portal.BillingPortalSessionsCreate "cus_ada"
             "https://proposalhq.example"] |}).
Proof.
  apply (portal_still_opens_after_cancellation
           (stripe_server 2000) (signed "deleted") ada_is_pro
           (ada_subscription "canceled") "user-ada" "cus_ada" ada_profile
           portal_server (portal_request (Some "user-ada"))).
  - apply (verified_signed 2000 "deleted").
  - reflexivity.
  - discriminate.
  - exact ada_is_the_sole_profile.
  - split; reflexivity.
  - reflexivity.
  - discriminate.
  - reflexivity.
  - reflexivity.
Defined.

(** X23 at the page of Ada. *)
Lemma enabled_page_request_witness :
  Page.canGenerate page_of_ada = true ∧
  Generate.bearer_token
    (authHeader (Page.generate_request "token-ada" page_of_ada)) = Some "token-ada" ∧
  status (run (Generate.POST generate_server
                 (Page.generate_request "token-ada" page_of_ada)) ada_used_three)
    ≠ 400%nat.
Proof.
  split; [reflexivity|].
  destruct (enabled_page_request_passes_the_server_checks
              page_of_ada "token-ada" generate_server ada_used_three eq_refl)
    as (Htoken & _ & H400).
  split; [exact Htoken|exact H400].
Defined.

(** X24 at the first visit of Ada: the profile is created, [free],
    with her email. *)
Lemma loading_the_plan_witness :
  ∃ p,
    profiles (Page.ensureProfileAndLoadPlan browser "user-ada"
                (Some "ada@example.com") (page_of_ada, ada_used_two)).2
      !! "user-ada" = Some p ∧
    plan p = free ∧ email p = Some "ada@example.com".
Proof.
  destruct (loading_the_plan_never_overwrites_a_profile browser "user-ada"
              (Some "ada@example.com") page_of_ada ada_used_two)
    as (_ & _ & _ & _ & Hok & _).
  destruct (Hok eq_refl) as (p & Hp & _ & Hnew).
  exists p. split; [exact Hp|]. apply Hnew. reflexivity.
Defined.

(** X25 at the checkout of Ada. *)
Lemma page_shows_pro_witness :
  Page.s_plan (Page.ensureProfileAndLoadPlan browser "user-ada"
                 (Some "ada@example.com") (page_of_ada, after_first_delivery)).1
    = pro ∧
  Page.s_error (Page.ensureProfileAndLoadPlan browser "user-ada"
                  (Some "ada@example.com") (page_of_ada, after_first_delivery)).1
    = None ∧
  (Page.ensureProfileAndLoadPlan browser "user-ada"
     (Some "ada@example.com") (page_of_ada, after_first_delivery)).2
    = after_first_delivery.
Proof.
  apply (page_shows_pro_after_the_checkout browser
           (stripe_server 1000) (signed "checkout") empty_world
           (ada_session (Webhook.ExpId "sub_ada")) "user-ada"
           (Some "ada@example.com") page_of_ada).
  - apply (verified_signed 1000 "checkout").
  - reflexivity.
  - reflexivity.
  - discriminate.
  - reflexivity.
  - reflexivity.
Defined.

(** X26 at the three proposals of Ada. *)
Lemma history_witness :
  length (Page.s_rows (Page.loadHistory browser (page_of_ada, ada_used_three)).1)
    = 3%nat ∧
  StronglySorted Page.newer_or_same
    (Page.s_rows (Page.loadHistory browser (page_of_ada, ada_used_three)).1) ∧
  Page.s_rows (Page.loadHistory browser (page_of_ada, ada_used_three)).1
    ≡ₚ proposals ada_used_three.
Proof.
  destruct (history_lists_the_newest_proposals_of_the_user browser page_of_ada
              ada_used_three "user-ada" eq_refl ltac:(discriminate) eq_refl)
    as (_ & _ & Hlen & Hsorted & _ & Hall).
  split; [exact Hlen|]. split; [exact Hsorted|].
  apply Hall. vm_compute. lia.
Defined.

(** X27 at the third proposal of Ada. *)
Lemma generated_proposal_in_history_witness :
  ∃ text saved,
    run (Generate.POST generate_server acme_request) ada_used_two
      = json_ok (BGenerated text saved) ∧
    proposal saved = text ∧
    saved ∈ Page.s_rows
      (Page.loadHistory browser
         (page_of_ada, exec (Generate.POST generate_server acme_request)
                         ada_used_two)).1.
Proof.
  apply (generated_proposal_appears_in_the_history browser generate_server
           acme_request ada_used_two "token-ada" ada page_of_ada).
  - exact ada_is_authenticated.
  - reflexivity.
  - reflexivity.
  - discriminate.
  - reflexivity.
  - vm_compute. lia.
Defined.

(** X28 at the second proposal of Ada. *)
Lemma deleting_witness :
  proposal_of_ada "proposal-1" 1
    ∈ proposals (Page.deleteProposal browser "proposal-2"
                   (page_of_ada, ada_used_three)).2 ∧
  proposal_of_ada "proposal-2" 1
    ∉ proposals (Page.deleteProposal browser "proposal-2"
                   (page_of_ada, ada_used_three)).2.
Proof.
  destruct (deleting_removes_only_own_rows_with_that_id browser "proposal-2"
              page_of_ada ada_used_three)
    as (_ & _ & Hkept & _ & Hgone & _).
  split.
  - apply Hkept; [apply list_elem_of_here|]. left. discriminate.
  - intros Hin. apply (Hgone eq_refl eq_refl _ Hin). split; reflexivity.
Defined.

(** X29 at Ada deleting the second of her three proposals. *)
Lemma deleting_frees_quota_witness :
  (Generate.used_this_month generate_server "user-ada"
     (Page.deleteProposal browser "proposal-2" (page_of_ada, ada_used_three)).2
   < 3)%nat ∧
  Generate.POST generate_server acme_request
      (Page.deleteProposal browser "proposal-2" (page_of_ada, ada_used_three)).2 =
    Generate.catch_all (Generate.generate_and_save generate_server acme_request ada)
      (Generate.after
         [AuthGetUser "token-ada"; ProfilesSelectPlan "user-ada";
          ProposalsCount "user-ada" (Generate.startOfMonth november_2nd)]
         (Page.deleteProposal browser "proposal-2" (page_of_ada, ada_used_three)).2).
Proof.
  apply (deleting_a_counted_proposal_frees_quota browser generate_server
           acme_request "token-ada" ada "proposal-2"
           (proposal_of_ada "proposal-2" 1) page_of_ada ada_used_three).
  - reflexivity.
  - discriminate.
  - reflexivity.
  - apply list_elem_of_further, list_elem_of_here.
  - reflexivity.
  - reflexivity.
  - vm_compute. exact I.
  - reflexivity.
  - exact ada_is_authenticated.
  - reflexivity.
  - reflexivity.
  - reflexivity.
Defined.

(** X30 at a click of Ada with two proposals this month: the third
    is stored and shown. *)
Lemma generate_click_witness :
  ∃ row,
    proposals (Page.generateProposal browser generate_server
                 (page_of_ada, ada_used_two)).2
      = (proposals ada_used_two ++ [row])%list ∧
    Page.s_proposal (Page.generateProposal browser generate_server
                       (page_of_ada, ada_used_two)).1 = "PROPOSAL" ∧
    Page.s_activeId (Page.generateProposal browser generate_server
                       (page_of_ada, ada_used_two)).1 = Some (id row).
Proof.
  destruct (generate_click_ends_with_a_message_or_a_saved_row browser
              generate_server page_of_ada ada_used_two)
    as (_ & _ & [(Hsame & _)|(row & Hrow & _ & Hshown)]).
  - vm_compute in Hsame. discriminate Hsame.
  - exists row. split; [exact Hrow|]. split; [reflexivity|].
    apply Hshown. intros Hid. vm_compute in Hrow.
    injection Hrow as <-. discriminate Hid.
Defined.

End FurtherInstances.
